(** * AI Scrum Master meeting agent: session lifecycle and transcript pipeline

    A shallow embedding of the parts of the service that carry invariants:

    - [main.py]: the text-intelligence wrappers ([clean_text_with_openrouter],
      [analyze_context_with_openrouter], [generate_meeting_summary]), the
      chunk and final-transcript endpoints, the session-history read and the
      stop / status endpoints;
    - [bot_service.py]: [MeetingAgent.stop] and the caption scan
      [_parse_current_captions];
    - [bot.py]: the status polling loop [poll_agent_status].

    Python [str] values are sequences of Unicode code points, dictionaries
    keyed by strings are finite maps, Python sets are finite sets.  Network
    calls, the browser page, the clock and the chat API are inputs of the
    functions that await them: every await point receives its outcome from
    an explicit environment record. *)

From Stdlib Require Import ZArith NArith List Bool Lia String Ascii.
From stdpp Require Import base option list gmap.

Import ListNotations.
Local Open Scope list_scope.

(** ** Python strings *)

Module PyStr.

(** A [str] is a list of code points. *)
Abbreviation pystr := (list N).

Definition byte_of_ascii (a : ascii) : N := N_of_ascii a.

Fixpoint bytes_of_string (s : string) : list N :=
  match s with
  | EmptyString => []
  | String a r => byte_of_ascii a :: bytes_of_string r
  end.

(** UTF-8 decoding of the bytes of a source literal (well-formed input). *)
Fixpoint utf8_decode (bs : list N) : pystr :=
  match bs with
  | [] => []
  | b0 :: r0 =>
      if (b0 <? 128)%N then b0 :: utf8_decode r0
      else if (b0 <? 224)%N then
        match r0 with
        | b1 :: r1 => ((b0 - 192) * 64 + (b1 - 128))%N :: utf8_decode r1
        | _ => []
        end
      else if (b0 <? 240)%N then
        match r0 with
        | b1 :: b2 :: r2 =>
            ((b0 - 224) * 4096 + (b1 - 128) * 64 + (b2 - 128))%N :: utf8_decode r2
        | _ => []
        end
      else
        match r0 with
        | b1 :: b2 :: b3 :: r3 =>
            ((b0 - 240) * 262144 + (b1 - 128) * 4096 + (b2 - 128) * 64 + (b3 - 128))%N
              :: utf8_decode r3
        | _ => []
        end
  end.

Definition lit (s : string) : pystr := utf8_decode (bytes_of_string s).

(** *** Comparison, search and slicing *)

Fixpoint str_eqb (a b : pystr) : bool :=
  match a, b with
  | [], [] => true
  | x :: a', y :: b' => N.eqb x y && str_eqb a' b'
  | _, _ => false
  end.

(** [s.startswith(p)] *)
Fixpoint startswith (s p : pystr) : bool :=
  match p, s with
  | [], _ => true
  | x :: p', y :: s' => N.eqb x y && startswith s' p'
  | _ :: _, [] => false
  end.

(** [sub in s] *)
Fixpoint contains (s sub : pystr) : bool :=
  startswith s sub ||
  match s with
  | [] => false
  | _ :: s' => contains s' sub
  end.

(** [s.find(sub)]: the least index at which [sub] occurs, [-1] when it does
    not occur. *)
Fixpoint find (s sub : pystr) : Z :=
  if startswith s sub then 0%Z
  else match s with
       | [] => (-1)%Z
       | _ :: s' => let i := find s' sub in
                    if (i <? 0)%Z then (-1)%Z else (i + 1)%Z
       end.

(** [l[i:]] with Python's treatment of negative and out-of-range indices. *)
Definition slice_from {A : Type} (i : Z) (l : list A) : list A :=
  if (i <? 0)%Z
  then drop (Z.to_nat (Z.max 0 (Z.of_nat (length l) + i))) l
  else drop (Z.to_nat i) l.

(** [x in l] for a list of strings. *)
Definition str_in (x : pystr) (l : list pystr) : bool :=
  existsb (str_eqb x) l.

(** *** Whitespace

    The code points for which [str.isspace] holds; [str.strip()] removes
    them from both ends. *)
Definition isspace (c : N) : bool :=
  ((9 <=? c) && (c <=? 13) || (28 <=? c) && (c <=? 32) ||
   (c =? 133) || (c =? 160) || (c =? 5760) ||
   (8192 <=? c) && (c <=? 8202) ||
   (c =? 8232) || (c =? 8233) || (c =? 8239) || (c =? 8287) ||
   (c =? 12288))%N.

Fixpoint lstrip (s : pystr) : pystr :=
  match s with
  | [] => []
  | c :: r => if isspace c then lstrip r else s
  end.

Definition rstrip (s : pystr) : pystr := rev (lstrip (rev s)).

Definition strip (s : pystr) : pystr := rstrip (lstrip s).

(** *** Splitting, joining and replacing *)

(** [s.split(c)] for a one-character separator. *)
Fixpoint split_on (c : N) (s : pystr) : list pystr :=
  match s with
  | [] => [[]]
  | x :: r =>
      if N.eqb x c then [] :: split_on c r
      else match split_on c r with
           | h :: t => (x :: h) :: t
           | [] => [[x]]
           end
  end.

(** [s.split(c, 1)]: the text before the first [c] and, when [c] occurs,
    the text after it. *)
Fixpoint split_once (c : N) (s : pystr) : pystr * option pystr :=
  match s with
  | [] => ([], None)
  | x :: r =>
      if N.eqb x c then ([], Some r)
      else let '(h, t) := split_once c r in (x :: h, t)
  end.

(** [sep.join(l)] *)
Fixpoint join (sep : pystr) (l : list pystr) : pystr :=
  match l with
  | [] => []
  | [x] => x
  | x :: r => x ++ sep ++ join sep r
  end.

(** The left-to-right scan of [s.replace(old, new)] for a non-empty [old]:
    [skip] counts the characters of a match still to be dropped. *)
Fixpoint replace_go (old new : pystr) (skip : nat) (s : pystr) : pystr :=
  match s with
  | [] => []
  | c :: r =>
      match skip with
      | S k => replace_go old new k r
      | O =>
          if startswith s old
          then new ++ replace_go old new (length old - 1) r
          else c :: replace_go old new O r
      end
  end.

(** [s.replace(old, new)]; an empty [old] matches between any two
    characters and at both ends. *)
Definition replace (s old new : pystr) : pystr :=
  match old with
  | [] => new ++ flat_map (fun c => c :: new) s
  | _ :: _ => replace_go old new 0 s
  end.

(** *** Decimal rendering of a non-negative integer ([str(n)]) *)

Fixpoint dec_digits (fuel : nat) (n : N) (acc : pystr) : pystr :=
  match fuel with
  | O => acc
  | S f =>
      let acc' := (48 + n mod 10)%N :: acc in
      if (n / 10 =? 0)%N then acc' else dec_digits f (n / 10)%N acc'
  end.

Definition str_of_N (n : N) : pystr :=
  dec_digits (S (N.to_nat (N.log2 n))) n [].

(** *** Characters and literals used by the service *)

Definition ch_nl : N := 10.
Definition ch_space : N := 32.
Definition ch_star : N := 42.
Definition ch_comma : N := 44.
Definition ch_colon : N := 58.
Definition ch_semicolon : N := 59.
Definition ch_lbracket : N := 91.
Definition ch_rbracket : N := 93.

End PyStr.

Import PyStr.

(** ** The parts of the Python runtime that rest on Unicode tables

    Case mapping, the digit property and the regular-expression engine are
    library code; the service is modelled over any implementation of
    them. *)

Class PyRuntime := {
  (** [str.upper] *)
  py_upper : pystr -> pystr;
  (** [str.lower] *)
  py_lower : pystr -> pystr;
  (** [str.isdigit] on one character *)
  py_isdigit : N -> bool;
  (** [re.findall(r'(\w+):\s', s)] *)
  findall_speakers : pystr -> list pystr;
  (** [re.findall(username_patterns[i], s, re.IGNORECASE)] *)
  findall_usernames : nat -> pystr -> list pystr
}.

(** ** Exceptions and effects

    A handler of the backend runs against the module-level dictionaries and
    the network.  Its model is a function from the backend state to a value
    or a raised exception, together with the state it leaves behind; what
    it changed before raising stays changed. *)

Inductive pyexn : Type :=
| HTTPException (status_code : Z) (detail : pystr)
| KeyError (key : pystr)
| RuntimeError (msg : pystr).

Inductive exc (A : Type) : Type :=
| Val (a : A)
| Raise (e : pyexn).
Arguments Val {A} a.
Arguments Raise {A} e.

(** [str(e)]; an [HTTPException] prints as its status code and detail. *)
Definition str_of_exn (e : pyexn) : pystr :=
  match e with
  | HTTPException c d => str_of_N (Z.to_N c) ++ lit ": " ++ d
  | KeyError k => lit "'" ++ k ++ lit "'"
  | RuntimeError m => m
  end.

(** The outcome of one HTTP request to the text-intelligence service:
    the client raised, or it returned a status code, the body text and,
    for a body that is JSON of the chat-completion form, the string at
    [choices[0].message.content]. *)
Inductive completion : Type :=
| Content (c : pystr)
| Malformed (why : pystr).

Inductive http_result : Type :=
| HttpFailed (why : pystr)
| HttpResponse (status_code : Z) (text : pystr) (body : completion).

(** ** Data model of the backend ([main.py]) *)

(** One entry of a session's [chunks] list. *)
Record Chunk : Type := mkChunk {
  chunk_timestamp : pystr;
  chunk_original : pystr;
  chunk_cleaned : pystr
}.

(** A value of the [session_history] dictionary. *)
Record SessionData : Type := mkSessionData {
  chunks : list Chunk;
  questions_asked : Z;
  participants : gset pystr;
  created_at : pystr;
  status : option pystr;
  completed_at : option pystr
}.

Record ChunkProcessRequest : Type := mkChunkRequest {
  cr_session_id : pystr;
  cr_text_chunk : pystr;
  cr_timestamp : pystr
}.

Inductive action : Type := ask_question | continue.

Record ChunkProcessResponse : Type := mkChunkResponse {
  resp_action : action;
  resp_question_text : option pystr;
  resp_cleaned_text : option pystr
}.

Record FinalTranscriptRequest : Type := mkFinalRequest {
  fr_session_id : pystr;
  fr_full_raw_transcript : pystr
}.

Record MeetingSummary : Type := mkMeetingSummary {
  ms_participants : list pystr;
  ms_key_decisions : list pystr;
  ms_action_items : list pystr;
  ms_questions_asked : list pystr;
  ms_meeting_duration : pystr;
  ms_summary_text : pystr
}.

Record FinalTranscriptResponse : Type := mkFinalResponse {
  ft_success : bool;
  ft_summary : option MeetingSummary;
  ft_telegram_sent : bool;
  ft_message : pystr
}.

(** The fields of [MeetingAgent] that the endpoints read or write. *)
Record MeetingAgent : Type := mkMeetingAgent {
  agent_session_id : pystr;
  agent_meeting_url : pystr;
  agent_status : pystr;
  agent_error_message : option pystr;
  agent_should_stop : bool;
  agent_driver : bool;
  agent_seen_captions : gset pystr
}.

(** Requests leaving the process, in the order in which they are made. *)
Inductive request : Type :=
| ReqClean (text : pystr)
| ReqGate (context current : pystr) (asked : Z)
| ReqSummary (transcript : pystr)
| ReqTelegram (session_id : pystr) (summary : MeetingSummary)
| ReqFinalTranscript (session_id transcript : pystr)
| ReqDriverQuit (session_id : pystr).

(** The module-level state: the two dictionaries and the requests made so
    far. *)
Record Backend : Type := mkBackend {
  session_history : gmap pystr SessionData;
  active_sessions : gmap pystr MeetingAgent;
  outbox : list request
}.

(** [ai_configured] and the presence of [TELEGRAM_BOT_TOKEN], both fixed
    when the module is loaded. *)
Record Config : Type := mkConfig {
  ai_configured : bool;
  telegram_configured : bool
}.

(** *** The handler monad *)

Definition Py (A : Type) : Type := Backend -> exc A * Backend.

Definition ret {A : Type} (a : A) : Py A := fun s => (Val a, s).

Definition bind {A B : Type} (m : Py A) (k : A -> Py B) : Py B :=
  fun s =>
    match m s with
    | (Val a, s') => k a s'
    | (Raise e, s') => (Raise e, s')
    end.

Definition raise {A : Type} (e : pyexn) : Py A := fun s => (Raise e, s).

(** [try: body except Exception as e: handler(e)] *)
Definition try_except {A : Type} (body : Py A) (handler : pyexn -> Py A) : Py A :=
  fun s =>
    match body s with
    | (Val a, s') => (Val a, s')
    | (Raise e, s') => handler e s'
    end.

Definition gets {A : Type} (f : Backend -> A) : Py A := fun s => (Val (f s), s).

Definition modify (f : Backend -> Backend) : Py unit := fun s => (Val tt, f s).

Notation "x <~ m ; k" := (bind m (fun x => k))
  (at level 200, m at level 100, k at level 200, right associativity,
   format "'[v' x  <~  m ; '/' k ']'").
Notation "m >> k" := (bind m (fun _ => k))
  (at level 200, k at level 200, right associativity, only parsing).

(** Sending a request: it is recorded, and the client returns or raises as
    the network decides. *)
Definition http_post (q : request) (r : http_result) : Py (Z * pystr * completion) :=
  modify (fun s => mkBackend (session_history s) (active_sessions s) (outbox s ++ [q])) >>
  match r with
  | HttpFailed why => raise (RuntimeError why)
  | HttpResponse code text body => ret (code, text, body)
  end.

(** [response.json()['choices'][0]['message']['content']] *)
Definition message_content (b : completion) : Py pystr :=
  match b with
  | Content c => ret c
  | Malformed why => raise (RuntimeError why)
  end.

Definition set_session_history (h : gmap pystr SessionData) : Py unit :=
  modify (fun s => mkBackend h (active_sessions s) (outbox s)).

Definition set_active_sessions (a : gmap pystr MeetingAgent) : Py unit :=
  modify (fun s => mkBackend (session_history s) a (outbox s)).

(** [session_history[sid]], a [KeyError] when the key is absent. *)
Definition get_session (sid : pystr) : Py SessionData :=
  h <~ gets session_history;
  match h !! sid with
  | Some sd => ret sd
  | None => raise (KeyError sid)
  end.

(** In-place update of the dictionary stored under [sid]. *)
Definition update_session (sid : pystr) (f : SessionData -> SessionData) : Py unit :=
  sd <~ get_session sid;
  h <~ gets session_history;
  set_session_history (<[sid := f sd]> h).

(** ** Text-intelligence wrappers ([main.py]) *)

Module Tokens.
Definition need_question : pystr := Eval vm_compute in lit "НУЖЕН_ВОПРОС:".
Definition yes : pystr := Eval vm_compute in lit "Да".
Definition question : pystr := Eval vm_compute in lit "ВОПРОС:".
Definition participants_md : pystr := Eval vm_compute in lit "**УЧАСТНИКИ:**".
Definition participants : pystr := Eval vm_compute in lit "УЧАСТНИКИ:".
Definition key_decisions : pystr := Eval vm_compute in lit "КЛЮЧЕВЫЕ_РЕШЕНИЯ:".
Definition key_decisions_sp : pystr := Eval vm_compute in lit "КЛЮЧЕВЫЕ РЕШЕНИЯ:".
Definition action_items : pystr := Eval vm_compute in lit "ЗАДАЧИ_И_ДЕЙСТВИЯ:".
Definition action_items_sp : pystr := Eval vm_compute in lit "ЗАДАЧИ И ДЕЙСТВИЯ:".
Definition questions : pystr := Eval vm_compute in lit "ВОПРОСЫ_ОБСУЖДЕННЫЕ:".
Definition questions_sp : pystr := Eval vm_compute in lit "ВОПРОСЫ ОБСУЖДЕННЫЕ:".
Definition summary : pystr := Eval vm_compute in lit "ОБЩАЯ_СВОДКА:".
Definition summary_sp : pystr := Eval vm_compute in lit "ОБЩАЯ СВОДКА:".
Definition word_participants : pystr := Eval vm_compute in lit "УЧАСТНИКИ".
Definition word_key : pystr := Eval vm_compute in lit "КЛЮЧЕВЫЕ".
Definition word_tasks : pystr := Eval vm_compute in lit "ЗАДАЧИ".
Definition word_questions : pystr := Eval vm_compute in lit "ВОПРОСЫ".
Definition none_ru : pystr := Eval vm_compute in lit "нет".
Definition absent_ru : pystr := Eval vm_compute in lit "отсутствуют".
Definition dash_bullet : pystr := Eval vm_compute in lit "- ".
Definition dot_bullet : pystr := Eval vm_compute in lit "• ".
Definition dstar : pystr := [ch_star; ch_star].
Definition minutes : pystr := Eval vm_compute in lit " минут".
Definition tilde : pystr := Eval vm_compute in lit "~".
End Tokens.

(** [s.replace('**', '').replace('*', '')] *)
Definition strip_markdown (s : pystr) : pystr :=
  replace (replace s Tokens.dstar []) [ch_star] [].

(** [s.split(':', 1)[1].strip() if ':' in s else ''] *)
Definition after_colon (s : pystr) : pystr :=
  match split_once ch_colon s with
  | (_, Some r) => strip r
  | (_, None) => []
  end.

Definition nonempty (s : pystr) : bool :=
  match s with [] => false | _ :: _ => true end.

Section TextIntelligence.

Context {RT : PyRuntime}.
Variable cfg : Config.

(** [clean_text_with_openrouter]: any failure gives the text back. *)
Definition clean_text_with_openrouter (net : http_result) (text : pystr) : Py pystr :=
  if negb (ai_configured cfg) then ret text
  else
    try_except
      (resp <~ http_post (ReqClean text) net;
       let '(code, _, body) := resp in
       if (code =? 200)%Z then
         c <~ message_content body;
         ret (strip c)
       else ret text)
      (fun _ => ret text).

(** The loop over the lines of the gate's answer. *)
Definition gate_line (acc : bool * pystr) (line : pystr) : bool * pystr :=
  let '(needs_question, question_text) := acc in
  if startswith line Tokens.need_question
  then (contains line Tokens.yes, question_text)
  else if startswith line Tokens.question
  then (needs_question, strip (replace line Tokens.question []))
  else acc.

Definition parse_gate_answer (content : pystr) : bool * pystr :=
  fold_left gate_line (split_on ch_nl (strip content)) (false, []).

(** [analyze_context_with_openrouter] *)
Definition analyze_context_with_openrouter
    (net : http_result) (current_chunk : pystr) (history : list pystr)
    (asked : Z) : Py (bool * pystr) :=
  if negb (ai_configured cfg) then ret (false, [])
  else if (asked >=? 2)%Z then ret (false, [])
  else
    try_except
      (let context := join [ch_nl] (slice_from (-3) history) in
       resp <~ http_post (ReqGate context current_chunk asked) net;
       let '(code, _, body) := resp in
       if (code =? 200)%Z then
         c <~ message_content body;
         ret (parse_gate_answer c)
       else ret (false, []))
      (fun _ => ret (false, [])).

(** *** The summary parser *)

(** Lines 316-326: skip whatever precedes the structured part. *)
Definition extract_structured (raw_response : pystr) : pystr :=
  if contains raw_response Tokens.participants_md then
    let summary_start := find raw_response Tokens.participants_md in
    replace (slice_from summary_start raw_response) Tokens.dstar []
  else if contains raw_response Tokens.participants then
    let summary_start := find raw_response Tokens.participants in
    slice_from summary_start raw_response
  else raw_response.

Inductive section : Type :=
| sec_participants | sec_key_decisions | sec_action_items
| sec_questions_asked | sec_summary.

Record summary_parts : Type := mkParts {
  sp_participants : list pystr;
  sp_key_decisions : list pystr;
  sp_action_items : list pystr;
  sp_questions_asked : list pystr;
  sp_summary_text : pystr
}.

Definition empty_parts : summary_parts := mkParts [] [] [] [] [].

(** [summary_parts[current_section].append(item)] for the keys that hold a
    list; [summary] is not a key of the dictionary. *)
Definition append_item (cur : option section) (item : pystr) (p : summary_parts)
  : summary_parts :=
  match cur with
  | Some sec_participants =>
      mkParts (sp_participants p ++ [item]) (sp_key_decisions p)
              (sp_action_items p) (sp_questions_asked p) (sp_summary_text p)
  | Some sec_key_decisions =>
      mkParts (sp_participants p) (sp_key_decisions p ++ [item])
              (sp_action_items p) (sp_questions_asked p) (sp_summary_text p)
  | Some sec_action_items =>
      mkParts (sp_participants p) (sp_key_decisions p)
              (sp_action_items p ++ [item]) (sp_questions_asked p) (sp_summary_text p)
  | Some sec_questions_asked =>
      mkParts (sp_participants p) (sp_key_decisions p)
              (sp_action_items p) (sp_questions_asked p ++ [item]) (sp_summary_text p)
  | Some sec_summary | None => p
  end.

Definition set_participants (l : list pystr) (p : summary_parts) : summary_parts :=
  mkParts l (sp_key_decisions p) (sp_action_items p) (sp_questions_asked p)
          (sp_summary_text p).

Definition set_summary_text (t : pystr) (p : summary_parts) : summary_parts :=
  mkParts (sp_participants p) (sp_key_decisions p) (sp_action_items p)
          (sp_questions_asked p) t.

(** The participants header: the names after the colon. *)
Definition parse_participants (line : pystr) (p : summary_parts) : summary_parts :=
  let participants_text := after_colon line in
  let participants_text := strip_markdown participants_text in
  let participants_text :=
    replace (replace participants_text [ch_lbracket] []) [ch_rbracket] [] in
  if nonempty participants_text &&
     negb (str_in (py_lower participants_text) [[]; Tokens.none_ru; Tokens.absent_ru])
  then
    let parts :=
      map strip (split_on ch_comma (replace participants_text [ch_semicolon] [ch_comma])) in
    set_participants
      (List.filter (fun q => nonempty q && (1 <? length q)%nat) parts) p
  else p.

(** One iteration of the loop of lines 345-390. *)
Definition parse_line (st : option section * summary_parts) (raw_line : pystr)
  : option section * summary_parts :=
  let '(current_section, parts) := st in
  let line := strip raw_line in
  if negb (nonempty line) then st
  else
    let line_upper := strip_markdown (py_upper line) in
    if startswith line_upper Tokens.participants || startswith line Tokens.participants
    then (Some sec_participants, parse_participants line parts)
    else if startswith line_upper Tokens.key_decisions ||
            startswith line_upper Tokens.key_decisions_sp
    then (Some sec_key_decisions, parts)
    else if startswith line_upper Tokens.action_items ||
            startswith line_upper Tokens.action_items_sp
    then (Some sec_action_items, parts)
    else if startswith line_upper Tokens.questions ||
            startswith line_upper Tokens.questions_sp
    then (Some sec_questions_asked, parts)
    else if startswith line_upper Tokens.summary ||
            startswith line_upper Tokens.summary_sp
    then (Some sec_summary, set_summary_text (strip_markdown (after_colon line)) parts)
    else if startswith line Tokens.dash_bullet || startswith line Tokens.dot_bullet
    then
      let item :=
        if startswith line Tokens.dash_bullet
        then strip (slice_from 2 line) else strip (slice_from 1 line) in
      let item := strip_markdown item in
      if nonempty item && (2 <? length item)%nat
      then (current_section, append_item current_section item parts)
      else st
    else
      match current_section with
      | Some sec_summary =>
          if negb (startswith line Tokens.word_participants) &&
             negb (startswith line Tokens.word_key) &&
             negb (startswith line Tokens.word_tasks) &&
             negb (startswith line Tokens.word_questions)
          then (current_section,
                set_summary_text (sp_summary_text parts ++ [ch_space] ++ line) parts)
          else st
      | _ => st
      end.

Definition parse_summary (summary_text : pystr) : summary_parts :=
  snd (fold_left parse_line (split_on ch_nl summary_text) (None, empty_parts)).

(** [f"~{len(chunks) * 5} минут"] *)
Definition duration_estimate (n_chunks : nat) : pystr :=
  Tokens.tilde ++ str_of_N (N.of_nat (n_chunks * 5)) ++ Tokens.minutes.

(** The [MeetingSummary] built from a raw response of the service. *)
Definition summary_of_response (raw_response : pystr) (session_data : SessionData)
  : MeetingSummary :=
  let participants := elements (participants session_data) in
  let parts := parse_summary (extract_structured raw_response) in
  mkMeetingSummary
    (match sp_participants parts with [] => participants | l => l end)
    (sp_key_decisions parts)
    (sp_action_items parts)
    (sp_questions_asked parts)
    (duration_estimate (length (chunks session_data)))
    (strip (sp_summary_text parts)).

Definition err_not_configured : pystr :=
  Eval vm_compute in lit "OpenRouter AI not configured".
Definition err_api : pystr := Eval vm_compute in lit "OpenRouter API Error: ".
Definition err_summary : pystr := Eval vm_compute in lit "Failed to generate summary: ".

(** [generate_meeting_summary] *)
Definition generate_meeting_summary
    (net : http_result) (full_transcript : pystr) (session_data : SessionData)
  : Py MeetingSummary :=
  if negb (ai_configured cfg)
  then raise (HTTPException 500 err_not_configured)
  else
    try_except
      (resp <~ http_post (ReqSummary full_transcript) net;
       let '(code, _, body) := resp in
       if (code =? 200)%Z then
         c <~ message_content body;
         ret (summary_of_response (strip c) session_data)
       else
         raise (HTTPException 500 (err_api ++ str_of_N (Z.to_N code))))
      (fun e => raise (HTTPException 500 (err_summary ++ str_of_exn e))).

End TextIntelligence.

(** ** A runtime for worked examples

    Case mapping and the digit property restricted to ASCII and the
    Cyrillic block, where they agree with CPython; the two regular
    expressions report no match, which is what [re.findall] returns on the
    texts the examples pass to them (none contains a colon followed by
    white space, and the user-name patterns are never reached). *)
Module Sample.

Definition upper_cp (c : N) : N :=
  if ((97 <=? c) && (c <=? 122))%N then (c - 32)%N
  else if ((1072 <=? c) && (c <=? 1103))%N then (c - 32)%N
  else if ((1104 <=? c) && (c <=? 1119))%N then (c - 80)%N
  else c.

Definition lower_cp (c : N) : N :=
  if ((65 <=? c) && (c <=? 90))%N then (c + 32)%N
  else if ((1040 <=? c) && (c <=? 1071))%N then (c + 32)%N
  else if ((1024 <=? c) && (c <=? 1039))%N then (c + 80)%N
  else c.

Definition isdigit (c : N) : bool := ((48 <=? c) && (c <=? 57))%N.

#[export] Instance runtime : PyRuntime := {|
  py_upper := map upper_cp;
  py_lower := map lower_cp;
  py_isdigit := isdigit;
  findall_speakers := fun _ => [];
  findall_usernames := fun _ _ => []
|}.

End Sample.

(** ** Endpoints of the backend ([main.py]) and [MeetingAgent.stop] *)

Module Msg.
Definition session_not_found : pystr := Eval vm_compute in lit "Session not found".
Definition failed_chunk : pystr := Eval vm_compute in lit "Failed to process chunk: ".
Definition failed_final : pystr :=
  Eval vm_compute in lit "Failed to process final transcript: ".
Definition failed_stop : pystr := Eval vm_compute in lit "Failed to stop agent: ".
Definition final_ok : pystr :=
  Eval vm_compute in lit "Meeting summary generated and notification sent successfully".
Definition stop_ok : pystr := Eval vm_compute in lit "Agent session stopped successfully".
Definition st_initializing : pystr := Eval vm_compute in lit "initializing".
Definition st_starting : pystr := Eval vm_compute in lit "starting".
Definition st_active : pystr := Eval vm_compute in lit "active".
Definition st_stopping : pystr := Eval vm_compute in lit "stopping".
Definition st_stopped : pystr := Eval vm_compute in lit "stopped".
Definition st_error : pystr := Eval vm_compute in lit "error".
Definition st_completed : pystr := Eval vm_compute in lit "completed".
End Msg.

Arguments Msg.session_not_found : simpl never.
Arguments Msg.failed_chunk : simpl never.
Arguments Msg.failed_final : simpl never.
Arguments Msg.failed_stop : simpl never.
Arguments Msg.final_ok : simpl never.
Arguments Msg.stop_ok : simpl never.
Arguments Msg.st_initializing : simpl never.
Arguments Msg.st_starting : simpl never.
Arguments Msg.st_active : simpl never.
Arguments Msg.st_stopping : simpl never.
Arguments Msg.st_stopped : simpl never.
Arguments Msg.st_error : simpl never.
Arguments Msg.st_completed : simpl never.

Definition with_chunks (l : list Chunk) (sd : SessionData) : SessionData :=
  mkSessionData l (questions_asked sd) (participants sd) (created_at sd)
                (status sd) (completed_at sd).

Definition with_questions_asked (n : Z) (sd : SessionData) : SessionData :=
  mkSessionData (chunks sd) n (participants sd) (created_at sd)
                (status sd) (completed_at sd).

Definition with_participants (ps : gset pystr) (sd : SessionData) : SessionData :=
  mkSessionData (chunks sd) (questions_asked sd) ps (created_at sd)
                (status sd) (completed_at sd).

Definition with_completed (now : pystr) (sd : SessionData) : SessionData :=
  mkSessionData (chunks sd) (questions_asked sd) (participants sd) (created_at sd)
                (Some Msg.st_completed) (Some now).

(** The dictionary with which an unseen session is initialised. *)
Definition fresh_session (now : pystr) : SessionData :=
  mkSessionData [] 0 ∅ now None None.

(** What the awaits of one call to the chunk endpoint receive. *)
Record chunk_env : Type := mkChunkEnv {
  ce_now : pystr;
  ce_clean : http_result;
  ce_gate : http_result
}.

Record final_env : Type := mkFinalEnv {
  fe_now : pystr;
  fe_clean : http_result;
  fe_summary : http_result;
  fe_telegram : http_result
}.

Record HistoryResponse : Type := mkHistoryResponse {
  hr_session_id : pystr;
  hr_chunks_count : nat;
  hr_questions_asked : Z;
  hr_participants : list pystr;
  hr_created_at : pystr;
  hr_chunks : list Chunk
}.

Record StopResponse : Type := mkStopResponse {
  sr_session_id : pystr;
  sr_status : pystr;
  sr_message : pystr
}.

Record StatusResponse : Type := mkStatusResponse {
  st_session_id : pystr;
  st_status : pystr;
  st_meeting_url : pystr
}.

Section Endpoints.

Context {RT : PyRuntime}.
Variable cfg : Config.

(** [POST /api/transcript/chunk].  The handler holds one reference to the
    session's dictionary; calls on one session are taken one after the
    other. *)
Definition process_transcript_chunk (req : ChunkProcessRequest) (env : chunk_env)
  : Py ChunkProcessResponse :=
  try_except
    (let session_id := cr_session_id req in
     h <~ gets session_history;
     (match h !! session_id with
      | None => set_session_history (<[session_id := fresh_session (ce_now env)]> h)
      | Some _ => ret tt
      end) >>
     cleaned_text <~ clean_text_with_openrouter cfg (ce_clean env) (cr_text_chunk req);
     update_session session_id
       (fun sd => with_chunks
          (chunks sd ++ [mkChunk (cr_timestamp req) (cr_text_chunk req) cleaned_text]) sd) >>
     let speakers := findall_speakers cleaned_text in
     update_session session_id
       (fun sd => with_participants (participants sd ∪ list_to_set speakers) sd) >>
     session_data <~ get_session session_id;
     let history_texts := map chunk_cleaned (chunks session_data) in
     res <~ analyze_context_with_openrouter cfg (ce_gate env) cleaned_text history_texts
              (questions_asked session_data);
     let '(needs_question, question_text) := res in
     if needs_question && nonempty question_text then
       update_session session_id
         (fun sd => with_questions_asked (questions_asked sd + 1) sd) >>
       ret (mkChunkResponse ask_question (Some question_text) (Some cleaned_text))
     else
       ret (mkChunkResponse continue None (Some cleaned_text)))
    (fun e => raise (HTTPException 500 (Msg.failed_chunk ++ str_of_exn e))).

(** [send_telegram_notification] *)
Definition send_telegram_notification
    (net : http_result) (summary : MeetingSummary) (session_id : pystr) : Py bool :=
  if negb (telegram_configured cfg) then ret false
  else
    try_except
      (resp <~ http_post (ReqTelegram session_id summary) net;
       let '(code, _, _) := resp in
       ret (code =? 200)%Z)
      (fun _ => ret false).

(** [POST /api/transcript/final] *)
Definition process_final_transcript (req : FinalTranscriptRequest) (env : final_env)
  : Py FinalTranscriptResponse :=
  try_except
    (let session_id := fr_session_id req in
     h <~ gets session_history;
     let session_data := default (fresh_session (fe_now env)) (h !! session_id) in
     cleaned_transcript <~
       clean_text_with_openrouter cfg (fe_clean env) (fr_full_raw_transcript req);
     summary <~ generate_meeting_summary cfg (fe_summary env) cleaned_transcript session_data;
     telegram_sent <~ send_telegram_notification (fe_telegram env) summary session_id;
     h' <~ gets session_history;
     (match h' !! session_id with
      | Some _ => update_session session_id (with_completed (fe_now env))
      | None => ret tt
      end) >>
     ret (mkFinalResponse true (Some summary) telegram_sent Msg.final_ok))
    (fun e => ret (mkFinalResponse false None false (Msg.failed_final ++ str_of_exn e))).

(** [GET /api/session/{session_id}/history] *)
Definition get_session_history (session_id : pystr) : Py HistoryResponse :=
  h <~ gets session_history;
  match h !! session_id with
  | None => raise (HTTPException 404 Msg.session_not_found)
  | Some session_data =>
      ret (mkHistoryResponse
             session_id
             (length (chunks session_data))
             (questions_asked session_data)
             (elements (participants session_data))
             (created_at session_data)
             (slice_from (-5) (chunks session_data)))
  end.

(** [DELETE /api/session/{session_id}] *)
Definition cleanup_session (session_id : pystr) : Py unit :=
  h <~ gets session_history;
  match h !! session_id with
  | Some _ => set_session_history (delete session_id h)
  | None => raise (HTTPException 404 Msg.session_not_found)
  end.

(** *** Agent registry *)

Definition with_agent_status (st : pystr) (a : MeetingAgent) : MeetingAgent :=
  mkMeetingAgent (agent_session_id a) (agent_meeting_url a) st
                 (agent_error_message a) (agent_should_stop a) (agent_driver a)
                 (agent_seen_captions a).

(** In-place update of the agent registered under [sid]. *)
Definition update_agent (sid : pystr) (f : MeetingAgent -> MeetingAgent) : Py unit :=
  a <~ gets active_sessions;
  set_active_sessions (alter f sid a).

(** [MeetingAgent.__init__]: a new agent is [initializing], without a
    browser. *)
Definition new_agent (session_id meeting_url : pystr) : MeetingAgent :=
  mkMeetingAgent session_id meeting_url Msg.st_initializing None false false ∅.

(** The part of [POST /start_agent] that registers the session, once the
    URL has been accepted: [uuid] and [now] are what [uuid.uuid4] and
    [datetime.now] return. *)
Definition register_session (uuid now meeting_url : pystr) : Py pystr :=
  a <~ gets active_sessions;
  set_active_sessions (<[uuid := new_agent uuid meeting_url]> a) >>
  h <~ gets session_history;
  set_session_history
    (<[uuid := mkSessionData [] 0 ∅ now (Some Msg.st_active) None]> h) >>
  ret uuid.

(** The handlers of [MeetingAgent.start] and [run_agent_session] for a
    failed start: the agent is left in the [error] state. *)
Definition agent_start_failed (sid why : pystr) : Py unit :=
  update_agent sid (fun a =>
    mkMeetingAgent (agent_session_id a) (agent_meeting_url a) Msg.st_error
                   (Some why) (agent_should_stop a) (agent_driver a)
                   (agent_seen_captions a)).

(** [_send_final_transcript]: nothing is sent for a blank transcript, and
    no failure of the request leaves the method. *)
Definition send_final_transcript (net : http_result) (a : MeetingAgent) : Py unit :=
  try_except
    (let full_transcript := join [ch_nl] (elements (agent_seen_captions a)) in
     if negb (nonempty (strip full_transcript)) then ret tt
     else
       http_post (ReqFinalTranscript (agent_session_id a) full_transcript) net >>
       ret tt)
    (fun _ => ret tt).

(** [MeetingAgent.stop], on the agent registered under [sid]. *)
Definition agent_stop (net : http_result) (sid : pystr) (a : MeetingAgent) : Py unit :=
  update_agent sid (fun a =>
    mkMeetingAgent (agent_session_id a) (agent_meeting_url a) Msg.st_stopping
                   (agent_error_message a) true (agent_driver a)
                   (agent_seen_captions a)) >>
  try_except (send_final_transcript net a) (fun _ => ret tt) >>
  (if agent_driver a
   then modify (fun s => mkBackend (session_history s) (active_sessions s)
                                   (outbox s ++ [ReqDriverQuit (agent_session_id a)]))
   else ret tt) >>
  update_agent sid (with_agent_status Msg.st_stopped).

(** [POST /stop_agent/{session_id}] *)
Definition stop_agent (net : http_result) (session_id : pystr) : Py StopResponse :=
  try_except
    (reg <~ gets active_sessions;
     match reg !! session_id with
     | None => raise (HTTPException 404 Msg.session_not_found)
     | Some agent =>
         agent_stop net session_id agent >>
         reg' <~ gets active_sessions;
         set_active_sessions (delete session_id reg') >>
         ret (mkStopResponse session_id Msg.st_stopped Msg.stop_ok)
     end)
    (fun e => raise (HTTPException 500 (Msg.failed_stop ++ str_of_exn e))).

(** [GET /agent_status/{session_id}] *)
Definition get_agent_status (session_id : pystr) : Py StatusResponse :=
  reg <~ gets active_sessions;
  match reg !! session_id with
  | None => raise (HTTPException 404 Msg.session_not_found)
  | Some agent =>
      ret (mkStatusResponse session_id (agent_status agent) (agent_meeting_url agent))
  end.

End Endpoints.


(** ** Sequences of backend calls *)

Inductive backend_call : Type :=
| CallRegister (uuid now meeting_url : pystr)
| CallChunk (req : ChunkProcessRequest) (env : chunk_env)
| CallFinal (req : FinalTranscriptRequest) (env : final_env)
| CallHistory (session_id : pystr)
| CallCleanup (session_id : pystr)
| CallStartFailed (session_id why : pystr)
| CallStop (net : http_result) (session_id : pystr)
| CallStatus (session_id : pystr).

Definition initial_backend : Backend := mkBackend ∅ ∅ [].

Section Runs.

Context {RT : PyRuntime}.
Variable cfg : Config.

(** The state a call leaves behind, whether it returned or raised. *)
Definition run_call (c : backend_call) (s : Backend) : Backend :=
  match c with
  | CallRegister uuid now url => snd (register_session uuid now url s)
  | CallChunk req env => snd (process_transcript_chunk cfg req env s)
  | CallFinal req env => snd (process_final_transcript cfg req env s)
  | CallHistory sid => snd (get_session_history sid s)
  | CallCleanup sid => snd (cleanup_session sid s)
  | CallStartFailed sid why => snd (agent_start_failed sid why s)
  | CallStop net sid => snd (stop_agent net sid s)
  | CallStatus sid => snd (get_agent_status sid s)
  end.

(** Calls served one after the other, each finished before the next
    begins.  Calls to the chunk endpoint that overlap at an await are the
    subject of [Overlap]. *)
Definition run_calls (cs : list backend_call) (s : Backend) : Backend :=
  fold_left (fun st c => run_call c st) cs s.

End Runs.

(** The counter of a session; a session that does not exist yet has asked
    nothing. *)
Definition asked_so_far (s : Backend) (sid : pystr) : Z :=
  match session_history s !! sid with
  | Some sd => questions_asked sd
  | None => 0
  end.

(** * Properties *)

(** ** What the wrappers compute *)

Definition sent (s : Backend) (qs : list request) : Backend :=
  mkBackend (session_history s) (active_sessions s) (outbox s ++ qs).

Definition clean_outcome (cfg : Config) (net : http_result) (text : pystr) : pystr :=
  if ai_configured cfg then
    match net with
    | HttpResponse code _ (Content c) => if (code =? 200)%Z then strip c else text
    | _ => text
    end
  else text.

Definition clean_requests (cfg : Config) (text : pystr) : list request :=
  if ai_configured cfg then [ReqClean text] else [].

Definition gate_outcome (cfg : Config) (net : http_result) (asked : Z) : bool * pystr :=
  if ai_configured cfg && (asked <? 2)%Z then
    match net with
    | HttpResponse code _ (Content c) =>
        if (code =? 200)%Z then parse_gate_answer c else (false, [])
    | _ => (false, [])
    end
  else (false, []).

Definition gate_requests (cfg : Config) (current : pystr) (history : list pystr)
    (asked : Z) : list request :=
  if ai_configured cfg && (asked <? 2)%Z
  then [ReqGate (join [ch_nl] (slice_from (-3) history)) current asked]
  else [].

Lemma sent_nil s : sent s [] = s.
Proof. destruct s; unfold sent; simpl. by rewrite app_nil_r. Qed.

Lemma sent_sent s a b : sent (sent s a) b = sent s (a ++ b).
Proof. unfold sent; simpl. by rewrite app_assoc. Qed.

Lemma clean_text_spec `{PyRuntime} cfg net text s :
  clean_text_with_openrouter cfg net text s
  = (Val (clean_outcome cfg net text), sent s (clean_requests cfg text)).
Proof.
  unfold clean_text_with_openrouter, clean_outcome, clean_requests.
  destruct (ai_configured cfg); simpl; [| by rewrite sent_nil].
  unfold try_except, bind, http_post, modify, ret, raise, message_content.
  destruct net as [why | code text' [c | why]]; simpl; try reflexivity;
    destruct (code =? 200)%Z; reflexivity.
Qed.

Lemma analyze_context_spec `{PyRuntime} cfg net current history asked s :
  analyze_context_with_openrouter cfg net current history asked s
  = (Val (gate_outcome cfg net asked),
     sent s (gate_requests cfg current history asked)).
Proof.
  unfold analyze_context_with_openrouter, gate_outcome, gate_requests.
  destruct (ai_configured cfg); simpl; [| by rewrite sent_nil].
  rewrite Z.geb_leb. destruct (Z.ltb_spec asked 2) as [Hlt | Hge].
  - replace (2 <=? asked)%Z with false by (symmetry; apply Z.leb_gt; lia).
    unfold try_except, bind, http_post, modify, ret, raise, message_content.
    destruct net as [why | code text' [c | why]]; simpl; try reflexivity;
      destruct (code =? 200)%Z; reflexivity.
  - replace (2 <=? asked)%Z with true by (symmetry; apply Z.leb_le; lia).
    unfold ret. by rewrite sent_nil.
Qed.


(** ** The chunk endpoint, in closed form *)

Section ChunkSpec.

Context {RT : PyRuntime}.
Variable cfg : Config.

(** The session's dictionary once the chunk has been stored and the
    speakers added, before the gate is consulted. *)
Definition stored_chunk (req : ChunkProcessRequest) (env : chunk_env) (s : Backend)
  : SessionData :=
  let sd := default (fresh_session (ce_now env)) (session_history s !! cr_session_id req) in
  let cleaned := clean_outcome cfg (ce_clean env) (cr_text_chunk req) in
  with_participants
    (participants sd ∪ list_to_set (findall_speakers cleaned))
    (with_chunks
       (chunks sd ++ [mkChunk (cr_timestamp req) (cr_text_chunk req) cleaned]) sd).

Definition chunk_requests (req : ChunkProcessRequest) (env : chunk_env) (s : Backend)
  : list request :=
  let sd := stored_chunk req env s in
  let cleaned := clean_outcome cfg (ce_clean env) (cr_text_chunk req) in
  clean_requests cfg (cr_text_chunk req) ++
  gate_requests cfg cleaned (map chunk_cleaned (chunks sd)) (questions_asked sd).

Definition chunk_result (req : ChunkProcessRequest) (env : chunk_env) (s : Backend)
  : ChunkProcessResponse * Backend :=
  let sd := stored_chunk req env s in
  let cleaned := clean_outcome cfg (ce_clean env) (cr_text_chunk req) in
  let '(needs_question, question_text) :=
    gate_outcome cfg (ce_gate env) (questions_asked sd) in
  let out := outbox s ++ chunk_requests req env s in
  if needs_question && nonempty question_text then
    (mkChunkResponse ask_question (Some question_text) (Some cleaned),
     mkBackend
       (<[cr_session_id req := with_questions_asked (questions_asked sd + 1) sd]>
          (session_history s))
       (active_sessions s) out)
  else
    (mkChunkResponse continue None (Some cleaned),
     mkBackend (<[cr_session_id req := sd]> (session_history s))
               (active_sessions s) out).

Lemma get_session_insert sid sd h a o :
  get_session sid (mkBackend (<[sid := sd]> h) a o)
  = (Val sd, mkBackend (<[sid := sd]> h) a o).
Proof.
  unfold get_session, bind, gets, ret; simpl. by rewrite lookup_insert_eq.
Qed.

Lemma update_session_insert sid f sd h a o :
  update_session sid f (mkBackend (<[sid := sd]> h) a o)
  = (Val tt, mkBackend (<[sid := f sd]> h) a o).
Proof.
  unfold update_session, bind. rewrite get_session_insert.
  unfold gets, set_session_history, modify; simpl.
  by rewrite insert_insert_eq.
Qed.

Lemma update_session_present sid f sd h a o :
  h !! sid = Some sd ->
  update_session sid f (mkBackend h a o)
  = (Val tt, mkBackend (<[sid := f sd]> h) a o).
Proof.
  intros Hl. unfold update_session, get_session, bind, gets, ret,
    set_session_history, modify; simpl.
  by rewrite Hl.
Qed.

Lemma insert_as_alter {A : Type} (f : A -> A) (k : pystr) (x : A) (m : gmap pystr A) :
  m !! k = Some x -> <[k := f x]> m = alter f k m.
Proof.
  intros Hl. apply map_eq. intros j. destruct (decide (k = j)) as [<- | Hne].
  - by rewrite lookup_insert_eq, lookup_alter_eq, Hl.
  - by rewrite lookup_insert_ne, lookup_alter_ne.
Qed.

Lemma alter_absent {A : Type} (f : A -> A) (k : pystr) (m : gmap pystr A) :
  m !! k = None -> alter f k m = m.
Proof.
  intros Hl. apply map_eq. intros j. destruct (decide (k = j)) as [<- | Hne].
  - by rewrite lookup_alter_eq, Hl.
  - by rewrite lookup_alter_ne.
Qed.

Lemma process_transcript_chunk_spec req env s :
  process_transcript_chunk cfg req env s
  = (Val (fst (chunk_result req env s)), snd (chunk_result req env s)).
Proof.
  destruct s as [h a o].
  unfold process_transcript_chunk, chunk_result, chunk_requests, stored_chunk.
  set (sid := cr_session_id req).
  set (sd0 := default (fresh_session (ce_now env)) (h !! sid)).
  assert (Hinit :
    (match h !! sid with
     | None => set_session_history (<[sid := fresh_session (ce_now env)]> h)
     | Some _ => ret tt
     end) (mkBackend h a o) = (Val tt, mkBackend (<[sid := sd0]> h) a o)).
  { subst sd0. destruct (h !! sid) as [sd |] eqn:Hl; simpl.
    - unfold ret. by rewrite insert_id.
    - reflexivity. }
  unfold try_except, bind at 1. unfold gets at 1. simpl session_history.
  unfold bind at 1. rewrite Hinit.
  unfold bind at 1. rewrite clean_text_spec. unfold sent; simpl.
  unfold bind at 1. rewrite update_session_insert.
  unfold bind at 1. rewrite update_session_insert.
  unfold bind at 1. rewrite get_session_insert.
  unfold bind at 1. rewrite analyze_context_spec. unfold sent; simpl.
  destruct (gate_outcome cfg (ce_gate env) _) as [needs q]; simpl.
  destruct (needs && nonempty q).
  - unfold bind. rewrite update_session_insert. unfold ret; simpl.
    rewrite <- app_assoc. reflexivity.
  - unfold ret; simpl. rewrite <- app_assoc. reflexivity.
Qed.

End ChunkSpec.


(** ** The other endpoints, in closed form *)

Section EndpointSpecs.

Context {RT : PyRuntime}.
Variable cfg : Config.

Definition summary_outcome (net : http_result) (sd : SessionData) : exc MeetingSummary :=
  if ai_configured cfg then
    match net with
    | HttpFailed why => Raise (HTTPException 500 (err_summary ++ why))
    | HttpResponse code _ body =>
        if (code =? 200)%Z then
          match body with
          | Content c => Val (summary_of_response (strip c) sd)
          | Malformed why => Raise (HTTPException 500 (err_summary ++ why))
          end
        else
          Raise (HTTPException 500
                   (err_summary ++
                    str_of_exn (HTTPException 500 (err_api ++ str_of_N (Z.to_N code)))))
    end
  else Raise (HTTPException 500 err_not_configured).

Definition summary_requests (transcript : pystr) : list request :=
  if ai_configured cfg then [ReqSummary transcript] else [].

Lemma generate_meeting_summary_spec net transcript sd s :
  generate_meeting_summary cfg net transcript sd s
  = (summary_outcome net sd, sent s (summary_requests transcript)).
Proof.
  unfold generate_meeting_summary, summary_outcome, summary_requests.
  destruct (ai_configured cfg); simpl.
  - unfold try_except, bind, http_post, modify, ret, raise, message_content.
    destruct net as [why | code text' [c | why]]; simpl; try reflexivity;
      destruct (code =? 200)%Z; reflexivity.
  - unfold raise. by rewrite sent_nil.
Qed.

Definition telegram_outcome (net : http_result) : bool :=
  telegram_configured cfg &&
  match net with
  | HttpResponse code _ _ => (code =? 200)%Z
  | HttpFailed _ => false
  end.

Definition telegram_requests (sid : pystr) (summary : MeetingSummary) : list request :=
  if telegram_configured cfg then [ReqTelegram sid summary] else [].

Lemma send_telegram_notification_spec net summary sid s :
  send_telegram_notification cfg net summary sid s
  = (Val (telegram_outcome net), sent s (telegram_requests sid summary)).
Proof.
  unfold send_telegram_notification, telegram_outcome, telegram_requests.
  destruct (telegram_configured cfg); simpl.
  - unfold try_except, bind, http_post, modify, ret, raise.
    destruct net as [why | code text' body]; reflexivity.
  - unfold ret. by rewrite sent_nil.
Qed.

(** The final-transcript endpoint. *)
Definition final_result (req : FinalTranscriptRequest) (env : final_env) (s : Backend)
  : FinalTranscriptResponse * Backend :=
  let sid := fr_session_id req in
  let sd := default (fresh_session (fe_now env)) (session_history s !! sid) in
  let cleaned := clean_outcome cfg (fe_clean env) (fr_full_raw_transcript req) in
  let asked :=
    clean_requests cfg (fr_full_raw_transcript req) ++ summary_requests cleaned in
  match summary_outcome (fe_summary env) sd with
  | Val summary =>
      (mkFinalResponse true (Some summary) (telegram_outcome (fe_telegram env))
                       Msg.final_ok,
       mkBackend (alter (with_completed (fe_now env)) sid (session_history s))
                 (active_sessions s)
                 (outbox s ++ asked ++ telegram_requests sid summary))
  | Raise e =>
      (mkFinalResponse false None false (Msg.failed_final ++ str_of_exn e),
       sent s asked)
  end.

Lemma process_final_transcript_spec req env s :
  process_final_transcript cfg req env s
  = (Val (fst (final_result req env s)), snd (final_result req env s)).
Proof.
  destruct s as [h a o].
  unfold process_final_transcript, final_result.
  generalize (fr_session_id req) as sid; intros sid.
  unfold try_except, bind at 1. unfold gets at 1. simpl session_history.
  unfold bind at 1. rewrite clean_text_spec.
  unfold bind at 1. rewrite generate_meeting_summary_spec. rewrite sent_sent.
  destruct (summary_outcome _ _) as [summary | e]; simpl; [| reflexivity].
  unfold bind at 1. rewrite send_telegram_notification_spec. rewrite sent_sent.
  unfold bind at 1, gets at 1, sent at 1. simpl session_history.
  destruct (h !! sid) as [sd |] eqn:Hl.
  - unfold bind at 1, sent at 1. cbn [session_history active_sessions outbox].
    rewrite (update_session_present _ _ sd) by exact Hl.
    rewrite (insert_as_alter _ _ _ _ Hl), <- app_assoc. reflexivity.
  - rewrite (alter_absent _ _ _ Hl), <- app_assoc. reflexivity.
Qed.

(** The requests [MeetingAgent.stop] makes. *)
Definition stop_requests (a : MeetingAgent) : list request :=
  let full_transcript := join [ch_nl] (elements (agent_seen_captions a)) in
  (if nonempty (strip full_transcript)
   then [ReqFinalTranscript (agent_session_id a) full_transcript] else []) ++
  (if agent_driver a then [ReqDriverQuit (agent_session_id a)] else []).

Definition stop_result (sid : pystr) (s : Backend) : exc StopResponse * Backend :=
  match active_sessions s !! sid with
  | None =>
      (Raise (HTTPException 500
                (Msg.failed_stop ++
                 str_of_exn (HTTPException 404 Msg.session_not_found))), s)
  | Some agent =>
      (Val (mkStopResponse sid Msg.st_stopped Msg.stop_ok),
       mkBackend (session_history s) (delete sid (active_sessions s))
                 (outbox s ++ stop_requests agent))
  end.

Lemma stop_agent_spec net sid s : stop_agent net sid s = stop_result sid s.
Proof.
  destruct s as [h a o].
  unfold stop_agent, stop_result.
  unfold try_except, bind at 1. unfold gets at 1.
  cbn [active_sessions session_history outbox].
  destruct (a !! sid) as [agent |] eqn:Hl; [| reflexivity].
  unfold agent_stop, send_final_transcript, stop_requests, update_agent,
    set_active_sessions, try_except, bind, gets, modify, ret, http_post, raise;
    simpl.
  destruct (nonempty (strip _)); simpl;
    destruct net as [why | code text' body]; simpl;
    destruct (agent_driver agent); simpl;
    rewrite ?delete_alter_eq, ?app_nil_r, <- ?app_assoc; reflexivity.
Qed.

End EndpointSpecs.


(** ** The question quota *)

Section Quota.

Context {RT : PyRuntime}.
Variable cfg : Config.

Definition quota_ok (s : Backend) : Prop :=
  forall sid, (0 <= asked_so_far s sid <= 2)%Z.

(** The gate says yes only below the quota. *)
Lemma gate_outcome_yes net asked :
  fst (gate_outcome cfg net asked) = true -> (asked < 2)%Z.
Proof.
  unfold gate_outcome. destruct (ai_configured cfg); simpl; [| discriminate].
  destruct (Z.ltb_spec asked 2); [auto | discriminate].
Qed.

Lemma gate_outcome_quota net asked :
  (2 <= asked)%Z -> gate_outcome cfg net asked = (false, []).
Proof.
  intros Hq. unfold gate_outcome.
  replace (asked <? 2)%Z with false by (symmetry; apply Z.ltb_ge; lia).
  by rewrite andb_false_r.
Qed.

Definition asked_delta (r : ChunkProcessResponse) : Z :=
  match resp_action r with ask_question => 1 | continue => 0 end.

Lemma stored_chunk_asked req env s :
  questions_asked (stored_chunk cfg req env s) = asked_so_far s (cr_session_id req).
Proof.
  unfold stored_chunk, asked_so_far.
  destruct (session_history s !! cr_session_id req); reflexivity.
Qed.

(** The counter after a chunk call: the addressed session gains one exactly
    when the call answers [ask_question], every other session is left
    alone. *)
Lemma chunk_result_asked req env s sid :
  asked_so_far (snd (chunk_result cfg req env s)) sid
  = if decide (cr_session_id req = sid)
    then (asked_so_far s sid + asked_delta (fst (chunk_result cfg req env s)))%Z
    else asked_so_far s sid.
Proof.
  unfold chunk_result.
  pose proof (stored_chunk_asked req env s) as Hsd.
  destruct (gate_outcome cfg (ce_gate env) _) as [needs q].
  destruct (decide (cr_session_id req = sid)) as [<- | Hne].
  - destruct (needs && nonempty q); unfold asked_delta;
      cbn [fst snd resp_action]; unfold asked_so_far at 1;
      cbn [session_history]; rewrite lookup_insert_eq;
      cbn [questions_asked with_questions_asked]; rewrite Hsd; lia.
  - destruct (needs && nonempty q); cbn [fst snd];
      unfold asked_so_far; cbn [session_history];
      by rewrite lookup_insert_ne.
Qed.

Lemma chunk_result_ask_below_quota req env s :
  resp_action (fst (chunk_result cfg req env s)) = ask_question ->
  (asked_so_far s (cr_session_id req) < 2)%Z.
Proof.
  unfold chunk_result. rewrite stored_chunk_asked.
  destruct (gate_outcome cfg (ce_gate env) _) as [needs q] eqn:Hg.
  destruct needs; simpl.
  - intros _. apply (gate_outcome_yes (ce_gate env)). by rewrite Hg.
  - discriminate.
Qed.

Lemma asked_delta_range r : (0 <= asked_delta r <= 1)%Z.
Proof. unfold asked_delta. destruct (resp_action r); lia. Qed.

Lemma chunk_keeps_quota req env s :
  quota_ok s -> quota_ok (snd (chunk_result cfg req env s)).
Proof.
  intros Hq sid. rewrite chunk_result_asked.
  specialize (Hq sid). destruct (decide (cr_session_id req = sid)) as [<- | Hne]; [| done].
  unfold asked_delta.
  destruct (resp_action (fst (chunk_result cfg req env s))) eqn:Ha; [| lia].
  apply chunk_result_ask_below_quota in Ha. lia.
Qed.

Lemma sent_asked s qs sid : asked_so_far (sent s qs) sid = asked_so_far s sid.
Proof. reflexivity. Qed.

Lemma final_result_asked req env s sid :
  asked_so_far (snd (final_result cfg req env s)) sid = asked_so_far s sid.
Proof.
  unfold final_result. destruct (summary_outcome cfg _ _); [| reflexivity].
  unfold asked_so_far; simpl.
  destruct (decide (fr_session_id req = sid)) as [<- | Hne].
  - rewrite lookup_alter_eq. by destruct (session_history s !! _).
  - by rewrite lookup_alter_ne.
Qed.

Lemma run_call_keeps_quota c s : quota_ok s -> quota_ok (run_call cfg c s).
Proof.
  intros Hq. destruct c as [uuid now url | req env | req env | sid | sid | sid why | net sid | sid];
    unfold run_call.
  - intros k. unfold asked_so_far; simpl.
    destruct (decide (uuid = k)) as [<- | Hne].
    + rewrite lookup_insert_eq; simpl. lia.
    + rewrite lookup_insert_ne by done. apply Hq.
  - rewrite process_transcript_chunk_spec. by apply chunk_keeps_quota.
  - rewrite process_final_transcript_spec. intros k.
    cbn [snd]. rewrite final_result_asked. apply Hq.
  - unfold get_session_history, bind, gets. cbn.
    destruct (session_history s !! sid); exact Hq.
  - unfold cleanup_session, bind, gets. cbn.
    destruct (session_history s !! sid) eqn:Hl; [| exact Hq].
    intros k. unfold asked_so_far; simpl.
    destruct (decide (sid = k)) as [<- | Hne].
    + rewrite lookup_delete_eq. lia.
    + rewrite lookup_delete_ne by done. apply Hq.
  - exact Hq.
  - rewrite stop_agent_spec. unfold stop_result.
    destruct (active_sessions s !! sid); exact Hq.
  - unfold get_agent_status, bind, gets. cbn.
    destruct (active_sessions s !! sid); exact Hq.
Qed.

Lemma run_calls_keep_quota cs s : quota_ok s -> quota_ok (run_calls cfg cs s).
Proof.
  revert s. induction cs as [| c cs IH]; intros s Hq; [exact Hq |].
  apply IH. by apply run_call_keeps_quota.
Qed.

Lemma initial_quota_ok : quota_ok initial_backend.
Proof. intros sid. unfold asked_so_far; simpl. rewrite lookup_empty. lia. Qed.

End Quota.

(** The quota when calls are served one at a time.  Whatever calls the
    backend has served since it started, each one finished before the next
    began, no session has asked more than two questions; a further call to
    the chunk endpoint returns, raises the counter of its session by at
    most one, keeps it within the quota, and, once the counter is at two,
    answers [continue] and leaves the counter alone, whatever the gate's
    network answer is.  Calls that overlap are the subject of [Overlap]. *)
Theorem questions_asked_never_exceeds_quota
    `{PyRuntime} (cfg : Config) (calls : list backend_call)
    (req : ChunkProcessRequest) (env : chunk_env) :
  let s := run_calls cfg calls initial_backend in
  let sid := cr_session_id req in
  (forall any, (0 <= asked_so_far s any <= 2)%Z) /\
  exists resp s',
    process_transcript_chunk cfg req env s = (Val resp, s') /\
    (asked_so_far s sid <= asked_so_far s' sid <= asked_so_far s sid + 1)%Z /\
    (asked_so_far s' sid <= 2)%Z /\
    ((2 <= asked_so_far s sid)%Z ->
       resp_action resp = continue /\ asked_so_far s' sid = asked_so_far s sid).
Proof.
  intros s sid.
  assert (Hq : quota_ok s) by (apply run_calls_keep_quota, initial_quota_ok).
  split; [exact Hq |].
  exists (fst (chunk_result cfg req env s)), (snd (chunk_result cfg req env s)).
  split; [apply process_transcript_chunk_spec |].
  pose proof (chunk_keeps_quota cfg req env s Hq sid) as Hq'.
  pose proof (chunk_result_asked cfg req env s sid) as Ha.
  subst sid. rewrite decide_True in Ha by done.
  pose proof (asked_delta_range (fst (chunk_result cfg req env s))) as Hd.
  split; [lia |]. split; [lia |]. intros Hfull.
  unfold asked_delta in Ha.
  destruct (resp_action (fst (chunk_result cfg req env s))) eqn:Hact.
  - apply chunk_result_ask_below_quota in Hact. lia.
  - split; [reflexivity | lia].
Qed.

(** ** Failures of the gate *)







Definition sample_config : Config := mkConfig true true.


(** ** What the gate is asked *)

(** The request part of [chunk_result]: with the service configured and the
    quota open, the gate receives the cleaned chunk as the current
    fragment, and as context the last three entries of the history to which
    that chunk has already been appended. *)
Lemma chunk_gate_request `{PyRuntime} cfg req env s :
  ai_configured cfg = true ->
  (asked_so_far s (cr_session_id req) < 2)%Z ->
  let sd := default (fresh_session (ce_now env))
                    (session_history s !! cr_session_id req) in
  let cleaned := clean_outcome cfg (ce_clean env) (cr_text_chunk req) in
  outbox (snd (chunk_result cfg req env s))
  = outbox s ++
    [ReqClean (cr_text_chunk req);
     ReqGate (join [ch_nl]
                (slice_from (-3) (map chunk_cleaned (chunks sd) ++ [cleaned])))
             cleaned (questions_asked sd)].
Proof.
  intros Hc Hlt sd cleaned.
  assert (Hout : outbox (snd (chunk_result cfg req env s))
                 = outbox s ++ chunk_requests cfg req env s).
  { unfold chunk_result.
    destruct (gate_outcome cfg (ce_gate env) _) as [needs q].
    by destruct (needs && nonempty q). }
  rewrite Hout. f_equal.
  unfold chunk_requests, clean_requests, gate_requests.
  rewrite stored_chunk_asked, Hc.
  replace (asked_so_far s (cr_session_id req) <? 2)%Z with true
    by (symmetry; apply Z.ltb_lt; lia).
  cbn [andb app]. unfold stored_chunk. cbn [chunks with_participants with_chunks].
  rewrite map_app. cbn [map chunk_cleaned].
  unfold asked_so_far, sd.
  by destruct (session_history s !! cr_session_id req).
Qed.

(** Beyond the quota, or without the service, the gate is not called. *)
Lemma chunk_no_gate_request `{PyRuntime} cfg req env s :
  ai_configured cfg = false \/ (2 <= asked_so_far s (cr_session_id req))%Z ->
  outbox (snd (chunk_result cfg req env s))
  = outbox s ++ clean_requests cfg (cr_text_chunk req).
Proof.
  intros Hor.
  assert (Hout : outbox (snd (chunk_result cfg req env s))
                 = outbox s ++ chunk_requests cfg req env s).
  { unfold chunk_result.
    destruct (gate_outcome cfg (ce_gate env) _) as [needs q].
    by destruct (needs && nonempty q). }
  rewrite Hout. f_equal.
  unfold chunk_requests, gate_requests. rewrite stored_chunk_asked.
  destruct Hor as [Hc | Hq].
  - rewrite Hc. cbn. by rewrite app_nil_r.
  - replace (asked_so_far s (cr_session_id req) <? 2)%Z with false
      by (symmetry; apply Z.ltb_ge; lia).
    rewrite andb_false_r. by rewrite app_nil_r.
Qed.

Module GateContextExample.

Definition sid : pystr := Eval vm_compute in lit "s1".
Definition down : http_result := HttpFailed [].

Definition chunk_call (text : string) : backend_call :=
  CallChunk (mkChunkRequest sid (lit text) (lit "12:00:00"))
            (mkChunkEnv (lit "12:00:00") down down).

(** Three chunks are already stored: [one], [two], [three]. *)
Definition three_chunks : Backend :=
  run_calls (RT := Sample.runtime) sample_config
    [chunk_call "one"; chunk_call "two"; chunk_call "three"] initial_backend.

Definition fourth_request : ChunkProcessRequest :=
  mkChunkRequest sid (lit "four") (lit "12:00:00").

Definition fourth_env : chunk_env := mkChunkEnv (lit "12:00:00") down down.

End GateContextExample.

(** C7.  With three chunks [one], [two], [three] stored and no question
    asked yet, the call for the chunk [four] asks the gate once, with the
    context [two], [three], [four]: the current chunk and the two before
    it, not the three chunks that precede it. *)
Theorem gate_context_at_fourth_chunk :
  asked_so_far GateContextExample.three_chunks GateContextExample.sid = 0%Z /\
  map chunk_cleaned
    (chunks (default (fresh_session [])
       (session_history GateContextExample.three_chunks !! GateContextExample.sid)))
  = [lit "one"; lit "two"; lit "three"] /\
  skipn (length (outbox GateContextExample.three_chunks))
    (outbox (snd (process_transcript_chunk (RT := Sample.runtime) sample_config
                    GateContextExample.fourth_request GateContextExample.fourth_env
                    GateContextExample.three_chunks)))
  = [ReqClean (lit "four");
     ReqGate (join [ch_nl] [lit "two"; lit "three"; lit "four"]) (lit "four") 0].
Proof. vm_compute. repeat split. Qed.

(** ** The session-history read *)

Lemma slice_from_last {A : Type} (k : nat) (l : list A) :
  slice_from (- Z.of_nat (S k)) l = drop (length l - S k) l.
Proof.
  unfold slice_from.
  replace (- Z.of_nat (S k) <? 0)%Z with true by (symmetry; apply Z.ltb_lt; lia).
  f_equal. lia.
Qed.

(** C10.  For a session whose history holds [n] chunks, the read returns
    without changing the state and reports [n] as [chunks_count], the
    counter, the members of the participants set, and as [chunks] the
    suffix of the history that starts at position [n - 5], of length
    [min n 5]. *)
Theorem session_history_returns_last_five
    (s : Backend) (sid : pystr) (sd : SessionData) :
  session_history s !! sid = Some sd ->
  exists r,
    get_session_history sid s = (Val r, s) /\
    hr_chunks_count r = length (chunks sd) /\
    hr_questions_asked r = questions_asked sd /\
    (forall name, name ∈ hr_participants r <-> name ∈ participants sd) /\
    NoDup (hr_participants r) /\
    hr_chunks r = drop (length (chunks sd) - 5) (chunks sd) /\
    length (hr_chunks r) = min (length (chunks sd)) 5 /\
    chunks sd = take (length (chunks sd) - 5) (chunks sd) ++ hr_chunks r.
Proof.
  intros Hl. unfold get_session_history, bind, gets, ret. rewrite Hl.
  eexists. split; [reflexivity |].
  cbn [hr_chunks_count hr_questions_asked hr_participants hr_chunks].
  change (-5)%Z with (- Z.of_nat 5)%Z. rewrite slice_from_last.
  repeat split.
  - apply elem_of_elements.
  - apply elem_of_elements.
  - apply NoDup_elements.
  - rewrite length_drop. lia.
  - by rewrite take_drop.
Qed.

Module HistoryExample.

Definition chunk_of (n : N) : Chunk := mkChunk [n] [n] [n].

Definition seven : SessionData :=
  mkSessionData (map chunk_of [1; 2; 3; 4; 5; 6; 7]%N) 1 {[ lit "Anna" ]}
                (lit "t0") None None.

Definition store : Backend := mkBackend {[ lit "s1" := seven ]} ∅ [].

End HistoryExample.

Lemma session_history_returns_last_five_witness :
  exists r,
    get_session_history (lit "s1") HistoryExample.store
    = (Val r, HistoryExample.store) /\
    hr_chunks_count r = 7 /\
    hr_questions_asked r = 1%Z /\
    (forall name, name ∈ hr_participants r <-> name ∈ ({[ lit "Anna" ]} : gset pystr)) /\
    NoDup (hr_participants r) /\
    hr_chunks r = map HistoryExample.chunk_of [3; 4; 5; 6; 7]%N /\
    length (hr_chunks r) = 5 /\
    chunks HistoryExample.seven
    = map HistoryExample.chunk_of [1; 2]%N ++ hr_chunks r.
Proof.
  apply (session_history_returns_last_five
           HistoryExample.store (lit "s1") HistoryExample.seven).
  vm_compute. reflexivity.
Defined.

(** ** Stop and status requests *)

Module StopExample.

Definition sid : pystr := Eval vm_compute in lit "s1".
Definition url : pystr := Eval vm_compute in lit "https://meet.google.com/abc".

(** A session is registered and its start fails: the agent is left in the
    terminal [error] state, still registered. *)
Definition errored : Backend :=
  run_calls (RT := Sample.runtime) sample_config
    [CallRegister sid (lit "12:00:00") url; CallStartFailed sid (lit "no browser")]
    initial_backend.

Definition stopped : exc StopResponse * Backend :=
  stop_agent (HttpFailed []) sid errored.

End StopExample.

(** The behaviour the claim describes: the call returns the status the
    agent already has and leaves the agent registered in that status. *)
Definition reports_current_state
    (s : Backend) (sid : pystr) (res : exc StopResponse * Backend) : bool :=
  match active_sessions s !! sid, res with
  | Some agent, (Val r, s') =>
      str_eqb (sr_status r) (agent_status agent) &&
      match active_sessions s' !! sid with
      | Some agent' => str_eqb (agent_status agent') (agent_status agent)
      | None => false
      end
  | _, _ => false
  end.

(** C6, as stated, fails: a stop on a session in the terminal [error]
    state is not a no-op.  It answers [stopped], not [error], and removes
    the session from the registry. *)
Lemma stop_on_errored_session_is_not_a_noop :
  agent_status <$> (active_sessions StopExample.errored !! StopExample.sid)
  = Some Msg.st_error /\
  fst StopExample.stopped
  = Val (mkStopResponse StopExample.sid Msg.st_stopped Msg.stop_ok) /\
  active_sessions (snd StopExample.stopped) !! StopExample.sid = None /\
  reports_current_state StopExample.errored StopExample.sid StopExample.stopped
  = false.
Proof. vm_compute. repeat split. Qed.

(** C6, amended.  A stop for a registered session, whatever its status,
    answers [stopped], removes the session from the registry and touches
    neither the other agents nor any session history; a stop for an
    unknown id raises to the caller and a status request for an unknown id
    raises 404 [Session not found], both leaving the state as it was. *)
Theorem stop_unregisters_and_unknown_id_has_no_effect
    (net : http_result) (sid : pystr) (s : Backend) :
  match active_sessions s !! sid with
  | Some agent =>
      stop_agent net sid s
      = (Val (mkStopResponse sid Msg.st_stopped Msg.stop_ok),
         mkBackend (session_history s) (delete sid (active_sessions s))
                   (outbox s ++ stop_requests agent))
  | None =>
      (exists e, stop_agent net sid s = (Raise e, s)) /\
      get_agent_status sid s = (Raise (HTTPException 404 Msg.session_not_found), s)
  end.
Proof.
  rewrite stop_agent_spec. unfold stop_result, get_agent_status, bind, gets.
  cbn [fst snd]. destruct (active_sessions s !! sid) as [agent |] eqn:Hl.
  - reflexivity.
  - split; [eexists; reflexivity | reflexivity].
Qed.

(** ** Facts about string search *)

Lemma startswith_nil s : startswith s [] = true.
Proof. by destruct s. Qed.

Lemma startswith_app s p q :
  startswith s (p ++ q) = startswith s p && startswith (drop (length p) s) q.
Proof.
  revert s. induction p as [| x p IH]; intros s; cbn [app length].
  - rewrite startswith_nil. by rewrite drop_0.
  - destruct s as [| y s]; cbn [startswith drop]; [reflexivity |].
    rewrite IH. by rewrite andb_assoc.
Qed.

Lemma contains_startswith s p : startswith s p = true -> contains s p = true.
Proof. intros Hs. destruct s; cbn [contains]; by rewrite Hs. Qed.

Lemma contains_cons c s p : contains s p = true -> contains (c :: s) p = true.
Proof. intros Hc. cbn [contains]. rewrite Hc. apply orb_true_r. Qed.

Lemma contains_drop n s p : contains (drop n s) p = true -> contains s p = true.
Proof.
  revert s. induction n as [| n IH]; intros s Hc; [by rewrite drop_0 in Hc |].
  destruct s as [| c s]; [exact Hc |]. apply contains_cons, IH, Hc.
Qed.

Lemma contains_app_l s p q : contains s (p ++ q) = true -> contains s p = true.
Proof.
  induction s as [| c s IH]; cbn [contains]; rewrite startswith_app;
    intros Hc; apply orb_true_iff in Hc as [Hc | Hc].
  - apply andb_true_iff in Hc as [Hp _]. by rewrite Hp.
  - discriminate.
  - apply andb_true_iff in Hc as [Hp _]. by rewrite Hp.
  - rewrite (IH Hc). apply orb_true_r.
Qed.

Lemma contains_app_r s p q : contains s (p ++ q) = true -> contains s q = true.
Proof.
  induction s as [| c s IH]; cbn [contains]; rewrite startswith_app;
    intros Hc; apply orb_true_iff in Hc as [Hc | Hc].
  - apply andb_true_iff in Hc as [_ Hq]. rewrite drop_nil in Hq.
    by apply contains_startswith in Hq.
  - discriminate.
  - apply andb_true_iff in Hc as [_ Hq].
    apply contains_startswith in Hq.
    by apply contains_drop in Hq.
  - apply (contains_cons c), IH, Hc.
Qed.

(** ** A response without section headers *)

Section Headerless.

Context {RT : PyRuntime}.

(** The section a line opens, as the tests of [parse_line] decide it. *)
Definition header_of (line : pystr) : option section :=
  let line_upper := strip_markdown (py_upper line) in
  if startswith line_upper Tokens.participants || startswith line Tokens.participants
  then Some sec_participants
  else if startswith line_upper Tokens.key_decisions ||
          startswith line_upper Tokens.key_decisions_sp
  then Some sec_key_decisions
  else if startswith line_upper Tokens.action_items ||
          startswith line_upper Tokens.action_items_sp
  then Some sec_action_items
  else if startswith line_upper Tokens.questions ||
          startswith line_upper Tokens.questions_sp
  then Some sec_questions_asked
  else if startswith line_upper Tokens.summary ||
          startswith line_upper Tokens.summary_sp
  then Some sec_summary
  else None.

(** The response names the participants header nowhere, and none of its
    lines opens a section. *)
Definition no_headers (raw_response : pystr) : bool :=
  negb (contains raw_response Tokens.participants) &&
  forallb (fun l => match header_of (strip l) with None => true | Some _ => false end)
          (split_on ch_nl raw_response).

Lemma parse_line_outside_sections parts raw_line :
  header_of (strip raw_line) = None ->
  parse_line (None, parts) raw_line = (None, parts).
Proof.
  unfold header_of, parse_line. intros Hh.
  destruct (nonempty (strip raw_line)); cbn [negb]; [| reflexivity].
  destruct (_ || _); [discriminate |].
  destruct (_ || _); [discriminate |].
  destruct (_ || _); [discriminate |].
  destruct (_ || _); [discriminate |].
  destruct (_ || _); [discriminate |].
  destruct (_ || _); [| reflexivity].
  by destruct (_ && _).
Qed.

Lemma fold_parse_line_outside_sections parts lines :
  forallb (fun l => match header_of (strip l) with None => true | Some _ => false end)
          lines = true ->
  fold_left parse_line lines (None, parts) = (None, parts).
Proof.
  induction lines as [| l ls IH]; cbn [forallb fold_left]; [reflexivity |].
  intros Hall. apply andb_true_iff in Hall as [Hl Hls].
  rewrite parse_line_outside_sections; [by apply IH |].
  by destruct (header_of (strip l)).
Qed.

Lemma extract_structured_no_header raw :
  contains raw Tokens.participants = false -> extract_structured raw = raw.
Proof.
  intros Hc. unfold extract_structured. rewrite Hc.
  destruct (contains raw Tokens.participants_md) eqn:Hmd; [| reflexivity].
  change Tokens.participants_md
    with (Tokens.dstar ++ Tokens.participants ++ Tokens.dstar) in Hmd.
  apply contains_app_r, contains_app_l in Hmd. congruence.
Qed.

Lemma parse_summary_no_headers raw :
  no_headers raw = true -> parse_summary (extract_structured raw) = empty_parts.
Proof.
  unfold no_headers. intros Hn. apply andb_true_iff in Hn as [Hc Hl].
  apply negb_true_iff in Hc. rewrite extract_structured_no_header by exact Hc.
  unfold parse_summary. by rewrite fold_parse_line_outside_sections.
Qed.

End Headerless.

(** The claim's expectation: the summary text is the cleaned transcript. *)
Definition summary_text_is (r : FinalTranscriptResponse) (expected : pystr) : bool :=
  match ft_summary r with
  | Some m => str_eqb (ms_summary_text m) expected
  | None => false
  end.

Module HeaderlessExample.

Definition request : FinalTranscriptRequest :=
  mkFinalRequest (lit "s1") (lit "Anna - hello everyone").

(** Cleaning fails, so the degraded-clean transcript is the raw one; the
    summary call succeeds with a text that has no section header. *)
Definition env : final_env :=
  mkFinalEnv (lit "12:00:00") (HttpFailed [])
             (HttpResponse 200 [] (Content (lit "The meeting went well.")))
             (HttpFailed []).

Definition answer : FinalTranscriptResponse :=
  match process_final_transcript (RT := Sample.runtime) sample_config request env
          initial_backend with
  | (Val r, _) => r
  | (Raise _, _) => mkFinalResponse false None false []
  end.

End HeaderlessExample.

(** C3, as stated, fails: for a response without headers the call succeeds,
    but the summary text is empty, not the cleaned transcript. *)
Lemma headerless_summary_text_is_not_the_transcript :
  ft_success HeaderlessExample.answer = true /\
  clean_outcome sample_config (fe_clean HeaderlessExample.env)
    (fr_full_raw_transcript HeaderlessExample.request)
  = lit "Anna - hello everyone" /\
  ms_summary_text <$> ft_summary HeaderlessExample.answer = Some [] /\
  summary_text_is HeaderlessExample.answer (lit "Anna - hello everyone") = false.
Proof. vm_compute. repeat split. Qed.

(** C3, amended.  If the summarize call succeeds and its response has no
    recognizable section header, the final-transcript call returns a
    successful response whose summary has empty decisions, action items and
    questions, an empty summary text, and for participants the names
    collected while the session was streamed. *)
Theorem headerless_response_gives_empty_summary
    `{PyRuntime} (cfg : Config) (req : FinalTranscriptRequest) (env : final_env)
    (s : Backend) (text content : pystr) :
  ai_configured cfg = true ->
  fe_summary env = HttpResponse 200 text (Content content) ->
  no_headers (strip content) = true ->
  exists summary s',
    process_final_transcript cfg req env s
    = (Val (mkFinalResponse true (Some summary)
              (telegram_outcome cfg (fe_telegram env)) Msg.final_ok), s') /\
    ms_key_decisions summary = [] /\
    ms_action_items summary = [] /\
    ms_questions_asked summary = [] /\
    ms_summary_text summary = [] /\
    ms_participants summary
    = elements (participants
        (default (fresh_session (fe_now env)) (session_history s !! fr_session_id req))).
Proof.
  intros Hc Hnet Hn.
  rewrite process_final_transcript_spec. unfold final_result, summary_outcome.
  rewrite Hc, Hnet. cbn [Z.eqb Pos.eqb fst snd].
  eexists. eexists. split; [reflexivity |].
  unfold summary_of_response. rewrite parse_summary_no_headers by exact Hn.
  repeat split.
Qed.

Lemma headerless_response_gives_empty_summary_witness :
  exists summary s',
    process_final_transcript (RT := Sample.runtime) sample_config
      HeaderlessExample.request HeaderlessExample.env initial_backend
    = (Val (mkFinalResponse true (Some summary)
              (telegram_outcome sample_config (fe_telegram HeaderlessExample.env))
              Msg.final_ok), s') /\
    ms_key_decisions summary = [] /\
    ms_action_items summary = [] /\
    ms_questions_asked summary = [] /\
    ms_summary_text summary = [] /\
    ms_participants summary
    = elements (participants
        (default (fresh_session (fe_now HeaderlessExample.env))
           (session_history initial_backend !! fr_session_id HeaderlessExample.request))).
Proof.
  apply (headerless_response_gives_empty_summary (H := Sample.runtime)
           sample_config HeaderlessExample.request HeaderlessExample.env
           initial_backend [] (lit "The meeting went well.")).
  - reflexivity.
  - reflexivity.
  - vm_compute. reflexivity.
Defined.

(** ** The caption scan ([bot_service.py]) *)

Module Capture.

Definition unknown : pystr := Eval vm_compute in lit "Unknown".
Definition visual : pystr := Eval vm_compute in lit "visual".

(** The literal of [excluded], with the characters the source file has. *)
Definition excluded : list pystr := Eval vm_compute in [
    lit "language";
    lit "Ñ€ÑƒÑÑÐºÐ¸Ð¹";
    lit "format_size";
    lit "circle";
    lit "settings";
    lit "Ñ‚Ð°ÐºÐ¶Ðµ";
    lit "Ð½ÑƒÐ¶Ð½Ð¾";
    lit "Ð·Ð°Ð´Ð°Ñ‡Ð°";
    lit "ÑÐ»ÐµÐ´ÑƒÑŽÑ‰Ð°Ñ"].

(** One entry of [new_captions]. *)
Record Caption : Type := mkCaption {
  cap_timestamp : pystr;
  cap_speaker : pystr;
  cap_text : pystr;
  cap_source : pystr
}.

(** What looking up one speaker selector under the parent gives. *)
Inductive lookup : Type :=
| NoSuchElement
| Found (text : pystr)
| LookupFailed.

(** What the browser shows for one caption element: its text (reading it
    may raise), the parent's speaker lookups in the order of
    [speaker_selectors] (finding the parent may raise), and the clock when
    the element is handled. *)
Record Element : Type := mkElement {
  el_text : option pystr;
  el_parent : option (list lookup);
  el_now : pystr
}.

(** What [find_elements] gives for one caption selector. *)
Inductive found_elements : Type :=
| FindFailed
| Elements (els : list Element).

Section Scan.

Context {RT : PyRuntime}.

(** Method 1: the first speaker element with a non-blank text; any other
    failure leaves the speaker as it is. *)
Fixpoint speaker_from_parent (ls : list lookup) (speaker : pystr) : pystr :=
  match ls with
  | [] => speaker
  | NoSuchElement :: r => speaker_from_parent r speaker
  | Found t :: r =>
      if nonempty (strip t) then strip t else speaker_from_parent r speaker
  | LookupFailed :: _ => speaker
  end.

Definition method1 (e : Element) (speaker : pystr) : pystr :=
  match el_parent e with
  | Some ls => speaker_from_parent ls speaker
  | None => speaker
  end.

(** Method 2: a text of the form [Speaker: message]. *)
Definition method2 (speaker text : pystr) : pystr * pystr :=
  if contains text [ch_colon] && str_eqb speaker unknown then
    match split_once ch_colon text with
    | (before, Some after) =>
        if (length before <? 50)%nat then
          let potential_speaker := strip before in
          if negb (existsb py_isdigit potential_speaker)
          then (potential_speaker, strip after)
          else (speaker, text)
        else (speaker, text)
    | (_, None) => (speaker, text)
    end
  else (speaker, text).

(** The inner loop of method 3 over the matches of one pattern. *)
Fixpoint first_username (matches : list pystr) (speaker : pystr) : pystr :=
  match matches with
  | [] => speaker
  | m :: r =>
      if negb (str_in (py_lower m) excluded) && (2 <? length m)%nat
      then m
      else first_username r speaker
  end.

(** Method 3: user names in the text, over the two patterns in order. *)
Fixpoint username_patterns (patterns : list nat) (text speaker : pystr) : pystr :=
  match patterns with
  | [] => speaker
  | i :: r =>
      let speaker' := first_username (findall_usernames i text) speaker in
      if negb (str_eqb speaker' unknown) then speaker'
      else username_patterns r text speaker'
  end.

Definition method3 (speaker text : pystr) : pystr :=
  if str_eqb speaker unknown then username_patterns [0; 1] text speaker
  else speaker.

(** The caption built for an element whose stripped text is [text]. *)
Definition caption_of (e : Element) (text : pystr) : Caption :=
  let speaker := method1 e unknown in
  let '(speaker, text) := method2 speaker text in
  let speaker := method3 speaker text in
  mkCaption (el_now e) speaker text visual.

(** The loop over the elements of one selector.  [None] is an exception
    leaving the loop; the captions recorded before it stay recorded. *)
Fixpoint scan_elements (els : list Element) (st : list Caption * gset pystr)
  : bool * (list Caption * gset pystr) :=
  match els with
  | [] => (true, st)
  | e :: r =>
      match el_text e with
      | None => (false, st)
      | Some raw =>
          let text := strip raw in
          if nonempty text && negb (bool_decide (text ∈ snd st)) then
            let c := caption_of e text in
            scan_elements r (fst st ++ [c], {[ cap_text c ]} ∪ snd st)
          else scan_elements r st
      end
  end.

(** The loop over [caption_selectors]: a selector that raises is skipped,
    and the first selector that ends with captions recorded ends the
    loop. *)
Fixpoint scan_selectors (page : list found_elements) (st : list Caption * gset pystr)
  : list Caption * gset pystr :=
  match page with
  | [] => st
  | FindFailed :: r => scan_selectors r st
  | Elements els :: r =>
      match scan_elements els st with
      | (false, st') => scan_selectors r st'
      | (true, st') =>
          match fst st' with
          | [] => scan_selectors r st'
          | _ :: _ => st'
          end
      end
  end.

(** [_parse_current_captions]: the new captions and the updated
    [seen_captions]. *)
Definition parse_current_captions (page : list found_elements) (seen : gset pystr)
  : list Caption * gset pystr :=
  scan_selectors page ([], seen).

(** Successive scans of the capture loop. *)
Fixpoint scan_pages (pages : list (list found_elements)) (seen : gset pystr)
  : list (list Caption) * gset pystr :=
  match pages with
  | [] => ([], seen)
  | p :: r =>
      let '(caps, seen') := parse_current_captions p seen in
      let '(rest, seen'') := scan_pages r seen' in
      (caps :: rest, seen'')
  end.

End Scan.

End Capture.

Module DedupExample.

Import Capture.

(** The first caption selector shows one element reading [Bob: hello], with
    no speaker element under its parent; the other ten selectors find
    nothing. *)
Definition element (now : string) : Element :=
  mkElement (Some (lit "Bob: hello")) (Some (repeat NoSuchElement 5)) (lit now).

Definition page (now : string) : list found_elements :=
  Elements [element now] :: repeat (Elements []) 10.

(** Two scans of the same caption, two seconds apart. *)
Definition two_scans : list (list Caption) * gset pystr :=
  scan_pages (RT := Sample.runtime) [page "12:00:00"; page "12:00:02"] ∅.

End DedupExample.

(** C2.  The same caption element, still on the page at the next scan, is
    emitted a second time: the scan tests the element's text [Bob: hello]
    against the seen-set but records the text left after the speaker was
    split off, [hello]. *)
Theorem same_caption_is_emitted_twice :
  map (map Capture.cap_text) (fst DedupExample.two_scans)
  = [[lit "hello"]; [lit "hello"]] /\
  map (map Capture.cap_speaker) (fst DedupExample.two_scans)
  = [[lit "Bob"]; [lit "Bob"]] /\
  elements (snd DedupExample.two_scans) = [lit "hello"].
Proof. vm_compute. repeat split. Qed.

(** ** The status polling loop ([bot.py]) *)

Module Poller.

Definition txt_starting : pystr := Eval vm_compute in lit "🟡 Агент запускает браузер...".
Definition txt_waiting : pystr :=
  Eval vm_compute in lit "🟠 Агент ждет разрешения на вход...".
Definition txt_joined : pystr :=
  Eval vm_compute in lit "🟢 Агент успешно присоединился к звонку!".
Definition txt_error : pystr := Eval vm_compute in lit "🔴 Ошибка у агента".
Definition txt_stopped : pystr := Eval vm_compute in lit "⚪ Агент завершил работу".

Definition starting_family : list pystr :=
  Eval vm_compute in [lit "starting"; lit "launching"].
Definition waiting_family : list pystr :=
  Eval vm_compute in [lit "waiting_admission"; lit "waiting"].
Definition joined_family : list pystr :=
  Eval vm_compute in [lit "joined"; lit "in_call"; lit "connected"].
Definition error_family : list pystr :=
  Eval vm_compute in [lit "error"; lit "failed"].
Definition stopped_family : list pystr :=
  Eval vm_compute in [lit "stopped"; lit "finished"].

Definition max_errors : nat := 5.

(** How an awaited call ends: it returns, it raises, or the task is
    cancelled while it is pending. *)
Inductive outcome : Type := Done | Failed | Cancelled.

(** The [data] member of a fetched response: a dictionary with a string (or
    no) status and optional question fields, or anything on which
    [data.get('status', '').lower()] raises. *)
Inductive poll_data : Type :=
| BadData
| Data (status : pystr) (last_question question : option pystr).

Inductive fetch_outcome : Type :=
| FetchFailed
| FetchCancelled
| Fetched (http_status : Z) (data : poll_data).

(** The outcomes of the awaits one pass of the loop may reach. *)
Record tick : Type := mkTick {
  t_fetch : fetch_outcome;
  t_skip_sleep : outcome;
  t_edit : outcome;
  t_send_status : outcome;
  t_send_question : outcome;
  t_send_keyboard : outcome;
  t_sleep : outcome;
  t_send_notice : outcome;
  t_error_sleep : outcome
}.

Inductive bot_call : Type :=
| EditStatus (text : pystr)
| SendStatus (text : pystr)
| SendQuestion (question : pystr)
| SendKeyboard
| SendConnectionLost.

(** What the loop awaits, in order. *)
Inductive event : Type :=
| EvFetch
| EvSleep (seconds : nat)
| EvBot (call : bot_call) (result : outcome).

(** The local variables of [poll_agent_status]. *)
Record poll_state : Type := mkPollState {
  last_question_sent : option pystr;
  keyboard_sent : bool;
  last_status_text : option pystr;
  error_count : nat
}.

Definition initial_state : poll_state := mkPollState None false None 0.

(** How the loop ends: a terminal status, a cancellation caught by the
    loop, too many errors, or an exception or cancellation that leaves the
    coroutine from inside the error handler. *)
Inductive ending : Type := Stopped | CancelledEnd | TooManyErrors | Escaped.

(** Control leaving the straight-line code of the [try] block. *)
Inductive signal : Type := SigContinue | SigBreak | SigException | SigCancelled.

Definition body (A : Type) : Type :=
  poll_state -> list event * poll_state * (A + signal).

Definition bret {A : Type} (a : A) : body A := fun st => ([], st, inl a).

Definition bbind {A B : Type} (m : body A) (k : A -> body B) : body B :=
  fun st =>
    match m st with
    | (evs, st', inl a) =>
        let '(evs', st'', r) := k a st' in (evs ++ evs', st'', r)
    | (evs, st', inr sg) => (evs, st', inr sg)
    end.

Definition leave {A : Type} (sg : signal) : body A := fun st => ([], st, inr sg).

Definition await (ev : event) (o : outcome) : body unit :=
  fun st =>
    ([ev], st,
     match o with
     | Done => inl tt
     | Failed => inr SigException
     | Cancelled => inr SigCancelled
     end).

(** [try: m except Exception: h] *)
Definition try_exception {A : Type} (m h : body A) : body A :=
  fun st =>
    match m st with
    | (evs, st', inr SigException) =>
        let '(evs', st'', r) := h st' in (evs ++ evs', st'', r)
    | other => other
    end.

Definition read {A : Type} (f : poll_state -> A) : body A :=
  fun st => ([], st, inl (f st)).

Definition write (f : poll_state -> poll_state) : body unit :=
  fun st => ([], f st, inl tt).

Declare Scope poll_scope.
Notation "x <~ m ; k" := (bbind m (fun x => k))
  (at level 200, m at level 100, k at level 200, right associativity,
   only parsing) : poll_scope.
Notation "m >> k" := (bbind m (fun _ => k))
  (at level 200, k at level 200, right associativity, only parsing) : poll_scope.
Local Open Scope poll_scope.

Definition set_error_count (n : nat) (st : poll_state) : poll_state :=
  mkPollState (last_question_sent st) (keyboard_sent st) (last_status_text st) n.

Definition set_last_status_text (t : pystr) (st : poll_state) : poll_state :=
  mkPollState (last_question_sent st) (keyboard_sent st) (Some t) (error_count st).

Definition set_last_question_sent (q : pystr) (st : poll_state) : poll_state :=
  mkPollState (Some q) (keyboard_sent st) (last_status_text st) (error_count st).

Definition set_keyboard_sent (st : poll_state) : poll_state :=
  mkPollState (last_question_sent st) true (last_status_text st) (error_count st).

(** The status table: the message, and whether the loop breaks. *)
Inductive mapped : Type :=
| Unrecognized
| Message (text : pystr)
| Terminal (text : pystr).

Definition map_status (status : pystr) : mapped :=
  if str_in status starting_family then Message txt_starting
  else if str_in status waiting_family then Message txt_waiting
  else if str_in status joined_family then Message txt_joined
  else if str_in status error_family then Message txt_error
  else if str_in status stopped_family then Terminal txt_stopped
  else Unrecognized.

Definition opt_str_eqb (a : option pystr) (b : pystr) : bool :=
  match a with
  | Some x => str_eqb x b
  | None => false
  end.

(** [a or b] on optional strings. *)
Definition or_else (a b : option pystr) : option pystr :=
  match a with
  | Some (_ :: _) => a
  | _ => b
  end.

Section Loop.

Context {RT : PyRuntime}.

(** "Only update status message if text changed": edit the status
    message, and send a new one when the edit raises. *)
Definition update_status (t : tick) (status_text : pystr) : body unit :=
  last <~ read last_status_text;
  if negb (opt_str_eqb last status_text) then
    try_exception
      (await (EvBot (EditStatus status_text) (t_edit t)) (t_edit t) >>
       write (set_last_status_text status_text))
      (try_exception
         (await (EvBot (SendStatus status_text) (t_send_status t))
                (t_send_status t) >>
          write (set_last_status_text status_text))
         (bret tt))
  else bret tt.

(** "Check for agent questions" *)
Definition forward_question (t : tick) (last_question question : option pystr)
  : body unit :=
  asked <~ read last_question_sent;
  match or_else last_question question with
  | Some ((_ :: _) as current_question) =>
      if negb (opt_str_eqb asked current_question) then
        await (EvBot (SendQuestion current_question) (t_send_question t))
              (t_send_question t) >>
        write (set_last_question_sent current_question)
      else bret tt
  | _ => bret tt
  end.

(** "Show stop button when agent joins" *)
Definition offer_stop (t : tick) (status : pystr) : body unit :=
  shown <~ read keyboard_sent;
  if str_in status joined_family && negb shown then
    await (EvBot SendKeyboard (t_send_keyboard t)) (t_send_keyboard t) >>
    write set_keyboard_sent
  else bret tt.

(** The [try] block once the fetch has returned and the error counter has
    been reset. *)
Definition after_fetch (t : tick) (code : Z) (data : poll_data) : body unit :=
  if negb (code =? 200)%Z then
    await (EvSleep 5) (t_skip_sleep t) >> leave SigContinue
  else
    match data with
    | BadData => leave SigException
    | Data raw_status last_question question =>
        let status := py_lower raw_status in
        match map_status status with
        | Terminal _ => leave SigBreak
        | Unrecognized => await (EvSleep 5) (t_skip_sleep t) >> leave SigContinue
        | Message status_text =>
            update_status t status_text >>
            forward_question t last_question question >>
            offer_stop t status >>
            await (EvSleep 5) (t_sleep t)
        end
    end.

(** [await get_json(...)] *)
Definition fetch (t : tick) : body (Z * poll_data) :=
  fun st =>
    ([EvFetch], st,
     match t_fetch t with
     | FetchFailed => inr SigException
     | FetchCancelled => inr SigCancelled
     | Fetched code data => inl (code, data)
     end).

(** The [try] block of one pass. *)
Definition poll_try (t : tick) : body unit :=
  resp <~ fetch t;
  write (set_error_count 0) >>
  after_fetch t (fst resp) (snd resp).

(** One pass of [while True]: the [try] block and its two handlers. *)
Definition poll_iteration (t : tick) (st : poll_state)
  : list event * (poll_state + ending) :=
  match poll_try t st with
  | (evs, st', inl _) => (evs, inl st')
  | (evs, st', inr SigContinue) => (evs, inl st')
  | (evs, _, inr SigBreak) => (evs, inr Stopped)
  | (evs, _, inr SigCancelled) => (evs, inr CancelledEnd)
  | (evs, st', inr SigException) =>
      let n := S (error_count st') in
      if (max_errors <=? n)%nat then
        (evs ++ [EvBot SendConnectionLost (t_send_notice t)],
         inr (match t_send_notice t with
              | Cancelled => Escaped
              | _ => TooManyErrors
              end))
      else
        (evs ++ [EvSleep 10],
         match t_error_sleep t with
         | Done => inl (set_error_count n st')
         | _ => inr Escaped
         end)
  end.

(** The loop, over the outcomes of as many passes as are observed. *)
Fixpoint poll_loop (ticks : list tick) (st : poll_state)
  : list event * (poll_state + ending) :=
  match ticks with
  | [] => ([], inl st)
  | t :: r =>
      match poll_iteration t st with
      | (evs, inl st') =>
          let '(evs', res) := poll_loop r st' in (evs ++ evs', res)
      | (evs, inr e) => (evs, inr e)
      end
  end.

Definition poll_agent_status (ticks : list tick) : list event * (poll_state + ending) :=
  poll_loop ticks initial_state.

End Loop.

(** *** Reading a trace *)

Definition is_fetch (e : event) : bool :=
  match e with EvFetch => true | _ => false end.

Definition is_notice (e : event) : bool :=
  match e with EvBot SendConnectionLost _ => true | _ => false end.

Definition shows_keyboard (e : event) : bool :=
  match e with EvBot SendKeyboard Done => true | _ => false end.

(** The status text a delivered call shows. *)
Definition shown_status (e : event) : option pystr :=
  match e with
  | EvBot (EditStatus t) Done | EvBot (SendStatus t) Done => Some t
  | _ => None
  end.

Definition count (p : event -> bool) (evs : list event) : nat :=
  length (List.filter p evs).

Definition shown_statuses (evs : list event) : list pystr :=
  omap shown_status evs.

End Poller.

(** ** Facts about the polling loop *)

Lemma str_eqb_eq a b : str_eqb a b = true <-> a = b.
Proof.
  revert b. induction a as [| x a IH]; intros [| y b]; cbn [str_eqb];
    try (split; [discriminate | discriminate]); [by split |].
  rewrite andb_true_iff, N.eqb_eq, IH. split.
  - intros [-> ->]. reflexivity.
  - intros [= -> ->]. by split.
Qed.

Lemma str_eqb_refl a : str_eqb a a = true.
Proof. by apply str_eqb_eq. Qed.

Module PollerFacts.

Import Poller.

(** A status text is shown only when it differs from the one shown before
    it. *)
Fixpoint chain (prev : option pystr) (l : list pystr) : Prop :=
  match l with
  | [] => True
  | x :: r => prev <> Some x /\ chain (Some x) r
  end.

Definition last_shown (prev : option pystr) (l : list pystr) : option pystr :=
  fold_left (fun _ x => Some x) l prev.

Lemma chain_app prev l1 l2 :
  chain prev l1 -> chain (last_shown prev l1) l2 -> chain prev (l1 ++ l2).
Proof.
  revert prev. induction l1 as [| x l1 IH]; intros prev H1 H2; [exact H2 |].
  destruct H1 as [Hne H1]. split; [exact Hne |]. by apply IH.
Qed.

Lemma last_shown_app prev l1 l2 :
  last_shown prev (l1 ++ l2) = last_shown (last_shown prev l1) l2.
Proof. unfold last_shown. by rewrite fold_left_app. Qed.

Lemma shown_statuses_app e1 e2 :
  shown_statuses (e1 ++ e2) = shown_statuses e1 ++ shown_statuses e2.
Proof. unfold shown_statuses. by rewrite omap_app. Qed.

Lemma count_app p e1 e2 : count p (e1 ++ e2) = count p e1 + count p e2.
Proof. unfold count. by rewrite List.filter_app, length_app. Qed.

Definition flag (st : poll_state) : nat := if keyboard_sent st then 1 else 0.

(** What every step after the fetch respects: the keyboard flag counts the
    keyboards shown, the remembered status text is the last one shown and
    was different from the one before, no notice is sent, nothing is
    fetched and the error counter is left alone. *)
Record steady (st : poll_state) (evs : list event) (st' : poll_state) : Prop := {
  steady_keyboard : flag st + count shows_keyboard evs = flag st';
  steady_chain : chain (last_status_text st) (shown_statuses evs);
  steady_last :
    last_status_text st' = last_shown (last_status_text st) (shown_statuses evs);
  steady_notice : count is_notice evs = 0;
  steady_fetch : count is_fetch evs = 0;
  steady_errors : error_count st' = error_count st
}.

Lemma steady_refl st : steady st [] st.
Proof. by split. Qed.

Lemma steady_trans a e1 b e2 c :
  steady a e1 b -> steady b e2 c -> steady a (e1 ++ e2) c.
Proof.
  intros [K1 C1 L1 N1 F1 E1] [K2 C2 L2 N2 F2 E2].
  split; rewrite ?count_app, ?shown_statuses_app, ?last_shown_app.
  - lia.
  - apply chain_app; [exact C1 |]. by rewrite <- L1.
  - by rewrite L2, L1.
  - lia.
  - lia.
  - congruence.
Qed.

Definition keeps {A : Type} (m : body A) : Prop :=
  forall st, steady st (m st).1.1 (m st).1.2.

Lemma keeps_bret {A : Type} (a : A) : keeps (bret a).
Proof. intros st. apply steady_refl. Qed.

Lemma keeps_leave {A : Type} sg : keeps (@leave A sg).
Proof. intros st. apply steady_refl. Qed.

Lemma keeps_bbind {A B : Type} (m : body A) (k : A -> body B) :
  keeps m -> (forall a, keeps (k a)) -> keeps (bbind m k).
Proof.
  intros Hm Hk st. specialize (Hm st). unfold bbind.
  destruct (m st) as [[evs st'] [a | sg]]; cbn [fst snd] in *; [| exact Hm].
  specialize (Hk a st'). destruct (k a st') as [[evs' st''] r]; cbn [fst snd] in *.
  by apply (steady_trans _ _ st').
Qed.

Lemma keeps_sleep n o : keeps (await (EvSleep n) o).
Proof. intros st. by split. Qed.

Section Blocks.

Context {RT : PyRuntime}.

Lemma keeps_update_status t text : keeps (update_status t text).
Proof.
  intros st. unfold update_status, bbind, read, try_exception, await, write, bret.
  cbn [fst snd].
  destruct (opt_str_eqb (last_status_text st) text) eqn:Heq; cbn [negb];
    [by split |].
  assert (Hne : last_status_text st <> Some text).
  { intros Hs. rewrite Hs in Heq. cbn in Heq. by rewrite str_eqb_refl in Heq. }
  destruct (t_edit t); cbn; [by split | | by split].
  destruct (t_send_status t); cbn; by split.
Qed.

Lemma keeps_forward_question t lq q : keeps (forward_question t lq q).
Proof.
  intros st. unfold forward_question, bbind, read, await, write, bret.
  cbn [fst snd].
  destruct (or_else lq q) as [[| c cq] |]; [by split | | by split].
  destruct (negb (opt_str_eqb (last_question_sent st) (c :: cq))); [| by split].
  destruct (t_send_question t); cbn; by split.
Qed.

Lemma keeps_offer_stop t status : keeps (offer_stop t status).
Proof.
  intros st. unfold offer_stop, bbind, read, await, write, bret.
  cbn [fst snd].
  destruct (str_in status joined_family); cbn [andb]; [| by split].
  destruct (keyboard_sent st) eqn:Hk; cbn [negb].
  - cbn. split; unfold flag; cbn; by rewrite ?Hk.
  - destruct (t_send_keyboard t); cbn; split; unfold flag; cbn; by rewrite ?Hk.
Qed.

Lemma keeps_after_fetch t code data : keeps (after_fetch t code data).
Proof.
  unfold after_fetch. destruct (negb (code =? 200)%Z).
  - apply keeps_bbind; [apply keeps_sleep | intros _; apply keeps_leave].
  - destruct data as [| raw lq q]; [apply keeps_leave |].
    destruct (map_status (py_lower raw)).
    + apply keeps_bbind; [apply keeps_sleep | intros _; apply keeps_leave].
    + apply keeps_bbind; [apply keeps_update_status | intros _].
      apply keeps_bbind; [apply keeps_forward_question | intros _].
      apply keeps_bbind; [apply keeps_offer_stop | intros _].
      apply keeps_sleep.
    + apply keeps_leave.
Qed.

(** The [try] block, by the outcome of the fetch. *)
Lemma poll_try_unfold t st :
  poll_try t st
  = match t_fetch t with
    | FetchFailed => ([EvFetch], st, inr SigException)
    | FetchCancelled => ([EvFetch], st, inr SigCancelled)
    | Fetched code data =>
        let '(evs, st', r) := after_fetch t code data (set_error_count 0 st) in
        (EvFetch :: evs, st', r)
    end.
Proof.
  unfold poll_try, bbind, fetch, write. destruct (t_fetch t); try reflexivity.
  cbn [fst snd app]. by destruct (after_fetch _ _ _ _) as [[evs st'] r].
Qed.

(** One pass: exactly one fetch; the keyboard flag and the remembered
    status text follow what was shown; after a fetch that returned, no
    notice is sent, the loop does not give up and the counter ends at most
    at one. *)
Lemma poll_iteration_facts t st :
  let '(evs, res) := poll_iteration t st in
  count is_fetch evs = 1 /\
  chain (last_status_text st) (shown_statuses evs) /\
  flag st + count shows_keyboard evs <= 1 /\
  match res with
  | inl st' =>
      flag st + count shows_keyboard evs = flag st' /\
      last_status_text st' = last_shown (last_status_text st) (shown_statuses evs)
  | inr _ => True
  end /\
  match t_fetch t with
  | Fetched _ _ =>
      count is_notice evs = 0 /\
      res <> inr TooManyErrors /\
      match res with inl st' => error_count st' <= 1 | inr _ => True end
  | _ => True
  end.
Proof.
  unfold poll_iteration. rewrite poll_try_unfold.
  destruct (t_fetch t) as [| | code data].
  - destruct (max_errors <=? S (error_count st)); [| destruct (t_error_sleep t)];
      cbn; repeat split; try done; unfold flag; cbn;
      destruct (keyboard_sent st); lia.
  - cbn. repeat split; try done; unfold flag; destruct (keyboard_sent st); lia.
  - pose proof (keeps_after_fetch t code data (set_error_count 0 st)) as Hk.
    destruct (after_fetch t code data (set_error_count 0 st)) as [[evs st'] r].
    cbn [fst snd] in Hk. destruct Hk as [K C L N F E].
    change (flag (set_error_count 0 st)) with (flag st) in K.
    change (last_status_text (set_error_count 0 st)) with (last_status_text st) in C, L.
    cbn [error_count set_error_count] in E.
    assert (Hflag : flag st' <= 1) by (unfold flag; destruct (keyboard_sent st'); lia).
    assert (Hfetch : count is_fetch (EvFetch :: evs) = 1)
      by (change (count is_fetch (EvFetch :: evs)) with (S (count is_fetch evs)); lia).
    assert (Hkb : count shows_keyboard (EvFetch :: evs) = count shows_keyboard evs)
      by reflexivity.
    assert (Hno : count is_notice (EvFetch :: evs) = count is_notice evs)
      by reflexivity.
    assert (Hsh : shown_statuses (EvFetch :: evs) = shown_statuses evs)
      by reflexivity.
    destruct r as [[] | []].
    + rewrite Hfetch, Hkb, Hno, Hsh. repeat split; try done; lia.
    + rewrite Hfetch, Hkb, Hno, Hsh. repeat split; try done; lia.
    + rewrite Hfetch, Hkb, Hno, Hsh. repeat split; try done; lia.
    + rewrite E. cbn [max_errors Nat.leb].
      rewrite !count_app, shown_statuses_app, Hfetch, Hkb, Hno, Hsh.
      destruct (t_error_sleep t); cbn; rewrite ?app_nil_r, ?Nat.add_0_r;
        repeat split; try done; try lia.
      all: rewrite last_shown_app; cbn; done.
    + rewrite Hfetch, Hkb, Hno, Hsh. repeat split; try done; lia.
Qed.

(** The whole loop from any state. *)
Lemma poll_loop_facts ticks st :
  let '(evs, res) := poll_loop ticks st in
  count is_fetch evs <= length ticks /\
  chain (last_status_text st) (shown_statuses evs) /\
  flag st + count shows_keyboard evs <= 1 /\
  match res with
  | inl st' =>
      flag st + count shows_keyboard evs = flag st' /\
      last_status_text st' = last_shown (last_status_text st) (shown_statuses evs)
  | inr _ => True
  end.
Proof.
  revert st. induction ticks as [| t r IH]; intros st; cbn [poll_loop].
  - cbn. repeat split; unfold flag; destruct (keyboard_sent st); lia.
  - pose proof (poll_iteration_facts t st) as Hit.
    destruct (poll_iteration t st) as [evs [st' | e]].
    + destruct Hit as (F & C & K & [K' L] & _).
      specialize (IH st'). destruct (poll_loop r st') as [evs' res].
      destruct IH as (F' & C' & K'' & Hres).
      rewrite !count_app, shown_statuses_app. cbn [length].
      repeat split.
      * lia.
      * apply chain_app; [exact C |]. by rewrite <- L.
      * lia.
      * destruct res as [st'' |]; [| done].
        destruct Hres as [K3 L3]. split; [lia |].
        by rewrite last_shown_app, L3, L.
    + destruct Hit as (F & C & K & _ & _). cbn [length]. repeat split; try done; lia.
Qed.

End Blocks.

(** No two status texts shown one after the other are equal. *)
Fixpoint no_repeat (l : list pystr) : Prop :=
  match l with
  | x :: ((y :: _) as r) => x <> y /\ no_repeat r
  | _ => True
  end.

Lemma chain_no_repeat prev l : chain prev l -> no_repeat l.
Proof.
  revert prev. induction l as [| x [| y l] IH]; intros prev Hc; try exact I.
  destruct Hc as [_ Hc]. split.
  - destruct Hc as [Hne _]. congruence.
  - by apply (IH (Some x)).
Qed.

End PollerFacts.

(** ** Consecutive failures of the status fetch *)

Module Backoff.

Import Poller PollerFacts.

(** A pass whose fetch raises and whose back-off sleep, if reached,
    completes. *)
Definition fetch_fails (t : tick) : Prop :=
  t_fetch t = FetchFailed /\ t_error_sleep t = Done.

(** The awaits of [k] failed passes that end with the notice. *)
Definition backoff_trace (k : nat) (notice : outcome) : list event :=
  concat (repeat [EvFetch; EvSleep 10] (k - 1)) ++
  [EvFetch; EvBot SendConnectionLost notice].

Lemma count_backoff_fetch k o : 1 <= k -> count is_fetch (backoff_trace k o) = k.
Proof.
  intros Hk. unfold backoff_trace. rewrite count_app.
  replace (count is_fetch (concat (repeat [EvFetch; EvSleep 10] (k - 1)))) with (k - 1).
  - cbn. lia.
  - induction (k - 1) as [| n IH]; [reflexivity |].
    cbn [repeat concat]. rewrite count_app, <- IH. reflexivity.
Qed.

Lemma count_backoff_notice k o : count is_notice (backoff_trace k o) = 1.
Proof.
  unfold backoff_trace. rewrite count_app.
  replace (count is_notice (concat (repeat [EvFetch; EvSleep 10] (k - 1)))) with 0.
  - reflexivity.
  - induction (k - 1) as [| n IH]; [reflexivity |].
    cbn [repeat concat]. rewrite count_app, <- IH. reflexivity.
Qed.

Section Run.

Context {RT : PyRuntime}.

Lemma failed_pass t st :
  fetch_fails t ->
  poll_iteration t st
  = if (max_errors <=? S (error_count st))%nat
    then ([EvFetch; EvBot SendConnectionLost (t_send_notice t)],
          inr (match t_send_notice t with Cancelled => Escaped | _ => TooManyErrors end))
    else ([EvFetch; EvSleep 10], inl (set_error_count (S (error_count st)) st)).
Proof.
  intros [Hf Hs]. unfold poll_iteration. rewrite poll_try_unfold, Hf, Hs.
  reflexivity.
Qed.

(** From a counter at [5 - k], [k] failed passes in a row end the loop at
    the [k]-th fetch, with the notice as the last call. *)
Lemma failed_run k : forall (failing rest : list tick) (st : poll_state),
  length failing = k -> 1 <= k -> error_count st + k = max_errors ->
  Forall fetch_fails failing ->
  exists o e, poll_loop (failing ++ rest) st = (backoff_trace k o, inr e).
Proof.
  induction k as [| k IH]; intros failing rest st Hlen Hk Hcnt Hall; [lia |].
  destruct failing as [| t failing]; [discriminate |].
  apply Forall_cons in Hall as [Ht Hall]. cbn [length] in Hlen.
  cbn [app poll_loop]. rewrite (failed_pass t st Ht).
  unfold max_errors in *.
  destruct (Nat.leb_spec 5 (S (error_count st))) as [Hge | Hlt].
  - assert (k = 0) as -> by lia. eexists. eexists. reflexivity.
  - destruct (IH failing rest (set_error_count (S (error_count st)) st))
      as (o & e & Hrun); [lia | lia | cbn; lia | exact Hall |].
    rewrite Hrun. exists o, e. f_equal. unfold backoff_trace.
    replace (S k - 1) with (S (k - 1)) by lia. reflexivity.
Qed.

End Run.

(** Five passes with a failing fetch; the sixth would succeed. *)
Definition failing_tick : tick :=
  mkTick FetchFailed Done Done Done Done Done Done Done Done.

Definition healthy_tick : tick :=
  mkTick (Fetched 200 (Data (lit "starting") None None))
         Done Done Done Done Done Done Done Done.

End Backoff.

(** C9.  From a loop whose failure counter is at zero, five passes in a row
    with a failing fetch end the loop: the fifth fetch is the last one, it
    is followed by the one [connection lost] notice, and the passes that
    would follow are never run.  A pass whose fetch returns sends no
    notice, never ends the loop for too many errors, and leaves the counter
    at most at one whatever it was before. *)
Theorem five_failed_fetches_end_polling
    `{PyRuntime} (st : Poller.poll_state) (failing rest : list Poller.tick) :
  Poller.error_count st = 0 ->
  length failing = 5 ->
  Forall Backoff.fetch_fails failing ->
  (exists evs e,
     Poller.poll_loop (failing ++ rest) st = (evs, inr e) /\
     (exists o, evs = Backoff.backoff_trace 5 o) /\
     Poller.count Poller.is_fetch evs = 5 /\
     Poller.count Poller.is_notice evs = 1) /\
  (forall st0 t code data,
     Poller.t_fetch t = Poller.Fetched code data ->
     Poller.count Poller.is_notice (fst (Poller.poll_iteration t st0)) = 0 /\
     snd (Poller.poll_iteration t st0) <> inr Poller.TooManyErrors /\
     match snd (Poller.poll_iteration t st0) with
     | inl st' => Poller.error_count st' <= 1
     | inr _ => True
     end).
Proof.
  intros Hzero Hlen Hall. split.
  - destruct (Backoff.failed_run 5 failing rest st) as (o & e & Hrun);
      [exact Hlen | lia | unfold Poller.max_errors; lia | exact Hall |].
    exists (Backoff.backoff_trace 5 o), e. repeat split.
    + exact Hrun.
    + by exists o.
  - intros st0 t code data Hf.
    pose proof (PollerFacts.poll_iteration_facts t st0) as Hit.
    destruct (Poller.poll_iteration t st0) as [evs res]. rewrite Hf in Hit.
    by destruct Hit as (_ & _ & _ & _ & Hfetched).
Qed.

Lemma five_failed_fetches_end_polling_witness :
  exists evs e,
    Poller.poll_loop (RT := Sample.runtime)
      (repeat Backoff.failing_tick 5 ++ [Backoff.healthy_tick]) Poller.initial_state
    = (evs, inr e) /\
    (exists o, evs = Backoff.backoff_trace 5 o) /\
    Poller.count Poller.is_fetch evs = 5 /\
    Poller.count Poller.is_notice evs = 1.
Proof.
  apply (five_failed_fetches_end_polling (H := Sample.runtime)
           Poller.initial_state (repeat Backoff.failing_tick 5)
           [Backoff.healthy_tick]).
  - reflexivity.
  - reflexivity.
  - repeat constructor.
Defined.

(** ** Status streaks *)

Module Streaks.

Import Poller PollerFacts.

Lemma map_status_joined status :
  str_in status joined_family = true -> map_status status = Message txt_joined.
Proof.
  unfold str_in, joined_family. cbn [existsb]. rewrite orb_false_r.
  intros Hin. apply orb_true_iff in Hin as [Hin | Hin];
    [| apply orb_true_iff in Hin as [Hin | Hin]];
    apply str_eqb_eq in Hin; subst status; reflexivity.
Qed.

(** A pass that fetches a status of the joined family, with the chat API
    accepting every call and no cancellation. *)
Definition joined_pass {RT : PyRuntime} (t : tick) : Prop :=
  (exists raw lq q,
     t_fetch t = Fetched 200 (Data raw lq q) /\
     str_in (py_lower raw) joined_family = true) /\
  t_edit t = Done /\ t_send_question t = Done /\
  t_send_keyboard t = Done /\ t_sleep t = Done.

Section Joined.

Context {RT : PyRuntime}.

Lemma joined_pass_step t st :
  joined_pass t ->
  exists evs st',
    poll_iteration t st = (evs, inl st') /\
    keyboard_sent st' = true /\
    last_status_text st' = Some txt_joined /\
    count shows_keyboard evs = 1 - flag st /\
    shown_statuses evs
    = if opt_str_eqb (last_status_text st) txt_joined then [] else [txt_joined].
Proof.
  intros ((raw & lq & q & Hf & Hj) & He & Hq & Hk & Hs).
  unfold poll_iteration. rewrite poll_try_unfold, Hf.
  unfold after_fetch. cbn [Z.eqb Pos.eqb negb].
  rewrite (map_status_joined _ Hj).
  unfold update_status, forward_question, offer_stop, bbind, read, write,
    try_exception, await, bret.
  rewrite He, Hq, Hk, Hs, Hj.
  destruct st as [lqs kb lst ec].
  cbn -[opt_str_eqb txt_joined or_else str_eqb].
  destruct (opt_str_eqb lst txt_joined) eqn:Hlast;
    cbn -[opt_str_eqb txt_joined or_else str_eqb];
    destruct (or_else lq q) as [[| c cq] |];
    cbn -[opt_str_eqb txt_joined str_eqb];
    repeat match goal with
           | |- context [opt_str_eqb ?a ?b] => destruct (opt_str_eqb a b)
           end;
    destruct kb;
    cbn -[txt_joined]; eexists; eexists; (split; [reflexivity |]);
    cbn -[txt_joined]; repeat split; try done.
  all: destruct lst as [x |]; [| discriminate];
       cbn -[txt_joined str_eqb] in Hlast; apply str_eqb_eq in Hlast; by subst x.
Qed.

(** After the first joined pass nothing more is shown for the streak. *)
Lemma joined_streak_settled ticks st :
  Forall joined_pass ticks ->
  keyboard_sent st = true ->
  last_status_text st = Some txt_joined ->
  exists evs st',
    poll_loop ticks st = (evs, inl st') /\
    count shows_keyboard evs = 0 /\ shown_statuses evs = [].
Proof.
  revert st. induction ticks as [| t r IH]; intros st Hall Hk Hl.
  - exists [], st. by repeat split.
  - apply Forall_cons in Hall as [Ht Hall]. cbn [poll_loop].
    destruct (joined_pass_step t st Ht) as (evs & st' & Hit & Hk' & Hl' & Hc & Hsh).
    rewrite Hit.
    destruct (IH st' Hall Hk' Hl') as (evs' & st'' & Hrun & Hc' & Hsh').
    rewrite Hrun. exists (evs ++ evs'), st''. split; [reflexivity |].
    rewrite count_app, shown_statuses_app, Hc, Hc', Hsh, Hsh', Hl.
    unfold flag, opt_str_eqb. rewrite Hk, str_eqb_refl. by split.
Qed.

End Joined.

(** The status [active], which [MeetingAgent.start] sets once the agent is
    in the meeting, polled without any failure. *)
Definition active_tick : tick :=
  mkTick (Fetched 200 (Data (lit "active") None None))
         Done Done Done Done Done Done Done Done.

Definition joined_tick : tick :=
  mkTick (Fetched 200 (Data (lit "joined") None None))
         Done Done Done Done Done Done Done Done.

End Streaks.

(** C8.  A streak of polls that all report [active], the status the
    backend's agent has while it is in the meeting, shows nothing at all:
    every pass fetches and sleeps, no status text and no stop keyboard is
    ever sent, however long the streak. *)
Theorem active_streak_never_offers_stop (n : nat) :
  Poller.poll_agent_status (RT := Sample.runtime) (repeat Streaks.active_tick n)
  = (concat (repeat [Poller.EvFetch; Poller.EvSleep 5] n), inl Poller.initial_state) /\
  Poller.count Poller.shows_keyboard
    (fst (Poller.poll_agent_status (RT := Sample.runtime) (repeat Streaks.active_tick n)))
  = 0.
Proof.
  assert (Hrun :
    Poller.poll_loop (RT := Sample.runtime) (repeat Streaks.active_tick n)
      Poller.initial_state
    = (concat (repeat [Poller.EvFetch; Poller.EvSleep 5] n), inl Poller.initial_state)).
  { induction n as [| n IH]; [reflexivity |].
    cbn [repeat Poller.poll_loop].
    change (Poller.poll_iteration Streaks.active_tick Poller.initial_state)
      with ([Poller.EvFetch; Poller.EvSleep 5],
            @inl Poller.poll_state Poller.ending Poller.initial_state).
    cbv beta iota. rewrite IH. reflexivity. }
  unfold Poller.poll_agent_status. rewrite Hrun. split; [reflexivity |].
  cbn [fst]. clear Hrun. induction n as [| n IH]; [reflexivity |].
  cbn [repeat concat]. rewrite PollerFacts.count_app, IH. reflexivity.
Qed.

(** ** Emphasised and plain section headers *)

Module Markdown.

Inductive header : Type :=
| H_participants | H_key_decisions | H_action_items | H_questions | H_summary.

Definition header_token (h : header) : pystr :=
  match h with
  | H_participants => Tokens.participants
  | H_key_decisions => Tokens.key_decisions
  | H_action_items => Tokens.action_items
  | H_questions => Tokens.questions
  | H_summary => Tokens.summary
  end.

(** A line of a structured response: a section header followed on the same
    line by [rest], or any other text. *)
Inductive doc_line : Type :=
| Header (h : header) (rest : pystr)
| Text (s : pystr).

(** The content of a line, which is the same in both forms. *)
Definition content (l : doc_line) : pystr :=
  match l with
  | Header _ rest => rest
  | Text s => s
  end.

(** A header is written [**TOKEN:**] in the emphasised form and [TOKEN:]
    in the plain form. *)
Definition render_line (emphasised : bool) (l : doc_line) : pystr :=
  match l with
  | Header h rest =>
      (if emphasised then Tokens.dstar ++ header_token h ++ Tokens.dstar
       else header_token h) ++ rest
  | Text s => s
  end.

Definition render (emphasised : bool) (doc : list doc_line) : pystr :=
  join [ch_nl] (map (render_line emphasised) doc).

Definition star_free (s : pystr) : bool :=
  forallb (fun c => negb (N.eqb c ch_star)) s.

(** ['**' not in s] *)
Definition dstar_free (s : pystr) : bool := negb (contains s Tokens.dstar).

Definition ends_with_star (s : pystr) : bool :=
  match last s with
  | Some c => N.eqb c ch_star
  | None => false
  end.

End Markdown.

Module MarkdownFacts.

Import Markdown.

(** [s.replace('**', '')] as the scan it is. *)
Abbreviation unstar := (replace_go Tokens.dstar [] 0).

Lemma eqb_star_sym c : N.eqb ch_star c = N.eqb c ch_star.
Proof. apply N.eqb_sym. Qed.

Lemma startswith_dstar_cons c s :
  startswith (c :: s) Tokens.dstar = N.eqb c ch_star && startswith s [ch_star].
Proof. cbn [startswith Tokens.dstar]. by rewrite eqb_star_sym. Qed.

Lemma startswith_star_app a b :
  a <> [] -> startswith (a ++ b) [ch_star] = startswith a [ch_star].
Proof.
  destruct a as [| c a]; [done |]. intros _. cbn [app startswith].
  by rewrite !startswith_nil.
Qed.

Lemma contains_dstar_cons c s :
  contains (c :: s) Tokens.dstar
  = N.eqb c ch_star && startswith s [ch_star] || contains s Tokens.dstar.
Proof. cbn [contains]. by rewrite startswith_dstar_cons. Qed.

Lemma ends_with_star_cons c s : s <> [] -> ends_with_star (c :: s) = ends_with_star s.
Proof. intros Hs. unfold ends_with_star. destruct s; [done |]. reflexivity. Qed.

Lemma ends_with_star_snoc s c : ends_with_star (s ++ [c]) = N.eqb c ch_star.
Proof. unfold ends_with_star. by rewrite last_snoc. Qed.

(** Two strings without [**] join into one when no star meets a star at
    the seam. *)
Lemma dstar_free_app a b :
  dstar_free a = true -> dstar_free b = true ->
  ends_with_star a = false \/ startswith b [ch_star] = false ->
  dstar_free (a ++ b) = true.
Proof.
  unfold dstar_free. rewrite !negb_true_iff.
  induction a as [| c a IH]; intros Ha Hb Hseam; [exact Hb |].
  rewrite contains_dstar_cons in Ha. apply orb_false_iff in Ha as [Hhead Ha].
  cbn [app]. rewrite contains_dstar_cons. apply orb_false_iff. split.
  - destruct a as [| d a]; [| by rewrite startswith_star_app].
    cbn [app]. destruct Hseam as [He | Hs].
    + unfold ends_with_star in He. cbn in He. by rewrite He.
    + rewrite Hs. apply andb_false_r.
  - destruct a as [| d a]; [exact Hb |].
    apply IH; [exact Ha | exact Hb |].
    destruct Hseam as [He | Hs]; [left | by right].
    by rewrite ends_with_star_cons in He.
Qed.

(** Text without [**] that does not end in a star is copied by the scan,
    which then goes on with what follows. *)
Lemma unstar_app a y :
  dstar_free a = true -> ends_with_star a = false ->
  unstar (a ++ y) = a ++ unstar y.
Proof.
  unfold dstar_free. rewrite negb_true_iff.
  induction a as [| c a IH]; intros Ha He; [reflexivity |].
  rewrite contains_dstar_cons in Ha. apply orb_false_iff in Ha as [Hhead Ha].
  cbn [app replace_go]. rewrite startswith_dstar_cons.
  assert (Hno : N.eqb c ch_star && startswith (a ++ y) [ch_star] = false).
  { destruct a as [| d a]; [| by rewrite startswith_star_app].
    unfold ends_with_star in He. cbn in He. by rewrite He. }
  rewrite Hno. f_equal.
  destruct a as [| d a]; [reflexivity |].
  apply IH; [exact Ha |]. by rewrite ends_with_star_cons in He.
Qed.

Lemma unstar_id a : dstar_free a = true -> unstar a = a.
Proof.
  unfold dstar_free. rewrite negb_true_iff.
  induction a as [| c a IH]; intros Ha; [reflexivity |].
  cbn [contains] in Ha. apply orb_false_iff in Ha as [Hhead Ha].
  cbn [replace_go]. rewrite Hhead. f_equal. by apply IH.
Qed.

Lemma unstar_dstar y : unstar (Tokens.dstar ++ y) = unstar y.
Proof.
  unfold Tokens.dstar. cbn [app replace_go startswith].
  rewrite startswith_nil. reflexivity.
Qed.

Lemma header_token_clean h :
  dstar_free (header_token h) = true /\ ends_with_star (header_token h) = false.
Proof. by destruct h. Qed.

Lemma star_free_clean s :
  star_free s = true -> dstar_free s = true /\ ends_with_star s = false.
Proof.
  unfold star_free, dstar_free. rewrite negb_true_iff.
  induction s as [| c s IH]; cbn [forallb]; intros Hs; [by split |].
  apply andb_true_iff in Hs as [Hc Hs]. apply negb_true_iff in Hc.
  destruct (IH Hs) as [Hd He]. split.
  - rewrite contains_dstar_cons, Hc, Hd. reflexivity.
  - destruct s as [| d s]; [| by rewrite ends_with_star_cons].
    unfold ends_with_star. cbn. exact Hc.
Qed.

(** *** The two renderings *)

Lemma render_cons emphasised l doc :
  render emphasised (l :: doc)
  = render_line emphasised l ++
    match doc with
    | [] => []
    | _ :: _ => [ch_nl] ++ render emphasised doc
    end.
Proof.
  unfold render. destruct doc; cbn [map join]; [by rewrite app_nil_r | reflexivity].
Qed.

Lemma unstar_line l y :
  dstar_free (content l) = true ->
  unstar (render_line true l ++ [ch_nl] ++ y) = render_line false l ++ [ch_nl] ++ unstar y.
Proof.
  intros Hc. destruct (header_token_clean H_participants) as [_ _].
  assert (Hnl : forall s, dstar_free s = true ->
            unstar (s ++ [ch_nl] ++ y) = s ++ [ch_nl] ++ unstar y).
  { intros s Hs. rewrite (app_assoc s), unstar_app, <- app_assoc; [reflexivity | |].
    - apply dstar_free_app; [exact Hs | reflexivity | by right].
    - by rewrite ends_with_star_snoc. }
  destruct l as [h rest | s]; cbn [render_line content] in *; [| by apply Hnl].
  destruct (header_token_clean h) as [Hd He].
  rewrite <- !app_assoc, unstar_dstar, unstar_app, unstar_dstar by assumption.
  by rewrite Hnl.
Qed.

Lemma unstar_last_line l :
  dstar_free (content l) = true ->
  unstar (render_line true l) = render_line false l.
Proof.
  intros Hc. destruct l as [h rest | s]; cbn [render_line content] in *;
    [| by apply unstar_id].
  destruct (header_token_clean h) as [Hd He].
  rewrite <- !app_assoc, unstar_dstar, unstar_app, unstar_dstar by assumption.
  by rewrite unstar_id.
Qed.

(** Removing [**] from the emphasised form gives the plain form. *)
Lemma unstar_render doc :
  forallb (fun l => dstar_free (content l)) doc = true ->
  unstar (render true doc) = render false doc.
Proof.
  induction doc as [| l doc IH]; cbn [forallb]; intros Hall; [reflexivity |].
  apply andb_true_iff in Hall as [Hl Hall]. rewrite !render_cons.
  destruct doc as [| l' doc].
  - rewrite !app_nil_r. by apply unstar_last_line.
  - rewrite unstar_line by exact Hl. by rewrite IH.
Qed.

Lemma render_line_plain_clean l :
  dstar_free (content l) = true -> dstar_free (render_line false l) = true.
Proof.
  intros Hc. destruct l as [h rest | s]; cbn [render_line content] in *; [| exact Hc].
  destruct (header_token_clean h) as [Hd He]. apply dstar_free_app; auto.
Qed.

(** The plain form of a document without [**] has no [**]. *)
Lemma render_plain_clean doc :
  forallb (fun l => dstar_free (content l)) doc = true ->
  dstar_free (render false doc) = true.
Proof.
  induction doc as [| l doc IH]; cbn [forallb]; intros Hall; [reflexivity |].
  apply andb_true_iff in Hall as [Hl Hall]. rewrite render_cons.
  pose proof (render_line_plain_clean l Hl) as Hline.
  destruct doc as [| l' doc]; [by rewrite app_nil_r |].
  rewrite app_assoc. apply dstar_free_app.
  - apply dstar_free_app; [exact Hline | reflexivity | by right].
  - by apply IH.
  - left. by rewrite ends_with_star_snoc.
Qed.

(** *** Where the header is found *)

Lemma startswith_self_app t x : startswith (t ++ x) t = true.
Proof. induction t as [| c t IH]; cbn; [by destruct x |]. by rewrite N.eqb_refl. Qed.

Lemma contains_after pre s t : startswith s t = true -> contains (pre ++ s) t = true.
Proof.
  intros Hs. induction pre as [| c pre IH]; [by apply contains_startswith |].
  by apply contains_cons.
Qed.

Lemma find_after_star_free pre s t :
  star_free pre = true ->
  startswith s (ch_star :: t) = true ->
  find (pre ++ s) (ch_star :: t) = Z.of_nat (length pre).
Proof.
  intros Hp Hs. induction pre as [| c pre IH].
  - destruct s; cbn [app find]; by rewrite Hs.
  - cbn [forallb star_free] in Hp. apply andb_true_iff in Hp as [Hc Hp].
    apply negb_true_iff in Hc. specialize (IH Hp).
    cbn [app find startswith]. rewrite eqb_star_sym, Hc. cbn [andb].
    rewrite IH. cbn [length].
    replace (Z.of_nat (length pre) <? 0)%Z with false by (symmetry; apply Z.ltb_ge; lia).
    lia.
Qed.

Lemma slice_from_length {A : Type} (pre s : list A) :
  slice_from (Z.of_nat (length pre)) (pre ++ s) = s.
Proof.
  unfold slice_from.
  replace (Z.of_nat (length pre) <? 0)%Z with false by (symmetry; apply Z.ltb_ge; lia).
  rewrite Nat2Z.id. apply drop_app_length.
Qed.

End MarkdownFacts.

(** Under the conditions of the amended claim both forms are cut down to
    the same text before the lines are parsed. *)
Lemma extract_structured_same_text
    (pre rest : pystr) (lines : list Markdown.doc_line) :
  let doc := Markdown.Header Markdown.H_participants rest :: lines in
  Markdown.star_free pre = true ->
  find (pre ++ Markdown.render false doc) Tokens.participants
  = Z.of_nat (length pre) ->
  forallb (fun l => Markdown.dstar_free (Markdown.content l)) doc = true ->
  extract_structured (pre ++ Markdown.render true doc) = Markdown.render false doc /\
  extract_structured (pre ++ Markdown.render false doc) = Markdown.render false doc.
Proof.
  intros doc Hpre Hfind Hdoc.
  assert (HstartE : startswith (Markdown.render true doc) Tokens.participants_md = true).
  { unfold doc. rewrite MarkdownFacts.render_cons. cbn [Markdown.render_line].
    change (Tokens.dstar ++ Markdown.header_token Markdown.H_participants ++ Tokens.dstar)
      with Tokens.participants_md.
    rewrite <- !app_assoc. apply MarkdownFacts.startswith_self_app. }
  assert (HstartP : startswith (Markdown.render false doc) Tokens.participants = true).
  { unfold doc. rewrite MarkdownFacts.render_cons. cbn [Markdown.render_line].
    change (Markdown.header_token Markdown.H_participants) with Tokens.participants.
    rewrite <- !app_assoc. apply MarkdownFacts.startswith_self_app. }
  destruct (MarkdownFacts.star_free_clean pre Hpre) as [Hpd Hpe].
  split; unfold extract_structured.
  - rewrite (MarkdownFacts.contains_after pre _ _ HstartE).
    pose proof (MarkdownFacts.find_after_star_free pre _ (tl Tokens.participants_md)
                  Hpre HstartE) as HfindE.
    change (ch_star :: tl Tokens.participants_md) with Tokens.participants_md in HfindE.
    rewrite HfindE.
    rewrite MarkdownFacts.slice_from_length.
    change (replace (Markdown.render true doc) Tokens.dstar [])
      with (replace_go Tokens.dstar [] 0 (Markdown.render true doc)).
    by apply MarkdownFacts.unstar_render.
  - assert (Hclean : Markdown.dstar_free (pre ++ Markdown.render false doc) = true).
    { apply MarkdownFacts.dstar_free_app; [exact Hpd | | by left].
      by apply MarkdownFacts.render_plain_clean. }
    destruct (contains (pre ++ Markdown.render false doc) Tokens.participants_md) eqn:Hmd.
    { change Tokens.participants_md
        with (Tokens.dstar ++ Tokens.participants ++ Tokens.dstar) in Hmd.
      apply contains_app_l in Hmd. unfold Markdown.dstar_free in Hclean.
      rewrite Hmd in Hclean. discriminate. }
    rewrite (MarkdownFacts.contains_after pre _ _ HstartP), Hfind.
    apply MarkdownFacts.slice_from_length.
Qed.

Module EmphasisExample.

Import Markdown.

(** The same content in both forms; one line of the summary carries an
    emphasised word. *)
Definition doc : list doc_line :=
  [Header H_participants (lit " Анна, Борис");
   Header H_summary (lit " Итог");
   Text (lit "Это **важно**")].

Definition session : SessionData := mkSessionData [] 0 ∅ [] None None.

Definition from_emphasised : MeetingSummary :=
  summary_of_response (RT := Sample.runtime) (render true doc) session.

Definition from_plain : MeetingSummary :=
  summary_of_response (RT := Sample.runtime) (render false doc) session.

(** The same document without the emphasised word. *)
Definition clean_doc : list doc_line :=
  [Header H_participants (lit " Анна, Борис");
   Header H_key_decisions [];
   Text (lit "- Перейти на новый API");
   Header H_summary (lit " Итог");
   Text (lit "Это важно")].

Definition preamble : pystr := Eval vm_compute in lit "Вот сводка:
".

End EmphasisExample.

(** C4 fails: with [**] on a continuation line of the summary text, the
    emphasised form loses the stars and the plain form keeps them, so the
    two forms of one content give different summaries. *)
Lemma emphasis_in_content_is_parsed_differently :
  ms_summary_text EmphasisExample.from_emphasised = lit "Итог Это важно" /\
  ms_summary_text EmphasisExample.from_plain = lit "Итог Это **важно**" /\
  str_eqb (ms_summary_text EmphasisExample.from_emphasised)
          (ms_summary_text EmphasisExample.from_plain) = false.
Proof. vm_compute. repeat split. Qed.

(** Where the two forms do agree.  For a response made of a preamble
    without asterisks that does not name the participants header, followed
    by the participants header line and any further header and text lines
    whose content has no [**], the emphasised form and the plain form give
    the same summary. *)
Theorem emphasised_headers_parse_like_plain
    `{PyRuntime} (pre rest : pystr) (lines : list Markdown.doc_line)
    (session_data : SessionData) :
  let doc := Markdown.Header Markdown.H_participants rest :: lines in
  Markdown.star_free pre = true ->
  find (pre ++ Markdown.render false doc) Tokens.participants
  = Z.of_nat (length pre) ->
  forallb (fun l => Markdown.dstar_free (Markdown.content l)) doc = true ->
  summary_of_response (pre ++ Markdown.render true doc) session_data
  = summary_of_response (pre ++ Markdown.render false doc) session_data.
Proof.
  intros doc Hpre Hfind Hdoc.
  destruct (extract_structured_same_text pre rest lines Hpre Hfind Hdoc) as [HE HP].
  unfold summary_of_response. fold doc in HE, HP. by rewrite HE, HP.
Qed.

Lemma emphasised_headers_parse_like_plain_witness :
  summary_of_response (RT := Sample.runtime)
    (EmphasisExample.preamble ++ Markdown.render true EmphasisExample.clean_doc)
    EmphasisExample.session
  = summary_of_response (RT := Sample.runtime)
      (EmphasisExample.preamble ++ Markdown.render false EmphasisExample.clean_doc)
      EmphasisExample.session.
Proof.
  apply (emphasised_headers_parse_like_plain (H := Sample.runtime)
           EmphasisExample.preamble (lit " Анна, Борис")
           (tl EmphasisExample.clean_doc) EmphasisExample.session).
  - vm_compute. reflexivity.
  - vm_compute. reflexivity.
  - vm_compute. reflexivity.
Defined.

(** * Further properties of the polling loop *)

(** Whatever the fetches return and however the chat calls end, no status
    text is shown twice in a row. *)
Theorem status_text_never_repeats `{PyRuntime} (ticks : list Poller.tick) :
  PollerFacts.no_repeat
    (Poller.shown_statuses (fst (Poller.poll_agent_status ticks))).
Proof.
  unfold Poller.poll_agent_status.
  pose proof (PollerFacts.poll_loop_facts ticks Poller.initial_state) as Hrun.
  destruct (Poller.poll_loop ticks Poller.initial_state) as [evs res].
  destruct Hrun as (_ & Hchain & _). cbn [fst].
  exact (PollerFacts.chain_no_repeat _ _ Hchain).
Qed.

(** The stop keyboard is delivered at most once in the life of the loop. *)
Theorem stop_keyboard_shown_at_most_once `{PyRuntime} (ticks : list Poller.tick) :
  Poller.count Poller.shows_keyboard (fst (Poller.poll_agent_status ticks)) <= 1.
Proof.
  unfold Poller.poll_agent_status.
  pose proof (PollerFacts.poll_loop_facts ticks Poller.initial_state) as Hrun.
  destruct (Poller.poll_loop ticks Poller.initial_state) as [evs res].
  destruct Hrun as (_ & _ & Hk & _). cbn [fst]. exact Hk.
Qed.

(** Over a streak of polls that report a status of the joined family, with
    the chat API accepting every call, the joined text is shown once, the
    stop keyboard is shown once, and the loop goes on. *)
Theorem joined_streak_shows_keyboard_once
    `{PyRuntime} (first : Poller.tick) (more : list Poller.tick) :
  Forall Streaks.joined_pass (first :: more) ->
  exists evs st',
    Poller.poll_agent_status (first :: more) = (evs, inl st') /\
    Poller.count Poller.shows_keyboard evs = 1 /\
    Poller.shown_statuses evs = [Poller.txt_joined] /\
    Poller.keyboard_sent st' = true.
Proof.
  intros Hall. apply Forall_cons in Hall as [Hfirst Hmore].
  unfold Poller.poll_agent_status. cbn [Poller.poll_loop].
  destruct (Streaks.joined_pass_step first Poller.initial_state Hfirst)
    as (evs & st1 & Hit & Hk & Hl & Hc & Hsh).
  rewrite Hit.
  destruct (Streaks.joined_streak_settled more st1 Hmore Hk Hl)
    as (evs' & st2 & Hrun & Hc' & Hsh').
  rewrite Hrun. exists (evs ++ evs'), st2. split; [reflexivity |].
  rewrite PollerFacts.count_app, PollerFacts.shown_statuses_app, Hc, Hc', Hsh, Hsh'.
  repeat split.
  pose proof (PollerFacts.poll_loop_facts more st1) as Hfacts.
  rewrite Hrun in Hfacts. destruct Hfacts as (_ & _ & _ & Hflag & _).
  unfold PollerFacts.flag in Hflag. rewrite Hk in Hflag.
  destruct (Poller.keyboard_sent st2); [reflexivity | lia].
Qed.

Lemma joined_streak_shows_keyboard_once_witness :
  exists evs st',
    Poller.poll_agent_status (RT := Sample.runtime)
      (Streaks.joined_tick :: repeat Streaks.joined_tick 3) = (evs, inl st') /\
    Poller.count Poller.shows_keyboard evs = 1 /\
    Poller.shown_statuses evs = [Poller.txt_joined] /\
    Poller.keyboard_sent st' = true.
Proof.
  apply (joined_streak_shows_keyboard_once (H := Sample.runtime)
           Streaks.joined_tick (repeat Streaks.joined_tick 3)).
  repeat constructor; try (by exists (lit "joined"), None, None).
Defined.

(** A poll that reports [stopped] or [finished] ends the loop at once: the
    text chosen for that status is never sent. *)
Theorem stopped_status_ends_polling_silently
    `{PyRuntime} (st : Poller.poll_state) (t : Poller.tick)
    (raw : pystr) (lq q : option pystr) :
  Poller.t_fetch t = Poller.Fetched 200 (Poller.Data raw lq q) ->
  str_in (py_lower raw) Poller.stopped_family = true ->
  Poller.poll_iteration t st = ([Poller.EvFetch], inr Poller.Stopped).
Proof.
  intros Hf Hs. unfold Poller.poll_iteration.
  rewrite PollerFacts.poll_try_unfold, Hf. unfold Poller.after_fetch.
  cbn [Z.eqb Pos.eqb negb].
  assert (Hmap : Poller.map_status (py_lower raw) = Poller.Terminal Poller.txt_stopped).
  { revert Hs. generalize (py_lower raw) as status. intros status.
    unfold str_in, Poller.stopped_family. cbn [existsb]. rewrite orb_false_r.
    intros Hin. apply orb_true_iff in Hin as [Hin | Hin];
      apply str_eqb_eq in Hin; subst status; reflexivity. }
  rewrite Hmap. reflexivity.
Qed.

Lemma stopped_status_ends_polling_silently_witness :
  Poller.poll_iteration (RT := Sample.runtime)
    (Poller.mkTick (Poller.Fetched 200 (Poller.Data (lit "Stopped") None None))
       Poller.Done Poller.Done Poller.Done Poller.Done Poller.Done Poller.Done
       Poller.Done Poller.Done)
    Poller.initial_state
  = ([Poller.EvFetch], inr Poller.Stopped).
Proof.
  apply (stopped_status_ends_polling_silently (H := Sample.runtime)
           Poller.initial_state _ (lit "Stopped") None None).
  - reflexivity.
  - vm_compute. reflexivity.
Defined.

(** * Further properties of the caption scan *)

Module CaptureFacts.

Import Capture.

Section Facts.

Context {RT : PyRuntime}.

(** What a scan adds: the captions recorded so far are kept, the seen-set
    grows, and the text of every caption added is in the seen-set. *)
Definition extends (st st' : list Caption * gset pystr) : Prop :=
  snd st ⊆ snd st' /\
  exists new, fst st' = fst st ++ new /\ forall c, c ∈ new -> cap_text c ∈ snd st'.

Lemma extends_refl st : extends st st.
Proof.
  split; [done |]. exists []. split; [by rewrite app_nil_r |].
  intros c Hc. by apply elem_of_nil in Hc.
Qed.

Lemma extends_trans a b c : extends a b -> extends b c -> extends a c.
Proof.
  intros [S1 (n1 & E1 & I1)] [S2 (n2 & E2 & I2)]. split; [set_solver |].
  exists (n1 ++ n2). split; [by rewrite E2, E1, app_assoc |].
  intros x Hx. apply elem_of_app in Hx as [Hx | Hx]; [| by apply I2].
  apply S2. by apply I1.
Qed.

Lemma scan_elements_extends els st : extends st (snd (scan_elements els st)).
Proof.
  revert st. induction els as [| e els IH]; intros st; cbn [scan_elements];
    [apply extends_refl |].
  destruct (el_text e) as [raw |]; [| apply extends_refl].
  destruct (nonempty (strip raw) && negb (bool_decide (strip raw ∈ st.2)));
    [| apply IH].
  eapply extends_trans; [| apply IH]. split; cbn [fst snd]; [set_solver |].
  eexists. split; [reflexivity |].
  intros c Hc. apply list_elem_of_singleton in Hc. subst c. set_solver.
Qed.

Lemma scan_selectors_extends page st : extends st (scan_selectors page st).
Proof.
  revert st. induction page as [| f page IH]; intros st; cbn [scan_selectors];
    [apply extends_refl |].
  destruct f as [| els]; [apply IH |].
  pose proof (scan_elements_extends els st) as He.
  destruct (scan_elements els st) as [[] st']; cbn [snd] in He.
  - destruct (fst st') eqn:Hcaps; [| exact He].
    eapply extends_trans; [exact He | apply IH].
  - eapply extends_trans; [exact He | apply IH].
Qed.

(** An element that cannot be read, is blank, or whose text is in the
    seen-set. *)
Definition nothing_new (seen : gset pystr) (e : Element) : bool :=
  match el_text e with
  | None => true
  | Some raw => negb (nonempty (strip raw)) || bool_decide (strip raw ∈ seen)
  end.

Definition page_has_nothing_new (seen : gset pystr) (page : list found_elements) : bool :=
  forallb (fun f => match f with
                    | FindFailed => true
                    | Elements els => forallb (nothing_new seen) els
                    end) page.

Lemma scan_elements_nothing_new els caps seen :
  forallb (nothing_new seen) els = true ->
  snd (scan_elements els (caps, seen)) = (caps, seen).
Proof.
  induction els as [| e els IH]; cbn [forallb scan_elements]; [done |].
  intros Hall. apply andb_true_iff in Hall as [He Hall].
  unfold nothing_new in He. destruct (el_text e) as [raw |]; [| done].
  cbn [snd]. apply orb_true_iff in He as [Hb | Hs].
  - apply negb_true_iff in Hb. rewrite Hb. by apply IH.
  - rewrite Hs. rewrite andb_false_r. by apply IH.
Qed.

Lemma scan_selectors_nothing_new page seen :
  page_has_nothing_new seen page = true ->
  scan_selectors page ([], seen) = ([], seen).
Proof.
  induction page as [| f page IH]; cbn [forallb page_has_nothing_new scan_selectors];
    [done |].
  intros Hall. apply andb_true_iff in Hall as [Hf Hall].
  destruct f as [| els]; [by apply IH |].
  pose proof (scan_elements_nothing_new els [] seen Hf) as He.
  destruct (scan_elements els ([], seen)) as [[] st']; cbn [snd] in He; subst st';
    by apply IH.
Qed.

(** *** Captions without a colon *)

Definition colon_free_element (e : Element) : bool :=
  match el_text e with
  | None => true
  | Some raw => negb (contains (strip raw) [ch_colon])
  end.

Definition colon_free_page (page : list found_elements) : bool :=
  forallb (fun f => match f with
                    | FindFailed => true
                    | Elements els => forallb colon_free_element els
                    end) page.

Lemma caption_of_colon_free e text :
  contains text [ch_colon] = false -> cap_text (caption_of e text) = text.
Proof. intros Hc. unfold caption_of, method2. by rewrite Hc. Qed.

(** The texts emitted so far, earlier scans included ([old]), are pairwise
    different and all in the seen-set. *)
Definition distinct_and_seen (old : list pystr) (st : list Caption * gset pystr) : Prop :=
  NoDup (old ++ map cap_text (fst st)) /\
  forall x, x ∈ old ++ map cap_text (fst st) -> x ∈ snd st.

Lemma scan_elements_distinct els old st :
  forallb colon_free_element els = true ->
  distinct_and_seen old st ->
  distinct_and_seen old (snd (scan_elements els st)).
Proof.
  revert st. induction els as [| e els IH]; intros st Hall Hinv; [exact Hinv |].
  cbn [forallb] in Hall. apply andb_true_iff in Hall as [He Hall].
  cbn [scan_elements]. unfold colon_free_element in He.
  destruct (el_text e) as [raw |]; [| exact Hinv].
  apply negb_true_iff in He.
  destruct (nonempty (strip raw)); cbn [andb]; [| by apply IH].
  destruct (bool_decide (strip raw ∈ st.2)) eqn:Hseen; cbn [negb]; [by apply IH |].
  apply bool_decide_eq_false in Hseen.
  apply IH; [exact Hall |]. destruct Hinv as [Hnd Hin].
  rewrite (caption_of_colon_free e _ He) in *.
  unfold distinct_and_seen. cbn [fst snd]. rewrite map_app. cbn [map].
  rewrite (caption_of_colon_free e _ He), app_assoc. split.
  - apply NoDup_app. split; [exact Hnd |]. split; [| apply NoDup_singleton].
    intros x Hx Hx'. apply list_elem_of_singleton in Hx'. subst x.
    apply Hseen. by apply Hin.
  - intros x Hx. apply elem_of_app in Hx as [Hx | Hx].
    + apply elem_of_union. right. by apply Hin.
    + apply list_elem_of_singleton in Hx. subst x.
      apply elem_of_union. left. by apply elem_of_singleton.
Qed.

Lemma scan_selectors_distinct page old st :
  colon_free_page page = true ->
  distinct_and_seen old st ->
  distinct_and_seen old (scan_selectors page st).
Proof.
  revert st. induction page as [| f page IH]; intros st Hall Hinv; [exact Hinv |].
  cbn [forallb colon_free_page] in Hall. apply andb_true_iff in Hall as [Hf Hall].
  cbn [scan_selectors]. destruct f as [| els]; [by apply IH |].
  pose proof (scan_elements_distinct els old st Hf Hinv) as He.
  destruct (scan_elements els st) as [[] st']; cbn [snd] in He.
  - destruct (fst st') eqn:Hcaps; [by apply IH | exact He].
  - by apply IH.
Qed.

Lemma scan_pages_distinct pages old seen :
  forallb colon_free_page pages = true ->
  NoDup old -> (forall x, x ∈ old -> x ∈ seen) ->
  NoDup (old ++ map cap_text (concat (fst (scan_pages pages seen)))).
Proof.
  revert old seen. induction pages as [| p pages IH]; intros old seen Hall Hnd Hin.
  - cbn. by rewrite app_nil_r.
  - cbn [forallb] in Hall. apply andb_true_iff in Hall as [Hp Hall].
    cbn [scan_pages]. unfold parse_current_captions.
    assert (Hinv : distinct_and_seen old ([], seen)).
    { split; cbn [fst snd map]; rewrite app_nil_r; [exact Hnd | exact Hin]. }
    pose proof (scan_selectors_distinct p old _ Hp Hinv) as [Hnd' Hin'].
    destruct (scan_selectors p ([], seen)) as [caps seen'].
    cbn [fst snd] in Hnd', Hin'.
    specialize (IH (old ++ map cap_text caps) seen' Hall Hnd' Hin').
    destruct (scan_pages pages seen') as [rest seen''].
    cbn [fst concat]. rewrite map_app, app_assoc. exact IH.
Qed.

End Facts.

End CaptureFacts.

(** A scan never forgets: the seen-set only grows, and the text of every
    caption a scan returns is in the seen-set afterwards. *)
Theorem scan_only_adds_to_seen_captions
    `{PyRuntime} (page : list Capture.found_elements) (seen : gset pystr) :
  seen ⊆ snd (Capture.parse_current_captions page seen) /\
  Forall (fun c => Capture.cap_text c ∈ snd (Capture.parse_current_captions page seen))
         (fst (Capture.parse_current_captions page seen)).
Proof.
  unfold Capture.parse_current_captions.
  destruct (CaptureFacts.scan_selectors_extends page ([], seen))
    as [Hsub (new & Hnew & Hin)].
  split; [exact Hsub |]. rewrite Hnew. cbn [fst app].
  apply Forall_forall. exact Hin.
Qed.

(** A page on which every element is unreadable, blank or already seen
    gives no caption and leaves the seen-set as it was. *)
Theorem seen_or_blank_captions_are_skipped
    `{PyRuntime} (page : list Capture.found_elements) (seen : gset pystr) :
  CaptureFacts.page_has_nothing_new seen page = true ->
  Capture.parse_current_captions page seen = ([], seen).
Proof. apply CaptureFacts.scan_selectors_nothing_new. Qed.

Lemma seen_or_blank_captions_are_skipped_witness :
  Capture.parse_current_captions (RT := Sample.runtime)
    [Capture.Elements
       [Capture.mkElement (Some (lit "  hello ")) None (lit "12:00:00");
        Capture.mkElement (Some (lit "   ")) None (lit "12:00:00");
        Capture.mkElement None None (lit "12:00:00")];
     Capture.FindFailed]
    {[ lit "hello" ]}
  = ([], {[ lit "hello" ]}).
Proof.
  apply (seen_or_blank_captions_are_skipped (H := Sample.runtime)).
  vm_compute. reflexivity.
Defined.

(** Over any number of scans of pages whose caption texts carry no colon,
    no text is emitted twice. *)
Theorem colon_free_captions_are_emitted_once
    `{PyRuntime} (pages : list (list Capture.found_elements)) :
  forallb CaptureFacts.colon_free_page pages = true ->
  NoDup (map Capture.cap_text (concat (fst (Capture.scan_pages pages ∅)))).
Proof.
  intros Hall.
  apply (CaptureFacts.scan_pages_distinct pages [] ∅ Hall); [constructor |].
  intros x Hx. by apply elem_of_nil in Hx.
Qed.

Lemma colon_free_captions_are_emitted_once_witness :
  NoDup (map Capture.cap_text
           (concat (fst (Capture.scan_pages (RT := Sample.runtime)
              [[Capture.Elements
                  [Capture.mkElement (Some (lit "hello")) None (lit "12:00:00")]];
               [Capture.Elements
                  [Capture.mkElement (Some (lit "hello")) None (lit "12:00:02");
                   Capture.mkElement (Some (lit "bye")) None (lit "12:00:02")]]]
              ∅)))).
Proof.
  apply (colon_free_captions_are_emitted_once (H := Sample.runtime)).
  vm_compute. reflexivity.
Defined.

(** * The capture loop and its chunks ([bot_service.py]) *)

Module Flusher.

Import Capture.

Definition ch_T : N := 84.
Definition ch_dot : N := 46.

(** The time of day of an ISO timestamp:
    [timestamp.split('T')[1].split('.')[0]] when it has a [T]. *)
Definition time_part (timestamp : pystr) : pystr :=
  if contains timestamp [ch_T]
  then hd [] (split_on ch_dot (nth 1 (split_on ch_T timestamp) []))
  else timestamp.

(** One line of the chunk: [[HH:MM:SS] speaker: text] and a newline. *)
Definition format_caption (c : Caption) : pystr :=
  lit "[" ++ time_part (cap_timestamp c) ++ lit "] " ++ cap_speaker c ++
  lit ": " ++ cap_text c ++ [ch_nl].

Definition chunk_text (captions : list Caption) : pystr :=
  concat (map format_caption captions).

(** [_send_captions_to_backend]: the request posted to the chunk endpoint,
    if any; no failure of the request leaves the method. *)
Definition send_captions (session_id now : pystr) (captions : list Caption)
  : option ChunkProcessRequest :=
  let text_chunk := chunk_text captions in
  if negb (nonempty (strip text_chunk)) then None
  else Some (mkChunkRequest session_id (strip text_chunk) now).

(** One pass of [_run_visual_parsing]: what the page shows, and whether
    five minutes have gone by since the last send. *)
Record scan_tick : Type := mkScanTick {
  sk_page : list found_elements;
  sk_elapsed : bool
}.

Section Loop.

Context {RT : PyRuntime}.

(** [_run_visual_parsing] over the passes made before [should_stop] is
    seen: the batches handed to [_send_captions_to_backend], in order, and
    the final seen-set. *)
Fixpoint run_visual_parsing (ticks : list scan_tick)
    (caption_buffer : list Caption) (seen : gset pystr)
  : list (list Caption) * gset pystr :=
  match ticks with
  | [] =>
      (match caption_buffer with [] => [] | _ :: _ => [caption_buffer] end, seen)
  | t :: r =>
      let '(new_captions, seen') := parse_current_captions (sk_page t) seen in
      let caption_buffer := caption_buffer ++ new_captions in
      if (sk_elapsed t || (10 <=? length caption_buffer)%nat) &&
         match caption_buffer with [] => false | _ :: _ => true end
      then
        let '(rest, seen'') := run_visual_parsing r [] seen' in
        (caption_buffer :: rest, seen'')
      else run_visual_parsing r caption_buffer seen'
  end.

End Loop.

End Flusher.

Module FlusherFacts.

Import Capture Flusher.

Lemma lstrip_keeps_visible s :
  existsb (fun c => negb (isspace c)) s = true -> lstrip s <> [].
Proof.
  induction s as [| c s IH]; cbn [existsb lstrip]; [discriminate |].
  destruct (isspace c); cbn [negb orb]; [exact IH | discriminate].
Qed.

Lemma existsb_rev {A : Type} (p : A -> bool) (l : list A) :
  existsb p (rev l) = existsb p l.
Proof.
  induction l as [| x l IH]; [reflexivity |].
  cbn [rev existsb]. rewrite existsb_app, IH. cbn [existsb].
  rewrite orb_false_r. apply orb_comm.
Qed.

(** A string with a visible character does not strip to nothing. *)
Lemma strip_keeps_visible s :
  existsb (fun c => negb (isspace c)) s = true -> strip s <> [].
Proof.
  intros Hv. unfold strip, rstrip. intros Hnil.
  apply (f_equal (@rev N)) in Hnil. rewrite rev_involutive in Hnil. cbn in Hnil.
  revert Hnil. apply lstrip_keeps_visible. rewrite existsb_rev.
  clear -Hv. induction s as [| c s IH]; [discriminate |].
  cbn [existsb lstrip] in *. destruct (isspace c) eqn:Hc; cbn [negb orb] in *.
  - by apply IH.
  - cbn [existsb]. by rewrite Hc.
Qed.

Section Facts.

Context {RT : PyRuntime}.

(** The batches, put end to end after what was buffered, are the captions
    of the scans in the order in which they were found; no batch is
    empty. *)
Lemma run_visual_parsing_batches ticks buffer seen :
  let '(batches, seen') := run_visual_parsing ticks buffer seen in
  concat batches = buffer ++ concat (fst (scan_pages (map sk_page ticks) seen)) /\
  seen' = snd (scan_pages (map sk_page ticks) seen) /\
  Forall (fun b => b <> []) batches.
Proof.
  revert buffer seen. induction ticks as [| t r IH]; intros buffer seen.
  - cbn. destruct buffer; cbn; rewrite ?app_nil_r; repeat split; auto.
  - cbn [run_visual_parsing map scan_pages].
    destruct (parse_current_captions (sk_page t) seen) as [new seen1].
    pose proof (IH [] seen1) as Hflush. pose proof (IH (buffer ++ new) seen1) as Hkeep.
    destruct (scan_pages (map sk_page r) seen1) as [rest seen2].
    cbn [fst snd concat] in *.
    destruct ((sk_elapsed t || (10 <=? length (buffer ++ new))%nat) &&
              match buffer ++ new with [] => false | _ :: _ => true end) eqn:Hc.
    + destruct (run_visual_parsing r [] seen1) as [batches seen3].
      destruct Hflush as (Hcat & Hseen & Hne). cbn [concat].
      rewrite Hcat. cbn [app]. rewrite <- app_assoc. repeat split; [exact Hseen |].
      constructor; [| exact Hne].
      apply andb_true_iff in Hc as [_ Hc]. by destruct (buffer ++ new).
    + destruct (run_visual_parsing r (buffer ++ new) seen1) as [batches seen3].
      destruct Hkeep as (Hcat & Hseen & Hne).
      rewrite Hcat, <- app_assoc. by repeat split.
Qed.

End Facts.

End FlusherFacts.

(** From an empty buffer, the batches handed to the sender are exactly the
    captions the scans found, each once and in capture order, the captions
    still buffered when the loop stops included; no empty batch is
    sent. *)
Theorem capture_loop_sends_every_caption_once
    `{PyRuntime} (ticks : list Flusher.scan_tick) (seen : gset pystr) :
  concat (fst (Flusher.run_visual_parsing ticks [] seen))
  = concat (fst (Capture.scan_pages (map Flusher.sk_page ticks) seen)) /\
  snd (Flusher.run_visual_parsing ticks [] seen)
  = snd (Capture.scan_pages (map Flusher.sk_page ticks) seen) /\
  Forall (fun batch => batch <> []) (fst (Flusher.run_visual_parsing ticks [] seen)).
Proof.
  pose proof (FlusherFacts.run_visual_parsing_batches ticks [] seen) as Hrun.
  destruct (Flusher.run_visual_parsing ticks [] seen) as [batches seen'].
  exact Hrun.
Qed.

(** A batch is posted to the chunk endpoint exactly when it holds a
    caption; the text posted is the stripped concatenation of its lines. *)
Theorem batch_is_posted_unless_empty
    (session_id now : pystr) (captions : list Capture.Caption) :
  match captions with
  | [] => Flusher.send_captions session_id now captions = None
  | _ :: _ =>
      Flusher.send_captions session_id now captions
      = Some (mkChunkRequest session_id (strip (Flusher.chunk_text captions)) now) /\
      strip (Flusher.chunk_text captions) <> []
  end.
Proof.
  destruct captions as [| c captions]; [reflexivity |].
  assert (Hv : strip (Flusher.chunk_text (c :: captions)) <> []).
  { apply FlusherFacts.strip_keeps_visible. reflexivity. }
  split; [| exact Hv]. unfold Flusher.send_captions.
  destruct (strip (Flusher.chunk_text (c :: captions))); [done | reflexivity].
Qed.

(** * Further properties of the backend *)

(** The chunks stored for a session; none for a session that does not
    exist. *)
Definition chunks_of (s : Backend) (sid : pystr) : list Chunk :=
  match session_history s !! sid with
  | Some sd => chunks sd
  | None => []
  end.

(** Cleaning never raises and changes no dictionary; its result is the
    stripped completion when the service is configured and answers 200
    with one, and the input text in every other case. *)
Theorem cleaning_falls_back_to_the_input
    `{PyRuntime} (cfg : Config) (net : http_result) (text : pystr) (s : Backend) :
  exists cleaned s',
    clean_text_with_openrouter cfg net text s = (Val cleaned, s') /\
    session_history s' = session_history s /\
    active_sessions s' = active_sessions s /\
    cleaned = match net with
              | HttpResponse code _ (Content c) =>
                  if ai_configured cfg && (code =? 200)%Z then strip c else text
              | _ => text
              end.
Proof.
  rewrite clean_text_spec. eexists. eexists. split; [reflexivity |].
  repeat split. unfold clean_outcome.
  destruct net as [why | code t [c | why]]; by destruct (ai_configured cfg).
Qed.

Section BackendExtras.

Context {RT : PyRuntime}.
Variable cfg : Config.

Lemma chunk_result_chunks req env s sid :
  chunks_of (snd (chunk_result cfg req env s)) sid
  = chunks_of s sid ++
    if decide (cr_session_id req = sid)
    then [mkChunk (cr_timestamp req) (cr_text_chunk req)
                  (clean_outcome cfg (ce_clean env) (cr_text_chunk req))]
    else [].
Proof.
  unfold chunk_result.
  destruct (gate_outcome cfg (ce_gate env) _) as [needs q].
  destruct (decide (cr_session_id req = sid)) as [<- | Hne].
  - destruct (needs && nonempty q); unfold chunks_of; cbn [snd session_history];
      rewrite lookup_insert_eq; unfold stored_chunk;
      cbn [chunks with_questions_asked with_participants with_chunks];
      by destruct (session_history s !! cr_session_id req).
  - destruct (needs && nonempty q); unfold chunks_of; cbn [snd session_history];
      rewrite lookup_insert_ne by done; by rewrite app_nil_r.
Qed.

Lemma chunk_result_other req env s sid :
  cr_session_id req <> sid ->
  session_history (snd (chunk_result cfg req env s)) !! sid = session_history s !! sid.
Proof.
  intros Hne. unfold chunk_result.
  destruct (gate_outcome cfg (ce_gate env) _) as [needs q].
  destruct (needs && nonempty q); cbn [snd session_history];
    by rewrite lookup_insert_ne.
Qed.

(** A call that removes or re-creates the dictionary of [sid]. *)
Definition resets (sid : pystr) (c : backend_call) : bool :=
  match c with
  | CallCleanup s | CallRegister s _ _ => str_eqb s sid
  | _ => false
  end.

Lemma run_call_chunks_prefix c s sid :
  resets sid c = false -> chunks_of s sid `prefix_of` chunks_of (run_call cfg c s) sid.
Proof.
  intros Hr.
  destruct c as [uuid now url | req env | req env | k | k | k why | net k | k];
    unfold run_call.
  - cbn [resets] in Hr. unfold chunks_of. cbn.
    rewrite lookup_insert_ne; [done |].
    intros ->. by rewrite str_eqb_refl in Hr.
  - rewrite process_transcript_chunk_spec. cbn [snd].
    rewrite chunk_result_chunks. by apply prefix_app_r.
  - rewrite process_final_transcript_spec. cbn [snd]. unfold final_result.
    destruct (summary_outcome cfg _ _); [| done].
    unfold chunks_of. cbn [snd session_history].
    destruct (decide (fr_session_id req = sid)) as [<- | Hne].
    + rewrite lookup_alter_eq. by destruct (session_history s !! _).
    + by rewrite lookup_alter_ne.
  - unfold get_session_history, bind, gets. cbn.
    by destruct (session_history s !! k).
  - cbn [resets] in Hr. unfold cleanup_session, bind, gets. cbn.
    destruct (session_history s !! k) eqn:Hl; [| done].
    unfold chunks_of. cbn. rewrite lookup_delete_ne; [done |].
    intros ->. by rewrite str_eqb_refl in Hr.
  - done.
  - rewrite stop_agent_spec. unfold stop_result.
    by destruct (active_sessions s !! k).
  - unfold get_agent_status, bind, gets. cbn.
    by destruct (active_sessions s !! k).
Qed.

Lemma run_calls_chunks_prefix cs s sid :
  forallb (fun c => negb (resets sid c)) cs = true ->
  chunks_of s sid `prefix_of` chunks_of (run_calls cfg cs s) sid.
Proof.
  revert s. induction cs as [| c cs IH]; intros s Hall; [done |].
  cbn [forallb] in Hall. apply andb_true_iff in Hall as [Hc Hall].
  apply negb_true_iff in Hc. cbn [run_calls fold_left].
  etransitivity; [apply (run_call_chunks_prefix c s sid Hc) |]. by apply IH.
Qed.

End BackendExtras.

(** A chunk call stores exactly one new chunk, at the end of the history of
    its session (created on the spot when unseen): the request's timestamp
    and text together with the cleaned text it answers with.  No other
    session is touched. *)
Theorem chunk_is_stored_at_the_end_of_history
    `{PyRuntime} (cfg : Config) (req : ChunkProcessRequest) (env : chunk_env)
    (s : Backend) :
  exists resp s' cleaned,
    process_transcript_chunk cfg req env s = (Val resp, s') /\
    resp_cleaned_text resp = Some cleaned /\
    chunks_of s' (cr_session_id req)
    = chunks_of s (cr_session_id req) ++
      [mkChunk (cr_timestamp req) (cr_text_chunk req) cleaned] /\
    forall other, cr_session_id req <> other ->
      session_history s' !! other = session_history s !! other.
Proof.
  rewrite process_transcript_chunk_spec.
  exists (fst (chunk_result cfg req env s)), (snd (chunk_result cfg req env s)),
         (clean_outcome cfg (ce_clean env) (cr_text_chunk req)).
  split; [reflexivity |]. split; [| split].
  - unfold chunk_result. destruct (gate_outcome cfg (ce_gate env) _) as [needs q].
    by destruct (needs && nonempty q).
  - rewrite chunk_result_chunks. by rewrite decide_True.
  - intros other Hne. by apply chunk_result_other.
Qed.

(** The history of a session is append-only: over any sequence of backend
    calls that neither clean up nor re-register the session, the chunks it
    had stay where they were, as a prefix of the chunks it has
    afterwards. *)
Theorem session_history_is_append_only
    `{PyRuntime} (cfg : Config) (calls : list backend_call) (s : Backend)
    (sid : pystr) :
  forallb (fun c => negb (resets sid c)) calls = true ->
  chunks_of s sid `prefix_of` chunks_of (run_calls cfg calls s) sid.
Proof. apply run_calls_chunks_prefix. Qed.

Lemma session_history_is_append_only_witness :
  chunks_of GateContextExample.three_chunks GateContextExample.sid
  `prefix_of`
  chunks_of
    (run_calls (RT := Sample.runtime) sample_config
       [GateContextExample.chunk_call "four";
        CallCleanup (lit "s2");
        CallFinal (mkFinalRequest GateContextExample.sid (lit "all"))
                  (mkFinalEnv [] (HttpFailed []) (HttpFailed []) (HttpFailed []))]
       GateContextExample.three_chunks)
    GateContextExample.sid.
Proof.
  apply (session_history_is_append_only (H := Sample.runtime)).
  vm_compute. reflexivity.
Defined.

(** An answer [ask_question] always carries a question that is not empty
    and adds one to the counter; an answer [continue] carries none and
    leaves the counter alone. *)
Theorem asked_question_is_never_empty
    `{PyRuntime} (cfg : Config) (req : ChunkProcessRequest) (env : chunk_env)
    (s : Backend) :
  exists resp s',
    process_transcript_chunk cfg req env s = (Val resp, s') /\
    match resp_action resp with
    | ask_question =>
        (exists c q, resp_question_text resp = Some (c :: q)) /\
        asked_so_far s' (cr_session_id req) = (asked_so_far s (cr_session_id req) + 1)%Z
    | continue =>
        resp_question_text resp = None /\
        asked_so_far s' (cr_session_id req) = asked_so_far s (cr_session_id req)
    end.
Proof.
  rewrite process_transcript_chunk_spec.
  exists (fst (chunk_result cfg req env s)), (snd (chunk_result cfg req env s)).
  split; [reflexivity |].
  rewrite (chunk_result_asked cfg req env s (cr_session_id req)), decide_True by done.
  unfold asked_delta, chunk_result.
  destruct (gate_outcome cfg (ce_gate env) _) as [needs q].
  destruct needs; cbn [andb].
  - destruct q as [| c q]; cbn [nonempty fst resp_action resp_question_text].
    + split; [reflexivity | lia].
    + split; [by exists c, q | reflexivity].
  - cbn [fst resp_action resp_question_text]. split; [reflexivity | lia].
Qed.

(** The ways in which the summary call fails. *)
Inductive summary_failure (cfg : Config) : http_result -> Prop :=
| summary_unconfigured net :
    ai_configured cfg = false -> summary_failure cfg net
| summary_raised why :
    summary_failure cfg (HttpFailed why)
| summary_bad_status code text body :
    code <> 200%Z -> summary_failure cfg (HttpResponse code text body)
| summary_malformed text why :
    summary_failure cfg (HttpResponse 200 text (Malformed why)).

Definition is_telegram (q : request) : bool :=
  match q with ReqTelegram _ _ => true | _ => false end.

Lemma summary_failure_outcome `{PyRuntime} cfg net sd :
  summary_failure cfg net -> exists e, summary_outcome cfg net sd = Raise e.
Proof.
  intros Hf. unfold summary_outcome.
  destruct Hf as [net Hc | why | code text body Hne | text why].
  - rewrite Hc. by eexists.
  - destruct (ai_configured cfg); by eexists.
  - destruct (ai_configured cfg); [| by eexists].
    destruct (Z.eqb_spec code 200); [contradiction | by eexists].
  - destruct (ai_configured cfg); by eexists.
Qed.

(** When the summary call fails, the final-transcript call does not raise:
    it answers [success = False] without a summary, sends nothing to
    Telegram and leaves every session as it was, not marked completed. *)
Theorem failed_summary_is_reported_not_raised
    `{PyRuntime} (cfg : Config) (req : FinalTranscriptRequest) (env : final_env)
    (s : Backend) :
  summary_failure cfg (fe_summary env) ->
  exists resp s',
    process_final_transcript cfg req env s = (Val resp, s') /\
    ft_success resp = false /\
    ft_summary resp = None /\
    ft_telegram_sent resp = false /\
    session_history s' = session_history s /\
    existsb is_telegram (drop (length (outbox s)) (outbox s')) = false.
Proof.
  intros Hf. rewrite process_final_transcript_spec. unfold final_result.
  destruct (summary_failure_outcome cfg _
              (default (fresh_session (fe_now env))
                 (session_history s !! fr_session_id req)) Hf) as [e He].
  rewrite He. eexists. eexists. split; [reflexivity |].
  cbn [fst snd ft_success ft_summary ft_telegram_sent]. repeat split.
  unfold sent. cbn [outbox]. rewrite drop_app_length.
  unfold clean_requests, summary_requests. by destruct (ai_configured cfg).
Qed.

Lemma failed_summary_is_reported_not_raised_witness :
  exists resp s',
    process_final_transcript (RT := Sample.runtime) sample_config
      (mkFinalRequest (lit "s1") (lit "Anna - hello"))
      (mkFinalEnv (lit "12:00:00") (HttpFailed []) (HttpResponse 503 [] (Malformed []))
                  (HttpFailed []))
      GateContextExample.three_chunks = (Val resp, s') /\
    ft_success resp = false /\
    ft_summary resp = None /\
    ft_telegram_sent resp = false /\
    session_history s' = session_history GateContextExample.three_chunks /\
    existsb is_telegram
      (drop (length (outbox GateContextExample.three_chunks)) (outbox s')) = false.
Proof.
  apply (failed_summary_is_reported_not_raised (H := Sample.runtime) sample_config
           (mkFinalRequest (lit "s1") (lit "Anna - hello"))
           (mkFinalEnv (lit "12:00:00") (HttpFailed [])
                       (HttpResponse 503 [] (Malformed [])) (HttpFailed []))
           GateContextExample.three_chunks).
  apply summary_bad_status. discriminate.
Defined.

(** When the summary call succeeds, the final-transcript call answers
    [success = True] whatever becomes of the Telegram delivery, whose
    outcome it only reports; the session, if it exists, is marked
    [completed] with the completion time and is otherwise unchanged, and a
    session that does not exist is not created. *)
Theorem finalize_marks_the_session_completed
    `{PyRuntime} (cfg : Config) (req : FinalTranscriptRequest) (env : final_env)
    (s : Backend) (text content : pystr) :
  ai_configured cfg = true ->
  fe_summary env = HttpResponse 200 text (Content content) ->
  exists summary s',
    process_final_transcript cfg req env s
    = (Val (mkFinalResponse true (Some summary)
              (telegram_configured cfg &&
               match fe_telegram env with
               | HttpResponse code _ _ => (code =? 200)%Z
               | HttpFailed _ => false
               end)
              Msg.final_ok), s') /\
    session_history s'
    = alter (fun sd => mkSessionData (chunks sd) (questions_asked sd) (participants sd)
                         (created_at sd) (Some Msg.st_completed) (Some (fe_now env)))
            (fr_session_id req) (session_history s) /\
    (session_history s !! fr_session_id req = None ->
     session_history s' !! fr_session_id req = None).
Proof.
  intros Hc Hnet. rewrite process_final_transcript_spec.
  unfold final_result, summary_outcome. rewrite Hc, Hnet.
  cbn [Z.eqb Pos.eqb fst snd]. eexists. eexists. split; [reflexivity |].
  cbn [session_history]. split; [reflexivity |].
  intros Hnone. by rewrite lookup_alter_eq, Hnone.
Qed.

Lemma finalize_marks_the_session_completed_witness :
  exists summary s',
    process_final_transcript (RT := Sample.runtime) sample_config
      HeaderlessExample.request HeaderlessExample.env GateContextExample.three_chunks
    = (Val (mkFinalResponse true (Some summary)
              (telegram_configured sample_config &&
               match fe_telegram HeaderlessExample.env with
               | HttpResponse code _ _ => (code =? 200)%Z
               | HttpFailed _ => false
               end)
              Msg.final_ok), s') /\
    session_history s'
    = alter (fun sd => mkSessionData (chunks sd) (questions_asked sd) (participants sd)
                         (created_at sd) (Some Msg.st_completed)
                         (Some (fe_now HeaderlessExample.env)))
            (fr_session_id HeaderlessExample.request)
            (session_history GateContextExample.three_chunks) /\
    (session_history GateContextExample.three_chunks
       !! fr_session_id HeaderlessExample.request = None ->
     session_history s' !! fr_session_id HeaderlessExample.request = None).
Proof.
  apply (finalize_marks_the_session_completed (H := Sample.runtime) sample_config
           HeaderlessExample.request HeaderlessExample.env
           GateContextExample.three_chunks [] (lit "The meeting went well.")).
  - reflexivity.
  - reflexivity.
Defined.

(** Cleaning up a session removes its dictionary: its history then reads
    as not found, its question counter starts again from zero, and the
    other sessions are untouched.  Cleaning up an unknown session raises
    404 and changes nothing. *)
Theorem cleanup_forgets_the_session (s : Backend) (sid : pystr) :
  match session_history s !! sid with
  | Some _ =>
      exists s',
        cleanup_session sid s = (Val tt, s') /\
        session_history s' = delete sid (session_history s) /\
        get_session_history sid s'
        = (Raise (HTTPException 404 Msg.session_not_found), s') /\
        asked_so_far s' sid = 0%Z
  | None =>
      cleanup_session sid s = (Raise (HTTPException 404 Msg.session_not_found), s)
  end.
Proof.
  unfold cleanup_session, bind, gets.
  destruct (session_history s !! sid) as [sd |] eqn:Hl;
    cbn [fst snd]; rewrite ?Hl; [| reflexivity].
  eexists. split; [reflexivity |]. split; [reflexivity |].
  unfold get_session_history, asked_so_far, bind, gets.
  cbn [session_history set_session_history modify fst snd].
  by rewrite lookup_delete_eq.
Qed.

(** ** The lists of a parsed summary *)

Module SummaryItems.

(** An entry longer than two characters with no asterisk in it. *)
Definition item_clean (item : pystr) : bool :=
  (2 <? length item)%nat && Markdown.star_free item.

Definition items_clean (p : summary_parts) : bool :=
  forallb item_clean (sp_key_decisions p) &&
  forallb item_clean (sp_action_items p) &&
  forallb item_clean (sp_questions_asked p).

Lemma replace_star_free s : Markdown.star_free (replace s [ch_star] []) = true.
Proof.
  unfold replace. induction s as [| c r IH]; [reflexivity |].
  cbn [replace_go startswith length Nat.sub app].
  rewrite startswith_nil, andb_true_r.
  destruct (N.eqb ch_star c) eqn:Hc; [exact IH |].
  cbn [Markdown.star_free forallb]. rewrite N.eqb_sym, Hc. exact IH.
Qed.

Lemma strip_markdown_star_free s : Markdown.star_free (strip_markdown s) = true.
Proof. apply replace_star_free. Qed.

Lemma forallb_snoc {A} (f : A -> bool) l x :
  forallb f (l ++ [x]) = forallb f l && f x.
Proof. by rewrite forallb_app; cbn; rewrite andb_true_r. Qed.

Lemma append_item_clean cur item p :
  item_clean item = true -> items_clean p = true ->
  items_clean (append_item cur item p) = true.
Proof.
  unfold items_clean. intros Hi Hp.
  apply andb_true_iff in Hp as [Hp Hq]. apply andb_true_iff in Hp as [Hk Ha].
  destruct cur as [[] |]; cbn [append_item sp_key_decisions sp_action_items
                                 sp_questions_asked];
    rewrite ?forallb_snoc, ?Hk, ?Ha, ?Hq, ?Hi; reflexivity.
Qed.

Lemma parse_participants_clean `{PyRuntime} line p :
  items_clean (parse_participants line p) = items_clean p.
Proof. unfold parse_participants. by case_match. Qed.

Lemma parse_line_clean `{PyRuntime} st raw_line :
  items_clean (snd st) = true -> items_clean (snd (parse_line st raw_line)) = true.
Proof.
  destruct st as [cur parts]. cbn [snd]. intros Hp. unfold parse_line.
  repeat match goal with
         | |- context [if ?b then _ else _] =>
             lazymatch b with
             | context [if _ then _ else _] => fail
             | _ => let E := fresh "E" in destruct b eqn:E
             end
         end;
    cbn [snd]; rewrite ?parse_participants_clean; try exact Hp.
  all: try (by destruct cur as [[] |]).
  all: apply append_item_clean; [| exact Hp].
  all: match goal with
       | E : nonempty _ && (2 <? _)%nat = true |- _ =>
           apply andb_true_iff in E as [_ Hlen]
       end.
  all: unfold item_clean; by rewrite Hlen, strip_markdown_star_free.
Qed.

Lemma parse_lines_clean `{PyRuntime} lines st :
  items_clean (snd st) = true ->
  items_clean (snd (fold_left parse_line lines st)) = true.
Proof.
  revert st. induction lines as [| l lines IH]; intros st Hst; [exact Hst |].
  cbn [fold_left]. apply IH. by apply parse_line_clean.
Qed.

End SummaryItems.

(** Whatever the language model answers, the decisions, action items and
    questions of a generated summary are each longer than two characters
    and contain no asterisk. *)
Theorem summary_items_are_longer_than_two_and_star_free
    `{PyRuntime} (cfg : Config) (net : http_result) (full_transcript : pystr)
    (session_data : SessionData) (s : Backend) :
  match fst (generate_meeting_summary cfg net full_transcript session_data s) with
  | Val m =>
      forallb SummaryItems.item_clean
        (ms_key_decisions m ++ ms_action_items m ++ ms_questions_asked m) = true
  | Raise _ => True
  end.
Proof.
  rewrite generate_meeting_summary_spec. cbn [fst]. unfold summary_outcome.
  destruct (ai_configured cfg); [| exact I].
  destruct net as [why | code text [c | why]]; try exact I;
    destruct (code =? 200)%Z; try exact I.
  unfold summary_of_response.
  cbn [ms_key_decisions ms_action_items ms_questions_asked].
  pose proof (SummaryItems.parse_lines_clean
                (split_on ch_nl (extract_structured (strip c)))
                (None, empty_parts) eq_refl) as Hc.
  unfold SummaryItems.items_clean in Hc. fold (parse_summary (extract_structured (strip c))) in Hc.
  apply andb_true_iff in Hc as [Hc Hq]. apply andb_true_iff in Hc as [Hk Ha].
  by rewrite !forallb_app, Hk, Ha, Hq.
Qed.

(** ** Starting an agent *)

Module StartAgent.

Definition meet_prefix : pystr := Eval vm_compute in lit "https://meet.google.com/".
Definition invalid_url : pystr :=
  Eval vm_compute in lit "Invalid meeting URL. Must be a valid Google Meet URL.".
Definition failed_start : pystr := Eval vm_compute in lit "Failed to start agent: ".
Definition started : pystr := Eval vm_compute in lit "started".
Definition agent_session : pystr := Eval vm_compute in lit "Agent session ".
Definition started_ok : pystr := Eval vm_compute in lit " started successfully".

Record AgentResponse : Type := mkAgentResponse {
  ar_session_id : pystr;
  ar_status : pystr;
  ar_message : pystr
}.

(** [POST /start_agent]: [uuid] and [now] are what [uuid.uuid4] and
    [datetime.now] return.  The background task is only scheduled by the
    handler; it runs after the response. *)
Definition start_agent (uuid now meeting_url : pystr) : Py AgentResponse :=
  try_except
    (let session_id := uuid in
     if negb (nonempty meeting_url) || negb (startswith meeting_url meet_prefix)
     then raise (HTTPException 400 invalid_url)
     else
       register_session session_id now meeting_url >>
       ret (mkAgentResponse session_id started
              (agent_session ++ session_id ++ started_ok)))
    (fun e => raise (HTTPException 500 (failed_start ++ str_of_exn e))).

(** The link check of the Telegram bot ([receive_meet_link]): the text of
    the message, stripped, has to contain the host name. *)
Definition meet_host : pystr := Eval vm_compute in lit "meet.google.com".

Definition link_of_message (text : pystr) : pystr := strip text.

Definition bot_accepts (text : pystr) : bool :=
  contains (link_of_message text) meet_host.

End StartAgent.

Arguments StartAgent.meet_prefix : simpl never.
Arguments StartAgent.invalid_url : simpl never.
Arguments StartAgent.failed_start : simpl never.
Arguments StartAgent.started : simpl never.
Arguments StartAgent.agent_session : simpl never.
Arguments StartAgent.started_ok : simpl never.
Arguments StartAgent.meet_host : simpl never.

Lemma startswith_nonempty s p : startswith s p = true -> nonempty p = true -> nonempty s = true.
Proof. by destruct p, s. Qed.

Lemma startswith_contains s p : startswith s p = true -> contains s p = true.
Proof. intros Hp. destruct s; cbn [contains]; by rewrite Hp. Qed.

Lemma start_agent_refuses (uuid now meeting_url : pystr) (s : Backend) :
  startswith meeting_url StartAgent.meet_prefix = false ->
  StartAgent.start_agent uuid now meeting_url s
  = (Raise (HTTPException 500
              (StartAgent.failed_start ++
               str_of_exn (HTTPException 400 StartAgent.invalid_url))), s).
Proof.
  intros Hp. unfold StartAgent.start_agent. rewrite Hp, orb_true_r. reflexivity.
Qed.

(** A start request with a Google Meet URL registers a new agent, whose
    status reads [initializing], together with an empty history for the
    session, and sends nothing; any other URL is refused with status 500
    (the 400 raised by the check is rewrapped) and registers nothing. *)
Theorem start_agent_registers_or_raises_500
    (uuid now meeting_url : pystr) (s : Backend) :
  if startswith meeting_url StartAgent.meet_prefix then
    exists s',
      StartAgent.start_agent uuid now meeting_url s
      = (Val (StartAgent.mkAgentResponse uuid StartAgent.started
                (StartAgent.agent_session ++ uuid ++ StartAgent.started_ok)), s') /\
      get_agent_status uuid s'
      = (Val (mkStatusResponse uuid Msg.st_initializing meeting_url), s') /\
      get_session_history uuid s'
      = (Val (mkHistoryResponse uuid 0 0 [] now []), s') /\
      outbox s' = outbox s /\
      (forall sid, sid <> uuid ->
         active_sessions s' !! sid = active_sessions s !! sid /\
         session_history s' !! sid = session_history s !! sid)
  else
    StartAgent.start_agent uuid now meeting_url s
    = (Raise (HTTPException 500
                (StartAgent.failed_start ++
                 str_of_exn (HTTPException 400 StartAgent.invalid_url))), s).
Proof.
  destruct (startswith meeting_url StartAgent.meet_prefix) eqn:Hp.
  - unfold StartAgent.start_agent.
    rewrite Hp, (startswith_nonempty _ _ Hp eq_refl). cbn [negb orb].
    destruct s as [h a o].
    unfold try_except, bind, register_session, set_active_sessions,
      set_session_history, gets, modify, ret.
    cbn [fst snd session_history active_sessions outbox].
    eexists. split; [reflexivity |].
    unfold get_agent_status, get_session_history, bind, gets, ret.
    cbn [fst snd session_history active_sessions outbox].
    rewrite !lookup_insert_eq.
    cbn [new_agent agent_status agent_meeting_url chunks questions_asked
         participants created_at length].
    rewrite elements_empty.
    repeat split; intros; by rewrite lookup_insert_ne.
  - by apply start_agent_refuses.
Qed.

(** Every link the backend accepts passes the check of the bot: a message
    whose stripped text starts with the Google Meet prefix contains the
    host name the bot looks for. *)
Theorem backend_links_pass_the_bot_check (text : pystr) :
  startswith (StartAgent.link_of_message text) StartAgent.meet_prefix = true ->
  StartAgent.bot_accepts text = true.
Proof.
  intros Hp. unfold StartAgent.bot_accepts.
  apply startswith_contains in Hp.
  change StartAgent.meet_prefix
    with (lit "https://" ++ (StartAgent.meet_host ++ lit "/")) in Hp.
  apply contains_app_r in Hp. by apply contains_app_l in Hp.
Qed.

Lemma backend_links_pass_the_bot_check_witness :
  StartAgent.bot_accepts (lit " https://meet.google.com/abc-defg-hij ") = true.
Proof.
  apply (backend_links_pass_the_bot_check (lit " https://meet.google.com/abc-defg-hij ")).
  vm_compute. reflexivity.
Defined.

(** The bot's check is the weaker one: a link that starts with the host
    name, without the scheme, passes it, and the backend refuses that link
    without registering a session. *)
Theorem scheme_less_link_is_accepted_by_the_bot_only
    (text uuid now : pystr) (s : Backend) :
  startswith (StartAgent.link_of_message text) StartAgent.meet_host = true ->
  StartAgent.bot_accepts text = true /\
  exists e,
    StartAgent.start_agent uuid now (StartAgent.link_of_message text) s = (Raise e, s).
Proof.
  intros Hp. split.
  - by apply startswith_contains.
  - eexists. apply start_agent_refuses.
    destruct (StartAgent.link_of_message text) as [| c r]; [discriminate |].
    cbn [startswith] in Hp. apply andb_true_iff in Hp as [Hc _].
    apply N.eqb_eq in Hc. subst c. reflexivity.
Qed.

Lemma scheme_less_link_is_accepted_by_the_bot_only_witness :
  StartAgent.bot_accepts (lit "meet.google.com/abc-defg-hij") = true /\
  exists e,
    StartAgent.start_agent (lit "u1") (lit "12:00:00")
      (StartAgent.link_of_message (lit "meet.google.com/abc-defg-hij")) initial_backend
    = (Raise e, initial_backend).
Proof.
  apply (scheme_less_link_is_accepted_by_the_bot_only
           (lit "meet.google.com/abc-defg-hij") (lit "u1") (lit "12:00:00")
           initial_backend).
  vm_compute. reflexivity.
Defined.

(** Once a session has been stopped it is gone from the registry: its
    status reads as not found and a second stop raises, both without any
    further effect, while the history recorded for it is still served. *)
Theorem stopped_session_cannot_be_stopped_again
    (net net' : http_result) (sid : pystr) (s : Backend) :
  is_Some (active_sessions s !! sid) ->
  exists resp s',
    stop_agent net sid s = (Val resp, s') /\
    (exists e, stop_agent net' sid s' = (Raise e, s')) /\
    get_agent_status sid s'
    = (Raise (HTTPException 404 Msg.session_not_found), s') /\
    fst (get_session_history sid s') = fst (get_session_history sid s).
Proof.
  intros [agent Hl]. rewrite !stop_agent_spec. unfold stop_result at 1. rewrite Hl.
  eexists. eexists. split; [reflexivity |].
  rewrite stop_agent_spec. unfold stop_result, get_agent_status, bind, gets.
  cbn [fst snd active_sessions session_history]. rewrite lookup_delete_eq.
  split; [by eexists |]. split; [reflexivity |].
  unfold get_session_history, bind, gets. cbn [fst snd session_history].
  by destruct (session_history s !! sid).
Qed.

Lemma stopped_session_cannot_be_stopped_again_witness :
  exists resp s',
    stop_agent (HttpFailed []) StopExample.sid StopExample.errored = (Val resp, s') /\
    (exists e, stop_agent (HttpFailed []) StopExample.sid s' = (Raise e, s')) /\
    get_agent_status StopExample.sid s'
    = (Raise (HTTPException 404 Msg.session_not_found), s') /\
    fst (get_session_history StopExample.sid s')
    = fst (get_session_history StopExample.sid StopExample.errored).
Proof.
  apply (stopped_session_cannot_be_stopped_again (HttpFailed []) (HttpFailed [])
           StopExample.sid StopExample.errored).
  vm_compute. by eexists.
Defined.


(** ** The answer of the question gate *)

Module GateFacts.

(** The lines of an answer that carry the verdict, and those that carry
    the question. *)
Definition verdict_lines (lines : list pystr) : list pystr :=
  List.filter (fun l => startswith l Tokens.need_question) lines.

Definition question_lines (lines : list pystr) : list pystr :=
  List.filter (fun l => negb (startswith l Tokens.need_question) &&
                        startswith l Tokens.question) lines.

Definition verdict (lines : list pystr) : bool :=
  match last (verdict_lines lines) with
  | Some l => contains l Tokens.yes
  | None => false
  end.

Definition question_of (lines : list pystr) : pystr :=
  match last (question_lines lines) with
  | Some l => strip (replace l Tokens.question [])
  | None => []
  end.

Lemma fold_gate_lines lines :
  fold_left gate_line lines (false, []) = (verdict lines, question_of lines).
Proof.
  induction lines as [| l lines IH] using rev_ind; [reflexivity |].
  rewrite fold_left_app, IH. cbn [fold_left gate_line].
  unfold verdict, question_of, verdict_lines, question_lines.
  rewrite !List.filter_app. cbn [List.filter].
  destruct (startswith l Tokens.need_question) eqn:Hn; cbn [negb andb].
  - by rewrite last_snoc, app_nil_r.
  - rewrite app_nil_r.
    destruct (startswith l Tokens.question) eqn:Hq.
    + by rewrite last_snoc.
    + by rewrite app_nil_r.
Qed.

End GateFacts.

(** The gate reads its answer line by line: the last line that starts
    with the verdict header decides, by whether it contains the word for
    yes anywhere, and the question is taken from the last line that starts
    with the question header; an answer without a verdict line asks
    nothing. *)
Theorem last_verdict_line_decides_the_gate (content : pystr) :
  parse_gate_answer content
  = (GateFacts.verdict (split_on ch_nl (strip content)),
     GateFacts.question_of (split_on ch_nl (strip content))) /\
  (GateFacts.verdict_lines (split_on ch_nl (strip content)) = [] ->
   fst (parse_gate_answer content) = false).
Proof.
  unfold parse_gate_answer. rewrite GateFacts.fold_gate_lines. split; [reflexivity |].
  intros Hnone. cbn [fst]. unfold GateFacts.verdict. by rewrite Hnone.
Qed.


(** ** The bot's reading of the stop response

    [stop_meeting] of the Telegram bot posts to [/stop_agent/{session_id}]
    and reads the summary of the meeting off the JSON object it gets
    back. *)

Module BotStop.

(** A decoded JSON value; of a number the code only asks whether it is
    zero.  An object is the list of its items, the keys distinct. *)
#[local] Set Warnings "-register-all".
Inductive json : Type :=
| JNull
| JBool (b : bool)
| JNum (n : Z)
| JStr (s : pystr)
| JArr (items : list json)
| JObj (items : list (pystr * json)).

(** [bool(v)] *)
Definition truthy (v : json) : bool :=
  match v with
  | JNull => false
  | JBool b => b
  | JNum n => negb (n =? 0)%Z
  | JStr s => nonempty s
  | JArr items => match items with [] => false | _ :: _ => true end
  | JObj items => match items with [] => false | _ :: _ => true end
  end.

(** [a or b] *)
Definition py_or (a b : json) : json := if truthy a then a else b.

Fixpoint assoc (k : pystr) (items : list (pystr * json)) : option json :=
  match items with
  | [] => None
  | (k', v) :: r => if str_eqb k k' then Some v else assoc k r
  end.

(** [d.get(k)] on a dict. *)
Definition dict_get (k : pystr) (items : list (pystr * json)) : json :=
  default JNull (assoc k items).

Definition k_summary : pystr := Eval vm_compute in lit "summary".
Definition k_summary_text : pystr := Eval vm_compute in lit "summary_text".
Definition k_final_summary : pystr := Eval vm_compute in lit "final_summary".
Definition k_text : pystr := Eval vm_compute in lit "text".
Definition k_action_items : pystr := Eval vm_compute in lit "action_items".
Definition k_tasks : pystr := Eval vm_compute in lit "tasks".
Definition k_session_id : pystr := Eval vm_compute in lit "session_id".
Definition k_status : pystr := Eval vm_compute in lit "status".
Definition k_message : pystr := Eval vm_compute in lit "message".
Definition k_detail : pystr := Eval vm_compute in lit "detail".
Definition k_raw_text : pystr := Eval vm_compute in lit "raw_text".
Definition internal_error : pystr := Eval vm_compute in lit "Internal Server Error".

(** What the bot sends to the chat at the end of [stop_meeting]. *)
Inductive bot_reply : Type :=
| AnswerBackendError            (* the backend returned an error on stop *)
| AnswerSummary (text : json)   (* the summary, with the Jira keyboard *)
| AnswerNoSummary.              (* no summary was received from the backend *)

Record stop_view : Type := mkStopView {
  sv_replies : list bot_reply;
  (** [last_summary] and [last_tasks], when they are stored *)
  sv_stored : option (json * json);
  (** whether the user's entry stays in the bot's [active_sessions] *)
  sv_session_kept : bool
}.

(** The fallback of lines 346-354: the bullet lines of the summary. *)
Definition tasks_of_summary (summary_text : pystr) : list pystr :=
  flat_map
    (fun line =>
       let line := strip line in
       if startswith line Tokens.dot_bullet || startswith line Tokens.dash_bullet
       then
         let task_text := strip (slice_from 2 line) in
         if nonempty task_text then [task_text] else []
       else [])
    (split_on ch_nl summary_text).

(** Lines 327-375 of [stop_meeting], from the status and the decoded body
    of the response; [None] when the handler raises (a body that is not an
    object has no [get], a summary that is not a string has no [split]). *)
Definition show_stop_response (status : Z) (data : json) : option stop_view :=
  if negb (status =? 200)%Z
  then Some (mkStopView [AnswerBackendError] None false)
  else
    match data with
    | JObj items =>
        let summary_text :=
          py_or (dict_get k_summary items)
            (py_or (dict_get k_summary_text items)
               (py_or (dict_get k_final_summary items)
                  (py_or (dict_get k_text items) (JStr [])))) in
        let action_items :=
          py_or (dict_get k_action_items items)
            (py_or (dict_get k_tasks items) (JArr [])) in
        tasks ← (if negb (truthy action_items) && truthy summary_text
                 then match summary_text with
                      | JStr t => Some (JArr (map JStr (tasks_of_summary t)))
                      | _ => None
                      end
                 else Some action_items);
        Some (mkStopView
                [if truthy summary_text then AnswerSummary summary_text
                 else AnswerNoSummary]
                (Some (summary_text, tasks)) true)
    | _ => None
    end.

(** The response the bot receives for an outcome of the backend's
    [stop_agent]: the returned dict as a JSON object with status 200, an
    [HTTPException] as its status code with the detail. *)
Definition http_of_stop (r : exc StopResponse) : Z * json :=
  match r with
  | Val resp =>
      (200%Z, JObj [(k_session_id, JStr (sr_session_id resp));
                    (k_status, JStr (sr_status resp));
                    (k_message, JStr (sr_message resp))])
  | Raise (HTTPException code detail) => (code, JObj [(k_detail, JStr detail)])
  | Raise _ => (500%Z, JObj [(k_raw_text, JStr internal_error)])
  end.

End BotStop.

(** The bot never shows a summary after a stop.  The response of
    [stop_agent] has none of the keys the bot looks for, so for a
    registered session the bot answers that no summary was received,
    storing an empty summary and no tasks; for an unknown session it
    answers that the backend returned an error and forgets the session. *)
Theorem bot_never_shows_a_summary_after_stop
    (net : http_result) (sid : pystr) (s : Backend) :
  let '(status, data) := BotStop.http_of_stop (fst (stop_agent net sid s)) in
  BotStop.show_stop_response status data
  = Some (match active_sessions s !! sid with
          | Some _ =>
              BotStop.mkStopView [BotStop.AnswerNoSummary]
                (Some (BotStop.JStr [], BotStop.JArr [])) true
          | None => BotStop.mkStopView [BotStop.AnswerBackendError] None false
          end).
Proof.
  rewrite stop_agent_spec. unfold stop_result.
  destruct (active_sessions s !! sid) as [agent |]; reflexivity.
Qed.

(** When the response of a stop does carry a summary string and no tasks,
    the bot shows that summary, and the tasks it stores are the bullet
    lines of the summary, each non-empty. *)
Theorem bot_takes_tasks_from_the_bullets_of_the_summary
    (items : list (pystr * BotStop.json)) (summary : pystr) :
  BotStop.dict_get BotStop.k_summary items = BotStop.JStr summary ->
  nonempty summary = true ->
  BotStop.truthy (BotStop.dict_get BotStop.k_action_items items) = false ->
  BotStop.truthy (BotStop.dict_get BotStop.k_tasks items) = false ->
  BotStop.show_stop_response 200 (BotStop.JObj items)
  = Some (BotStop.mkStopView
            [BotStop.AnswerSummary (BotStop.JStr summary)]
            (Some (BotStop.JStr summary,
                   BotStop.JArr (map BotStop.JStr (BotStop.tasks_of_summary summary))))
            true) /\
  forallb nonempty (BotStop.tasks_of_summary summary) = true.
Proof.
  intros Hs Hne Ha Ht. split.
  - unfold BotStop.show_stop_response. cbn [Z.eqb Pos.eqb negb].
    rewrite Hs. unfold BotStop.py_or at 1. cbn [BotStop.truthy]. rewrite Hne.
    unfold BotStop.py_or. rewrite Ha, Ht. cbn [BotStop.truthy negb andb].
    rewrite Hne. cbn [BotStop.truthy]. rewrite Hne. reflexivity.
  - unfold BotStop.tasks_of_summary.
    induction (split_on ch_nl summary) as [| l ls IH]; [reflexivity |].
    cbn [flat_map]. rewrite forallb_app, IH, andb_true_r.
    destruct (_ || _); [| reflexivity].
    destruct (nonempty (strip (slice_from 2 (strip l)))) eqn:Hn; [| reflexivity].
    cbn [forallb]. by rewrite Hn.
Qed.


Lemma bot_takes_tasks_from_the_bullets_of_the_summary_witness :
  BotStop.show_stop_response 200
    (BotStop.JObj [(BotStop.k_summary, BotStop.JStr (lit "- fix the login page"))])
  = Some (BotStop.mkStopView
            [BotStop.AnswerSummary (BotStop.JStr (lit "- fix the login page"))]
            (Some (BotStop.JStr (lit "- fix the login page"),
                   BotStop.JArr
                     (map BotStop.JStr
                        (BotStop.tasks_of_summary (lit "- fix the login page")))))
            true) /\
  forallb nonempty (BotStop.tasks_of_summary (lit "- fix the login page")) = true.
Proof.
  apply (bot_takes_tasks_from_the_bullets_of_the_summary
           [(BotStop.k_summary, BotStop.JStr (lit "- fix the login page"))]
           (lit "- fix the login page")).
  - vm_compute. reflexivity.
  - vm_compute. reflexivity.
  - vm_compute. reflexivity.
  - vm_compute. reflexivity.
Defined.


(** * Overlapping calls to the chunk endpoint

    [process_transcript_chunk] is a coroutine: it gives the event loop back
    at [await client.post] inside [clean_text_with_openrouter] and inside
    [analyze_context_with_openrouter], and another call may run before the
    response arrives.  Here the handler is cut at those two awaits.  Only
    chunk calls run side by side, so the dictionary a call holds is the one
    stored under its session id throughout. *)

Module Overlap.

Section Handler.

Context {RT : PyRuntime}.
Variable cfg : Config.

(** A call as the event loop sees it: suspended on the cleaning request,
    suspended on the gate request, or returned. *)
Inductive chunk_task : Type :=
| AwaitingClean (req : ChunkProcessRequest)
| AwaitingGate (req : ChunkProcessRequest) (cleaned_text : pystr)
| Returned (r : exc ChunkProcessResponse).

(** The two halves of [http_post]: the request leaves, the response (or the
    client's exception) comes back. *)
Definition send (q : request) : Py unit :=
  modify (fun s => mkBackend (session_history s) (active_sessions s) (outbox s ++ [q])).

Definition receive (r : http_result) : Py (Z * pystr * completion) :=
  match r with
  | HttpFailed why => raise (RuntimeError why)
  | HttpResponse code text body => ret (code, text, body)
  end.

(** [clean_text_with_openrouter] from the response on. *)
Definition cleaned_of (net : http_result) (text : pystr) : Py pystr :=
  try_except
    (resp <~ receive net;
     let '(code, _, body) := resp in
     if (code =? 200)%Z then
       c <~ message_content body;
       ret (strip c)
     else ret text)
    (fun _ => ret text).

(** [analyze_context_with_openrouter] from the response on. *)
Definition gate_answer_of (net : http_result) : Py (bool * pystr) :=
  try_except
    (resp <~ receive net;
     let '(code, _, body) := resp in
     if (code =? 200)%Z then
       c <~ message_content body;
       ret (parse_gate_answer c)
     else ret (false, []))
    (fun _ => ret (false, [])).

(** Lines 629-641: the answer, and the increment of the counter as it is
    when the gate has answered. *)
Definition decide (req : ChunkProcessRequest) (cleaned_text : pystr)
    (res : bool * pystr) : Py chunk_task :=
  let '(needs_question, question_text) := res in
  if needs_question && nonempty question_text then
    update_session (cr_session_id req)
      (fun sd => with_questions_asked (questions_asked sd + 1) sd) >>
    ret (Returned (Val (mkChunkResponse ask_question (Some question_text)
                          (Some cleaned_text))))
  else
    ret (Returned (Val (mkChunkResponse continue None (Some cleaned_text)))).

(** Lines 609-627, and [analyze_context_with_openrouter] up to its await:
    the quota is tested on the counter as it is when the chunk is
    stored. *)
Definition store_and_ask (req : ChunkProcessRequest) (cleaned_text : pystr)
  : Py chunk_task :=
  let session_id := cr_session_id req in
  update_session session_id
    (fun sd => with_chunks
       (chunks sd ++ [mkChunk (cr_timestamp req) (cr_text_chunk req) cleaned_text]) sd) >>
  let speakers := findall_speakers cleaned_text in
  update_session session_id
    (fun sd => with_participants (participants sd ∪ list_to_set speakers) sd) >>
  session_data <~ get_session session_id;
  let history_texts := map chunk_cleaned (chunks session_data) in
  let asked := questions_asked session_data in
  if negb (ai_configured cfg) then decide req cleaned_text (false, [])
  else if (asked >=? 2)%Z then decide req cleaned_text (false, [])
  else
    send (ReqGate (join [ch_nl] (slice_from (-3) history_texts)) cleaned_text asked) >>
    ret (AwaitingGate req cleaned_text).

(** The handler's [except Exception]. *)
Definition guarded (m : Py chunk_task) (s : Backend) : chunk_task * Backend :=
  match m s with
  | (Val t, s') => (t, s')
  | (Raise e, s') =>
      (Returned (Raise (HTTPException 500 (Msg.failed_chunk ++ str_of_exn e))), s')
  end.

(** From the call to its first await (lines 593-607). *)
Definition start (req : ChunkProcessRequest) (now : pystr)
  : Backend -> chunk_task * Backend :=
  guarded
    (let session_id := cr_session_id req in
     h <~ gets session_history;
     (match h !! session_id with
      | None => set_session_history (<[session_id := fresh_session now]> h)
      | Some _ => ret tt
      end) >>
     if negb (ai_configured cfg) then store_and_ask req (cr_text_chunk req)
     else send (ReqClean (cr_text_chunk req)) >> ret (AwaitingClean req)).

(** From the arrival of the awaited response to the next await or the
    return. *)
Definition resume (t : chunk_task) (net : http_result)
  : Backend -> chunk_task * Backend :=
  match t with
  | AwaitingClean req =>
      guarded (cleaned_text <~ cleaned_of net (cr_text_chunk req);
               store_and_ask req cleaned_text)
  | AwaitingGate req cleaned_text =>
      guarded (res <~ gate_answer_of net;
               decide req cleaned_text res)
  | Returned _ => fun s => (t, s)
  end.

(** One call run with no other call in between. *)
Definition run_alone (req : ChunkProcessRequest) (env : chunk_env) (s : Backend)
  : chunk_task * Backend :=
  let '(t1, s1) := start req (ce_now env) s in
  let '(t2, s2) := resume t1 (ce_clean env) s1 in
  resume t2 (ce_gate env) s2.

(** What the event loop does next: a new call arrives, or the response the
    [i]-th call awaits comes in. *)
Inductive event : Type :=
| Arrive (req : ChunkProcessRequest) (now : pystr)
| Respond (i : nat) (net : http_result).

Definition step (p : Backend * list chunk_task) (e : event)
  : Backend * list chunk_task :=
  let '(s, tasks) := p in
  match e with
  | Arrive req now =>
      let '(t, s') := start req now s in (s', tasks ++ [t])
  | Respond i net =>
      match tasks !! i with
      | Some t => let '(t', s') := resume t net s in (s', <[i := t']> tasks)
      | None => p
      end
  end.

Definition run_events (es : list event) (s : Backend) : Backend * list chunk_task :=
  fold_left step es (s, []).

End Handler.

End Overlap.

Module OverlapFacts.

Section Facts.

Context {RT : PyRuntime}.
Variable cfg : Config.

Lemma cleaned_of_spec net text s :
  ai_configured cfg = true ->
  Overlap.cleaned_of net text s = (Val (clean_outcome cfg net text), s).
Proof.
  intros Hc. unfold Overlap.cleaned_of, clean_outcome. rewrite Hc.
  unfold try_except, bind, Overlap.receive, ret, raise, message_content.
  destruct net as [why | code text' [c | why]]; simpl; try reflexivity;
    destruct (code =? 200)%Z; reflexivity.
Qed.

Lemma gate_answer_of_spec net asked s :
  ai_configured cfg = true -> (asked < 2)%Z ->
  Overlap.gate_answer_of net s = (Val (gate_outcome cfg net asked), s).
Proof.
  intros Hc Hlt. unfold Overlap.gate_answer_of, gate_outcome. rewrite Hc.
  replace (asked <? 2)%Z with true by (symmetry; apply Z.ltb_lt; lia).
  unfold try_except, bind, Overlap.receive, ret, raise, message_content.
  destruct net as [why | code text' [c | why]]; simpl; try reflexivity;
    destruct (code =? 200)%Z; reflexivity.
Qed.

(** The dictionary once the chunk is stored and the speakers added. *)
Definition stored (req : ChunkProcessRequest) (cleaned_text : pystr) (sd : SessionData)
  : SessionData :=
  with_participants
    (participants sd ∪ list_to_set (findall_speakers cleaned_text))
    (with_chunks
       (chunks sd ++ [mkChunk (cr_timestamp req) (cr_text_chunk req) cleaned_text]) sd).

Lemma decide_spec req cleaned_text res sd h a o :
  Overlap.decide req cleaned_text res (mkBackend (<[cr_session_id req := sd]> h) a o)
  = if fst res && nonempty (snd res) then
      (Val (Overlap.Returned
              (Val (mkChunkResponse ask_question (Some (snd res)) (Some cleaned_text)))),
       mkBackend
         (<[cr_session_id req := with_questions_asked (questions_asked sd + 1) sd]> h)
         a o)
    else
      (Val (Overlap.Returned (Val (mkChunkResponse continue None (Some cleaned_text)))),
       mkBackend (<[cr_session_id req := sd]> h) a o).
Proof.
  destruct res as [needs q]. unfold Overlap.decide. cbn [fst snd].
  destruct (needs && nonempty q); [| reflexivity].
  unfold bind. by rewrite update_session_insert.
Qed.

Lemma store_and_ask_spec req cleaned_text sd h a o :
  Overlap.store_and_ask cfg req cleaned_text
    (mkBackend (<[cr_session_id req := sd]> h) a o)
  = let sd' := stored req cleaned_text sd in
    if ai_configured cfg && (questions_asked sd' <? 2)%Z then
      (Val (Overlap.AwaitingGate req cleaned_text),
       mkBackend (<[cr_session_id req := sd']> h) a
         (o ++ [ReqGate (join [ch_nl] (slice_from (-3) (map chunk_cleaned (chunks sd'))))
                        cleaned_text (questions_asked sd')]))
    else
      (Val (Overlap.Returned (Val (mkChunkResponse continue None (Some cleaned_text)))),
       mkBackend (<[cr_session_id req := sd']> h) a o).
Proof.
  unfold Overlap.store_and_ask.
  unfold bind at 1. rewrite update_session_insert.
  unfold bind at 1. rewrite update_session_insert.
  unfold bind at 1. rewrite get_session_insert.
  match goal with
  | |- context [map chunk_cleaned (chunks ?x)] =>
      change x with (stored req cleaned_text sd)
  end.
  cbv zeta.
  destruct (ai_configured cfg); cbn [negb andb].
  - rewrite Z.geb_leb. generalize (stored req cleaned_text sd) as sd'. intros sd'.
    destruct (Z.ltb_spec (questions_asked sd') 2) as [Hlt | Hge].
    + replace (2 <=? questions_asked sd')%Z with false
        by (symmetry; apply Z.leb_gt; lia).
      reflexivity.
    + replace (2 <=? questions_asked sd')%Z with true
        by (symmetry; apply Z.leb_le; lia).
      by rewrite decide_spec.
  - by rewrite decide_spec.
Qed.

End Facts.

End OverlapFacts.

Lemma stored_chunk_is_stored `{PyRuntime} cfg req env s :
  stored_chunk cfg req env s
  = OverlapFacts.stored req (clean_outcome cfg (ce_clean env) (cr_text_chunk req))
      (default (fresh_session (ce_now env)) (session_history s !! cr_session_id req)).
Proof. reflexivity. Qed.

(** Cut at its awaits and run with no other call in between, the handler
    is the handler served in one piece: the same answer, the same
    dictionaries and the same requests in the same order. *)
Theorem handler_run_alone_is_the_whole_handler
    `{PyRuntime} (cfg : Config) (req : ChunkProcessRequest) (env : chunk_env)
    (s : Backend) :
  Overlap.run_alone cfg req env s
  = (Overlap.Returned (fst (process_transcript_chunk cfg req env s)),
     snd (process_transcript_chunk cfg req env s)).
Proof.
  rewrite process_transcript_chunk_spec. cbn [fst snd].
  unfold chunk_result, chunk_requests. rewrite stored_chunk_is_stored.
  destruct s as [h a o]. cbn [session_history active_sessions outbox].
  unfold Overlap.run_alone, Overlap.start.
  set (sid := cr_session_id req).
  set (sd0 := default (fresh_session (ce_now env)) (h !! sid)).
  assert (Hinit :
    (match h !! sid with
     | None => set_session_history (<[sid := fresh_session (ce_now env)]> h)
     | Some _ => ret tt
     end) (mkBackend h a o) = (Val tt, mkBackend (<[sid := sd0]> h) a o)).
  { subst sd0. destruct (h !! sid) as [sd |] eqn:Hl; simpl.
    - unfold ret. by rewrite insert_id.
    - reflexivity. }
  unfold Overlap.guarded at 1. unfold bind at 1. unfold gets at 1.
  cbn [session_history]. unfold bind at 1. rewrite Hinit.
  unfold clean_requests, gate_requests, gate_outcome.
  destruct (ai_configured cfg) eqn:Hc; cbn [negb andb].
  - unfold bind at 1, Overlap.send at 1, modify, ret.
    cbn [session_history active_sessions outbox Overlap.resume].
    unfold Overlap.guarded at 1. unfold bind at 1.
    rewrite (OverlapFacts.cleaned_of_spec cfg _ _ _ Hc).
    generalize (clean_outcome cfg (ce_clean env) (cr_text_chunk req)) as cleaned.
    intros cleaned. subst sid.
    rewrite OverlapFacts.store_and_ask_spec. cbv zeta. rewrite Hc. cbn [andb].
    generalize (OverlapFacts.stored req cleaned sd0) as sd'. intros sd'.
    destruct (Z.ltb_spec (questions_asked sd') 2) as [Hlt | Hge].
    + cbn [Overlap.resume]. unfold Overlap.guarded, bind.
      rewrite (OverlapFacts.gate_answer_of_spec cfg _ (questions_asked sd') _ Hc Hlt).
      rewrite OverlapFacts.decide_spec. unfold gate_outcome. rewrite Hc.
      replace (questions_asked sd' <? 2)%Z with true
        by (symmetry; apply Z.ltb_lt; lia).
      cbn [andb].
      match goal with
      | |- context [if fst ?g && _ then _ else _] => destruct g as [needs q]
      end.
      cbn [fst snd]. rewrite <- app_assoc.
      by destruct (needs && nonempty q).
    + cbn [Overlap.resume]. by rewrite app_nil_r.
  - subst sid. rewrite OverlapFacts.store_and_ask_spec. cbv zeta. rewrite Hc.
    cbn [andb Overlap.resume]. unfold clean_outcome. rewrite Hc.
    by rewrite !app_nil_r.
Qed.

(** Three calls for one session that overlap at the gate. *)
Module OverlapExample.

Definition sid : pystr := Eval vm_compute in lit "s1".
Definition now : pystr := Eval vm_compute in lit "12:00:00".

Definition call (text : string) : ChunkProcessRequest :=
  mkChunkRequest sid (lit text) now.

(** The cleaning request fails, so each chunk is stored as it came; the
    gate answers that a question is needed. *)
Definition down : http_result := HttpFailed [].

Definition yes_answer : pystr :=
  Eval vm_compute in
    Tokens.need_question ++ lit " Да" ++ [ch_nl] ++
    Tokens.question ++ lit " Кто отвечает?".

Definition says_yes : http_result := HttpResponse 200 [] (Content yes_answer).

(** The three calls arrive, each is cleaned and stored and sends its gate
    request while the counter is still 0, and then the three answers come
    in. *)
Definition overlapped : list Overlap.event :=
  [Overlap.Arrive (call "one") now;
   Overlap.Arrive (call "two") now;
   Overlap.Arrive (call "three") now;
   Overlap.Respond 0 down; Overlap.Respond 1 down; Overlap.Respond 2 down;
   Overlap.Respond 0 says_yes; Overlap.Respond 1 says_yes; Overlap.Respond 2 says_yes].

(** The same three calls with the same responses, served one after the
    other. *)
Definition in_turn : list backend_call :=
  [CallChunk (call "one") (mkChunkEnv now down says_yes);
   CallChunk (call "two") (mkChunkEnv now down says_yes);
   CallChunk (call "three") (mkChunkEnv now down says_yes)].

Definition action_of (t : Overlap.chunk_task) : option action :=
  match t with
  | Overlap.Returned (Val resp) => Some (resp_action resp)
  | _ => None
  end.

End OverlapExample.

(** C1 fails for calls that overlap.  Three calls for one session whose
    gate requests are in flight together all pass the quota test with the
    counter at 0, and each adds one when its answer arrives: three
    questions are asked and the counter ends at 3.  Served one after the
    other, the same calls stop at 2. *)
Theorem three_overlapping_calls_ask_three_questions :
  map OverlapExample.action_of
    (snd (Overlap.run_events (RT := Sample.runtime) sample_config
            OverlapExample.overlapped initial_backend))
  = [Some ask_question; Some ask_question; Some ask_question] /\
  asked_so_far
    (fst (Overlap.run_events (RT := Sample.runtime) sample_config
            OverlapExample.overlapped initial_backend))
    OverlapExample.sid = 3%Z /\
  asked_so_far
    (run_calls (RT := Sample.runtime) sample_config OverlapExample.in_turn
       initial_backend)
    OverlapExample.sid = 2%Z.
Proof. vm_compute. repeat split. Qed.



(** * Emphasis inside the content of a summary

    In the plain form the parser removes the asterisks from the names of
    the participants, from the text on the line of the summary header and
    from every list item, but a continuation line of the summary is
    appended as it is. *)

Module StarsExample.

Import Markdown.

Definition doc : list doc_line :=
  [Header H_participants (lit " **Анна**, Борис");
   Header H_key_decisions [];
   Text (lit "- Перейти на **новый** API");
   Header H_summary (lit " Это **важно**");
   Text (lit "И это **тоже**")].

Definition from_plain : MeetingSummary :=
  summary_of_response (RT := Sample.runtime) (render false doc)
    EmphasisExample.session.

End StarsExample.

Lemma only_continuation_lines_keep_their_stars :
  ms_participants StarsExample.from_plain = [lit "Анна"; lit "Борис"] /\
  ms_key_decisions StarsExample.from_plain = [lit "Перейти на новый API"] /\
  ms_summary_text StarsExample.from_plain = lit "Это важно И это **тоже**".
Proof. vm_compute. repeat split. Qed.
